(** * ActivityWatch integration for Home Assistant: model and properties

    A shallow embedding of [custom_components/activitywatch]: the REST client
    ([api.py]), the polling coordinator ([coordinator.py]), the entity read
    views ([binary_sensor.py], [sensor.py]), the query-stats service
    ([services.py]) and the config and options flows ([config_flow.py]).

    Python values decoded from JSON are a tagged union; every operation that
    can raise in Python returns a [res], and code that mutates [self] or talks
    to the server runs in a state monad whose state survives a raise, as an
    object's fields do. *)

From Stdlib Require Import ZArith List String Ascii Bool Lia Floats DecimalString.
Import ListNotations.

Local Open Scope string_scope.
Local Open Scope Z_scope.

(** ** Python values *)

(** What [json.loads] can return: [None], [bool], [int], [float], [str],
    [list], and [dict] with string keys in insertion order. *)
#[warnings="-register-all"]
Inductive value : Type :=
| VNone
| VBool (b : bool)
| VInt (z : Z)
| VFloat (f : float)
| VStr (s : string)
| VList (l : list value)
| VDict (d : list (string * value)).

(** The exceptions that occur.  [ClientError] stands for [aiohttp.ClientError]
    and its subclasses and carries [str(err)]; [OtherError] is any exception
    outside the classes named here. *)
Inductive exn : Type :=
| AttributeError
| TypeError
| KeyError
| IndexError
| ValueError
| OverflowError
| ClientError (msg : string)
| OtherError (name : string)
| ActivityWatchApiError (msg : string)
| ActivityWatchApiConnectionError (msg : string)
| UpdateFailed (msg : string).

(** A computation either returns or raises. *)
Inductive res (A : Type) : Type :=
| Ok (a : A)
| Raise (e : exn).
Arguments Ok {A} a.
Arguments Raise {A} e.

Definition res_bind {A B : Type} (c : res A) (k : A -> res B) : res B :=
  match c with
  | Ok a => k a
  | Raise e => Raise e
  end.

Declare Scope res_scope.
Delimit Scope res_scope with res.
Notation "x <- c ;; k" := (res_bind c (fun x => k))
  (at level 61, c at next level, right associativity) : res_scope.

(** [class ActivityWatchApiConnectionError(ActivityWatchApiError)]: what an
    [except ActivityWatchApiError] clause catches. *)
Definition isinstance_ActivityWatchApiError (e : exn) : bool :=
  match e with
  | ActivityWatchApiError _ | ActivityWatchApiConnectionError _ => true
  | _ => false
  end.

Definition isinstance_ActivityWatchApiConnectionError (e : exn) : bool :=
  match e with
  | ActivityWatchApiConnectionError _ => true
  | _ => false
  end.

(** [str(err)] for the exceptions that carry their message; the code prints
    no others. *)
Definition exn_str (e : exn) : string :=
  match e with
  | ClientError m | OtherError m | ActivityWatchApiError m
  | ActivityWatchApiConnectionError m | UpdateFailed m => m
  | _ => EmptyString
  end.

(** The parts of Python's text handling that depend on Unicode tables or on
    number formatting are an interface: [lower] is [str.lower], [str_other]
    is [str(v)] for a [v] that is not itself a [str], [int_of_str] is
    [int(s)] for a [str]. *)
Class Text : Type := {
  lower : string -> string;
  str_other : value -> string;
  int_of_str : string -> res Z
}.

(** *** Floats: binary64, through their exact decomposition *)

(** [float(z)] for an [int]: round to nearest even, [OverflowError] when the
    result does not fit. *)
Definition float_of_Z (z : Z) : res float :=
  let f := SF2Prim (binary_normalize prec emax z 0 false) in
  if is_infinity f then Raise OverflowError else Ok f.

Definition signed (s : bool) (n : Z) : Z := if s then - n else n.

(** Magnitude of [m * 2^e] cut to an integer, toward zero. *)
Definition trunc_mag (m : positive) (e : Z) : Z :=
  if 0 <=? e then Z.pos m * 2 ^ e else Z.pos m / 2 ^ (- e).

(** Magnitude of [m * 2^e] rounded to the nearest integer, ties to even. *)
Definition round_mag (m : positive) (e : Z) : Z :=
  if 0 <=? e then Z.pos m * 2 ^ e
  else
    let d := 2 ^ (- e) in
    let q := Z.pos m / d in
    let r := Z.pos m mod d in
    match 2 * r ?= d with
    | Lt => q
    | Gt => q + 1
    | Eq => if Z.even q then q else q + 1
    end.

(** [int(f)] for a [float]. *)
Definition float_trunc (f : float) : res Z :=
  match Prim2SF f with
  | S754_zero _ => Ok 0
  | S754_finite s m e => Ok (signed s (trunc_mag m e))
  | S754_infinity _ => Raise OverflowError
  | S754_nan => Raise ValueError
  end.

(** [round(f)] for a [float], one argument. *)
Definition float_round (f : float) : res Z :=
  match Prim2SF f with
  | S754_zero _ => Ok 0
  | S754_finite s m e => Ok (signed s (round_mag m e))
  | S754_infinity _ => Raise OverflowError
  | S754_nan => Raise ValueError
  end.

(** [f == z] for a [float] and an [int]: exact, no conversion of [z]. *)
Definition float_eq_Z (f : float) (z : Z) : bool :=
  match Prim2SF f with
  | S754_zero _ => z =? 0
  | S754_finite s m e =>
      if 0 <=? e then z =? signed s (Z.pos m) * 2 ^ e
      else z * 2 ^ (- e) =? signed s (Z.pos m)
  | _ => false
  end.

(** *** Builtins on values *)

Fixpoint dict_lookup (k : string) (d : list (string * value)) : option value :=
  match d with
  | [] => None
  | (k', v) :: d' => if String.eqb k k' then Some v else dict_lookup k d'
  end.

(** [v.get(k, default)]: only a [dict] has the method. *)
Definition py_get (v : value) (k : string) (default : value) : res value :=
  match v with
  | VDict d =>
      Ok (match dict_lookup k d with Some x => x | None => default end)
  | _ => Raise AttributeError
  end.

(** Truth value of [if v:]. *)
Definition truthy (v : value) : bool :=
  match v with
  | VNone => false
  | VBool b => b
  | VInt z => negb (z =? 0)
  | VFloat f => negb (PrimFloat.eqb f 0%float)
  | VStr s => negb (String.eqb s EmptyString)
  | VList l => match l with [] => false | _ => true end
  | VDict d => match d with [] => false | _ => true end
  end.

Definition str_truthy (s : option string) : bool :=
  match s with
  | Some s => negb (String.eqb s EmptyString)
  | None => false
  end.

Definition isinstance_list (v : value) : bool :=
  match v with VList _ => true | _ => false end.

(** [a == b].  [bool] is an [int]; numbers compare by value across types;
    lists element by element; dicts by key. *)
Fixpoint py_eq (a b : value) {struct a} : bool :=
  match a, b with
  | VNone, VNone => true
  | VStr s, VStr t => String.eqb s t
  | VBool x, VBool y => Bool.eqb x y
  | VBool x, VInt z | VInt z, VBool x => Z.b2z x =? z
  | VBool x, VFloat f | VFloat f, VBool x => float_eq_Z f (Z.b2z x)
  | VInt x, VInt y => x =? y
  | VInt z, VFloat f | VFloat f, VInt z => float_eq_Z f z
  | VFloat f, VFloat g => PrimFloat.eqb f g
  | VList l, VList m =>
      (fix go (l m : list value) {struct l} : bool :=
         match l, m with
         | [], [] => true
         | x :: l', y :: m' => py_eq x y && go l' m'
         | _, _ => false
         end) l m
  | VDict d, VDict d' =>
      (Nat.eqb (List.length d) (List.length d')) &&
      (fix go (d : list (string * value)) {struct d} : bool :=
         match d with
         | [] => true
         | (k, v) :: r =>
             match dict_lookup k d' with
             | Some w => py_eq v w
             | None => false
             end && go r
         end) d
  | _, _ => false
  end.

(** [v[0]]. *)
Definition py_index0 (v : value) : res value :=
  match v with
  | VList (x :: _) => Ok x
  | VList [] => Raise IndexError
  | VStr (String c _) => Ok (VStr (String c EmptyString))
  | VStr EmptyString => Raise IndexError
  | VDict _ => Raise KeyError
  | _ => Raise TypeError
  end.

(** Is [p] a contiguous part of [s]: [p in s] for two [str]. *)
Fixpoint contains (p s : string) : bool :=
  String.prefix p s ||
  match s with
  | EmptyString => false
  | String _ s' => contains p s'
  end.

(** [needle in v] for a [str] needle. *)
Definition str_in (needle : string) (v : value) : res bool :=
  match v with
  | VStr s => Ok (contains needle s)
  | VList l => Ok (existsb (py_eq (VStr needle)) l)
  | VDict d => Ok (existsb (fun kv => String.eqb needle (fst kv)) d)
  | _ => Raise TypeError
  end.

(** [str(v)]. *)
Definition py_str {T : Text} (v : value) : string :=
  match v with
  | VStr s => s
  | _ => str_other v
  end.

(** [[c.lower() for c in l]]: every element must be a [str]. *)
Fixpoint lower_all {T : Text} (l : list value) : res (list string) :=
  match l with
  | [] => Ok []
  | VStr s :: l' =>
      (rest <- lower_all l' ;; Ok (lower s :: rest))%res
  | _ :: _ => Raise AttributeError
  end.

(** [s in l] for a list of [str]. *)
Definition str_mem (s : string) (l : list string) : bool :=
  existsb (String.eqb s) l.

(** [t + v] for a [float] [t], as [total += v] computes it. *)
Definition float_add (t : float) (v : value) : res float :=
  match v with
  | VFloat g => Ok (t + g)%float
  | VInt z => (g <- float_of_Z z ;; Ok (t + g)%float)%res
  | VBool b => Ok (t + (if b then 1 else 0))%float
  | _ => Raise TypeError
  end.

(** [round(v)]. *)
Definition py_round (v : value) : res Z :=
  match v with
  | VFloat f => float_round f
  | VInt z => Ok z
  | VBool b => Ok (Z.b2z b)
  | _ => Raise TypeError
  end.

(** [int(v)]. *)
Definition py_int {T : Text} (v : value) : res Z :=
  match v with
  | VFloat f => float_trunc f
  | VInt z => Ok z
  | VBool b => Ok (Z.b2z b)
  | VStr s => int_of_str s
  | _ => Raise TypeError
  end.

(** Decimal text of an [int], as an f-string or [str] renders it. *)
Definition str_of_Z (z : Z) : string :=
  NilZero.string_of_int (Z.to_int z).

(** ** Stateful computations

    [M S A]: a computation over a state [S] that returns an [A] or raises.
    The state reached is kept in both cases: an assignment to a field made
    before a raise stays made. *)
Definition M (S A : Type) : Type := S -> res A * S.

Definition ret {S A : Type} (a : A) : M S A := fun s => (Ok a, s).

Definition raise {S A : Type} (e : exn) : M S A := fun s => (Raise e, s).

Definition bind {S A B : Type} (c : M S A) (k : A -> M S B) : M S B :=
  fun s =>
    match c s with
    | (Ok a, s') => k a s'
    | (Raise e, s') => (Raise e, s')
    end.

Definition lift_res {S A : Type} (r : res A) : M S A := fun s => (r, s).

Definition gets {S A : Type} (f : S -> A) : M S A := fun s => (Ok (f s), s).

Definition modify {S : Type} (f : S -> S) : M S unit := fun s => (Ok tt, f s).

(** [try: c except ...: h e]; a handler that does not match re-raises. *)
Definition try_except {S A : Type} (c : M S A) (h : exn -> M S A) : M S A :=
  fun s =>
    match c s with
    | (Ok a, s') => (Ok a, s')
    | (Raise e, s') => h e s'
    end.

Declare Scope monad_scope.
Delimit Scope monad_scope with monad.
Notation "x <- c ;; k" := (bind c (fun x => k))
  (at level 61, c at next level, right associativity) : monad_scope.
Notation "c ;;; k" := (bind c (fun _ => k))
  (at level 61, right associativity) : monad_scope.

(** ** The HTTP session (aiohttp) *)

Module aiohttp.

Inductive method : Type := GET | POST.

Record request : Type := {
  req_method : method;
  url : string;
  headers : list (string * string);
  params : option (list (string * string));
  json_body : option value
}.

(** A response: its status, and what awaiting [resp.text()] and
    [resp.json()] gives, each of which may raise. *)
Record response : Type := {
  status : Z;
  text : res string;
  json : res value
}.

(** What entering [async with session.get(...)] does: a response arrives or
    an exception is raised. *)
Inductive outcome : Type :=
| Responded (resp : response)
| Failed (e : exn).

(** The session and the server behind it.  [World] is whatever the server's
    answers depend on; a request may change it. *)
Class ClientSession : Type := {
  World : Type;
  send : request -> World -> outcome * World
}.

End aiohttp.

(** ** const.py *)

Definition DOMAIN : string := "activitywatch".
Definition CONF_DEVICE_NAME : string := "device_name".
Definition BUCKET_WINDOW : string := "aw-watcher-window".
Definition BUCKET_AFK : string := "aw-watcher-afk".
Definition EVENT_ACTIVITY_SWITCH : string := "activitywatch_event".

(** ** api.py *)

Module api.
Import aiohttp.

Record ActivityWatchApiClient : Type := {
  _base_url : string;
  _api_key : option string
}.

Definition __init__ (host : string) (port : Z) (api_key : option string)
  : ActivityWatchApiClient :=
  {| _base_url := "http://" ++ host ++ ":" ++ str_of_Z port;
     _api_key := api_key |}.

Definition _headers (self : ActivityWatchApiClient) : list (string * string) :=
  let headers := [("Accept", "application/json")] in
  match _api_key self with
  | Some k =>
      if String.eqb k EmptyString then headers
      else headers ++ [("Authorization", "Bearer " ++ k)]
  | None => headers
  end.

(** [except aiohttp.ClientError as err: raise ActivityWatchApiConnectionError]:
    any other exception passes through. *)
Definition except_ClientError {A : Type} (self : ActivityWatchApiClient)
  (r : res A) : res A :=
  match r with
  | Raise (ClientError err) =>
      Raise (ActivityWatchApiConnectionError
               ("Cannot connect to ActivityWatch at " ++ _base_url self
                ++ ": " ++ err))
  | _ => r
  end.

(** The body of the [async with] block, given which statuses pass. *)
Definition read_response (accepted : Z -> bool) (path : string)
  (o : outcome) : res value :=
  match o with
  | Failed e => Raise e
  | Responded resp =>
      if negb (accepted (status resp)) then
        (text <- text resp ;;
         Raise (ActivityWatchApiError
                  ("HTTP " ++ str_of_Z (status resp) ++ " from " ++ path
                   ++ ": " ++ text)))%res
      else json resp
  end.

(** The request [session.get(url, headers=..., params=...)] sends. *)
Definition get_request (self : ActivityWatchApiClient) (path : string)
  (params : option (list (string * string))) : request :=
  {| req_method := GET;
     url := _base_url self ++ "/api/0" ++ path;
     headers := _headers self;
     params := params;
     json_body := None |}.

(** The request [session.post(url, headers=..., json=data)] sends. *)
Definition post_request (self : ActivityWatchApiClient) (path : string)
  (data : option value) : request :=
  {| req_method := POST;
     url := _base_url self ++ "/api/0" ++ path;
     headers := _headers self;
     params := None;
     json_body := data |}.

Definition _get {Se : ClientSession} (self : ActivityWatchApiClient)
  (path : string) (params : option (list (string * string))) : M World value :=
  fun w =>
    let (o, w') := send (get_request self path params) w in
    (except_ClientError self
       (read_response (fun st => st =? 200) path o), w').

Definition _post {Se : ClientSession} (self : ActivityWatchApiClient)
  (path : string) (data : option value) : M World value :=
  fun w =>
    let (o, w') := send (post_request self path data) w in
    (except_ClientError self
       (read_response (fun st => (st =? 200) || (st =? 201)) path o), w').

Definition async_get_info {Se : ClientSession} (self : ActivityWatchApiClient)
  : M World value :=
  _get self "/info" None.

Definition async_get_buckets {Se : ClientSession}
  (self : ActivityWatchApiClient) : M World value :=
  _get self "/buckets/" None.

Definition async_get_events {Se : ClientSession}
  (self : ActivityWatchApiClient) (bucket_id : string) (limit : Z)
  : M World value :=
  _get self ("/buckets/" ++ bucket_id ++ "/events")
    (Some [("limit", str_of_Z limit)]).

Definition strs (l : list string) : value := VList (map VStr l).

Definition async_query {Se : ClientSession} (self : ActivityWatchApiClient)
  (query timeperiods : list string) : M World value :=
  _post self "/query/"
    (Some (VDict [("query", strs query); ("timeperiods", strs timeperiods)])).

(** The comprehension over [buckets.items()]: the ids whose info has
    [bucket_type] in its [type] (the empty string when it has none). *)
Fixpoint matching_buckets (bucket_type : string)
  (items : list (string * value)) : res (list string) :=
  match items with
  | [] => Ok []
  | (bid, info) :: rest =>
      (ty <- py_get info "type" (VStr EmptyString) ;;
       hit <- str_in bucket_type ty ;;
       tl <- matching_buckets bucket_type rest ;;
       Ok (if hit : bool then bid :: tl else tl))%res
  end.

(** [buckets.items()]. *)
Definition items (v : value) : res (list (string * value)) :=
  match v with
  | VDict d => Ok d
  | _ => Raise AttributeError
  end.

Definition async_find_buckets {Se : ClientSession}
  (self : ActivityWatchApiClient) (bucket_type : string)
  : M World (list string) :=
  (buckets <- async_get_buckets self ;;
   lift_res (its <- items buckets ;; matching_buckets bucket_type its)%res
  )%monad.

Definition async_validate_connection {Se : ClientSession}
  (self : ActivityWatchApiClient) : M World bool :=
  (_ <- async_get_info self ;; ret true)%monad.

End api.

(** ** coordinator.py *)

Module coordinator.
Import aiohttp api.

(** Container for the two latest events; [VNone] is Python's [None]. *)
Record ActivityWatchData : Type := {
  window_event : value;
  afk_event : value
}.

(** [ActivityWatchData()] *)
Definition new_data : ActivityWatchData :=
  {| window_event := VNone; afk_event := VNone |}.

(** The coordinator's own fields, and [data], the cached snapshot that the
    base class keeps ([None] until a refresh has succeeded). *)
Record ActivityWatchCoordinator : Type := {
  client : ActivityWatchApiClient;
  device_name : string;
  window_bucket : option string;
  afk_bucket : option string;
  _previous_window_app : value;
  data : option ActivityWatchData
}.

Definition __init__ (client : ActivityWatchApiClient) (device_name : string)
  : ActivityWatchCoordinator :=
  {| client := client;
     device_name := device_name;
     window_bucket := None;
     afk_bucket := None;
     _previous_window_app := VNone;
     data := None |}.

Definition set_window_bucket (b : option string)
  (c : ActivityWatchCoordinator) : ActivityWatchCoordinator :=
  {| client := client c; device_name := device_name c;
     window_bucket := b; afk_bucket := afk_bucket c;
     _previous_window_app := _previous_window_app c; data := data c |}.

Definition set_afk_bucket (b : option string)
  (c : ActivityWatchCoordinator) : ActivityWatchCoordinator :=
  {| client := client c; device_name := device_name c;
     window_bucket := window_bucket c; afk_bucket := b;
     _previous_window_app := _previous_window_app c; data := data c |}.

Definition set_previous_window_app (v : value)
  (c : ActivityWatchCoordinator) : ActivityWatchCoordinator :=
  {| client := client c; device_name := device_name c;
     window_bucket := window_bucket c; afk_bucket := afk_bucket c;
     _previous_window_app := v; data := data c |}.

Definition set_data (d : option ActivityWatchData)
  (c : ActivityWatchCoordinator) : ActivityWatchCoordinator :=
  {| client := client c; device_name := device_name c;
     window_bucket := window_bucket c; afk_bucket := afk_bucket c;
     _previous_window_app := _previous_window_app c; data := d |}.

(** An event fired on the host's bus: its type and its payload. *)
Definition bus_event : Type := (string * value)%type.

(** What a coordinator method can read and write: [self], the host's event
    bus (events in firing order), and the server. *)
Record State {Se : ClientSession} : Type := {
  self : ActivityWatchCoordinator;
  bus : list bus_event;
  world : World
}.

Section Methods.
Context {Se : ClientSession}.

Definition on_self (f : ActivityWatchCoordinator -> ActivityWatchCoordinator)
  : M State unit :=
  modify (fun s => {| self := f (self s); bus := bus s; world := world s |}).

(** [hass.bus.async_fire(event_type, event_data)] *)
Definition async_fire (event_type : string) (event_data : value)
  : M State unit :=
  modify (fun s => {| self := self s;
                      bus := bus s ++ [(event_type, event_data)];
                      world := world s |}).

(** An awaited client call, run against the server. *)
Definition await {A : Type} (c : M World A) : M State A :=
  fun s =>
    let (r, w') := c (world s) in
    (r, {| self := self s; bus := bus s; world := w' |}).

Definition async_setup : M State unit :=
  (c <- gets (fun s => client (self s)) ;;
   window_buckets <- await (async_find_buckets c BUCKET_WINDOW) ;;
   match window_buckets with
   | b :: _ => on_self (set_window_bucket (Some b))
   | [] => ret tt
   end ;;;
   afk_buckets <- await (async_find_buckets c BUCKET_AFK) ;;
   match afk_buckets with
   | b :: _ => on_self (set_afk_bucket (Some b))
   | [] => ret tt
   end)%monad.

Definition _fire_window_switch_event (data : ActivityWatchData)
  : M State unit :=
  match window_event data with
  | VNone => ret tt
  | ev =>
      (event_data <- lift_res (py_get ev "data" (VDict [])) ;;
       current_app <- lift_res (py_get event_data "app" VNone) ;;
       previous <- gets (fun s => _previous_window_app (self s)) ;;
       match previous with
       | VNone =>
           (* First poll: record but don't fire *)
           on_self (set_previous_window_app current_app)
       | _ =>
           if negb (py_eq current_app previous) then
             (on_self (set_previous_window_app current_app) ;;;
              device <- gets (fun s => device_name (self s)) ;;
              title <- lift_res (py_get event_data "title" (VStr EmptyString)) ;;
              url <- lift_res (py_get event_data "url" (VStr EmptyString)) ;;
              async_fire EVENT_ACTIVITY_SWITCH
                (VDict [("device_id", VStr device);
                        ("type", VStr "window_switch");
                        ("app", current_app);
                        ("title", title);
                        ("url", url)]))
           else ret tt
       end)%monad
  end.

(** [if self.window_bucket:] / [if self.afk_bucket:] then fetch the latest
    event and, [if events:], keep [events[0]]. *)
Definition latest_event (bucket : option string) : M State (option value) :=
  if str_truthy bucket then
    match bucket with
    | Some b =>
        (c <- gets (fun s => client (self s)) ;;
         events <- await (async_get_events c b 1) ;;
         if truthy events then
           (e <- lift_res (py_index0 events) ;; ret (Some e))
         else ret None)%monad
    | None => ret None
    end
  else ret None.

(** The [try] block of [_async_update_data]. *)
Definition fetch : M State ActivityWatchData :=
  (wb <- gets (fun s => window_bucket (self s)) ;;
   w <- latest_event wb ;;
   let data :=
     match w with
     | Some e => {| window_event := e; afk_event := VNone |}
     | None => new_data
     end in
   ab <- gets (fun s => afk_bucket (self s)) ;;
   a <- latest_event ab ;;
   ret match a with
       | Some e => {| window_event := window_event data; afk_event := e |}
       | None => data
       end)%monad.

(** The two [except] clauses, most specific first. *)
Definition on_api_error {A : Type} (err : exn) : M State A :=
  if isinstance_ActivityWatchApiConnectionError err then
    raise (UpdateFailed ("Connection error: " ++ exn_str err))
  else if isinstance_ActivityWatchApiError err then
    raise (UpdateFailed ("API error: " ++ exn_str err))
  else raise err.

Definition _async_update_data : M State ActivityWatchData :=
  (data <- try_except fetch on_api_error ;;
   _fire_window_switch_event data ;;;
   ret data)%monad.

(** Modelled from the spec: the host's refresh of a coordinator (the
    [DataUpdateCoordinator] base class, which is not part of this
    repository).  A tick that returns replaces the cached snapshot; a tick
    that raises leaves it as it was. *)
Definition async_refresh : M State unit :=
  fun s =>
    match _async_update_data s with
    | (Ok d, s') => on_self (set_data (Some d)) s'
    | (Raise e, s') => (Raise e, s')
    end.

(** A run of ticks, failed ones included; later ticks still happen. *)
Fixpoint ticks (n : nat) (s : State) : State :=
  match n with
  | O => s
  | S n' => ticks n' (snd (async_refresh s))
  end.

End Methods.
End coordinator.

(** ** binary_sensor.py *)

Module binary_sensor.
Import coordinator.

(** Binary sensor indicating whether the user is active (not AFK). *)
Module ActivityWatchActiveBinarySensor.

Definition is_on (coordinator : ActivityWatchCoordinator)
  : res (option bool) :=
  match data coordinator with
  | None => Ok None
  | Some data =>
      match afk_event data with
      | VNone => Ok None
      | ev =>
          (event_data <- py_get ev "data" (VDict []) ;;
           status <- py_get event_data "status" (VStr EmptyString) ;;
           Ok (Some (py_eq status (VStr "not-afk"))))%res
      end
  end.

Definition extra_state_attributes (coordinator : ActivityWatchCoordinator)
  : res (option value) :=
  match data coordinator with
  | None => Ok None
  | Some data =>
      match afk_event data with
      | VNone => Ok None
      | ev =>
          (ts <- py_get ev "timestamp" (VStr EmptyString) ;;
           Ok (Some (VDict [("last_active", ts)])))%res
      end
  end.

End ActivityWatchActiveBinarySensor.

(** Binary sensor that is on when the current activity matches a category. *)
Module ActivityWatchCategoryBinarySensor.

Definition is_on {T : Text} (coordinator : ActivityWatchCoordinator)
  (_category : string) : res (option bool) :=
  match data coordinator with
  | None => Ok None
  | Some data =>
      match window_event data with
      | VNone => Ok None
      | ev =>
          (event_data <- py_get ev "data" (VDict []) ;;
           category_list <- py_get event_data "$category" (VList []) ;;
           match category_list with
           | VList l =>
               let wanted := lower _category in
               lowered <- lower_all l ;;
               Ok (Some (str_mem wanted lowered))
           | _ => Ok (Some false)
           end)%res
      end
  end.

End ActivityWatchCategoryBinarySensor.
End binary_sensor.

(** ** sensor.py *)

Module sensor.
Import coordinator.

(** Sensor showing the current activity category. *)
Module ActivityWatchCurrentActivitySensor.

Definition native_value {T : Text} (coordinator : ActivityWatchCoordinator)
  : res (option string) :=
  match data coordinator with
  | None => Ok None
  | Some data =>
      match window_event data with
      | VNone => Ok None
      | ev =>
          (event_data <- py_get ev "data" (VDict []) ;;
           category <- py_get event_data "$category" VNone ;;
           if truthy category && isinstance_list category then
             match category with
             | VList (first :: _) => Ok (Some (py_str first))
             | _ => Ok (Some "Uncategorized")
             end
           else Ok (Some "Uncategorized"))%res
      end
  end.

Definition extra_state_attributes {T : Text}
  (coordinator : ActivityWatchCoordinator) : res (option value) :=
  match data coordinator with
  | None => Ok None
  | Some data =>
      match window_event data with
      | VNone => Ok None
      | ev =>
          (event_data <- py_get ev "data" (VDict []) ;;
           category <- py_get event_data "$category" (VList []) ;;
           app_name <- py_get event_data "app" (VStr EmptyString) ;;
           window_title <- py_get event_data "title" (VStr EmptyString) ;;
           url <- py_get event_data "url" (VStr EmptyString) ;;
           raw <- py_get ev "duration" (VInt 0) ;;
           duration <- py_int raw ;;
           Ok (Some (VDict
                 [("app_name", app_name);
                  ("window_title", window_title);
                  ("url", url);
                  ("sub_categories",
                   if isinstance_list category then category else VList []);
                  ("duration", VInt duration)])))%res
      end
  end.

End ActivityWatchCurrentActivitySensor.
End sensor.

(** ** services.py *)

Module services.
Import aiohttp api coordinator.

Definition ATTR_DEVICE_ID : string := "device_id".

(** The service call's data after [SERVICE_QUERY_STATS_SCHEMA] has accepted
    it: [device_id] required, the rest optional, all [str]. *)
Record ServiceCall : Type := {
  device_id : string;
  start_time : option string;
  end_time : option string;
  category : option string
}.

(** A config entry of the domain: its [data] mapping, and its coordinator
    once setup has stored it.  [async_setup_entry] assigns
    [entry.runtime_data] last, after steps that can fail; on an entry whose
    setup did not get there the attribute is not set (or holds [None]),
    and reading a coordinator's field through it raises
    [AttributeError]. *)
Record ConfigEntry : Type := {
  entry_data : list (string * value);
  runtime_data : option ActivityWatchCoordinator
}.

(** [entry.runtime_data], as far as something can be read from it. *)
Definition get_runtime_data (entry : ConfigEntry)
  : res ActivityWatchCoordinator :=
  match runtime_data entry with
  | Some coordinator => Ok coordinator
  | None => Raise AttributeError
  end.

(** An aware UTC [datetime], as [datetime.now(timezone.utc)] returns. *)
Record datetime : Type := {
  year : Z; month : Z; day : Z;
  hour : Z; minute : Z; second : Z; microsecond : Z
}.

(** [now.replace(hour=0, minute=0, second=0, microsecond=0)] *)
Definition replace_midnight (d : datetime) : datetime :=
  {| year := year d; month := month d; day := day d;
     hour := 0; minute := 0; second := 0; microsecond := 0 |}.

Fixpoint zeros (n : nat) : string :=
  match n with
  | O => EmptyString
  | S n' => String "0" (zeros n')
  end.

(** Decimal text of [z], left-padded with zeros to [width] digits. *)
Definition padded (width : nat) (z : Z) : string :=
  let s := str_of_Z z in
  zeros (width - String.length s) ++ s.

Definition isoformat (d : datetime) : string :=
  padded 4 (year d) ++ "-" ++ padded 2 (month d) ++ "-" ++ padded 2 (day d)
  ++ "T" ++ padded 2 (hour d) ++ ":" ++ padded 2 (minute d) ++ ":"
  ++ padded 2 (second d)
  ++ (if microsecond d =? 0 then EmptyString
      else "." ++ padded 6 (microsecond d))
  ++ "+00:00".

Fixpoint _find_client_for_device (entries : list ConfigEntry)
  (device_id : string) : res (option ActivityWatchApiClient) :=
  match entries with
  | [] => Ok None
  | entry :: rest =>
      let name :=
        match dict_lookup CONF_DEVICE_NAME (entry_data entry) with
        | Some v => v
        | None => VNone
        end in
      if py_eq name (VStr device_id) then
        (coordinator <- get_runtime_data entry ;;
         Ok (Some (client coordinator)))%res
      else _find_client_for_device rest device_id
  end.

Definition query_lines : list string :=
  ["events = query_bucket(find_bucket(" ++ String (ascii_of_nat 34)
     ("aw-watcher-window-" ++ String (ascii_of_nat 34) "));");
   "events = merge_events_by_keys(events, [" ++ String (ascii_of_nat 34)
     ("app" ++ String (ascii_of_nat 34) "]);");
   "RETURN = sort_by_duration(events);"].

(** The [category_filter] test of one loop iteration: is the event skipped
    ([continue])? *)
Definition filtered_out {T : Text} (category_filter : option string)
  (event : value) : res bool :=
  if str_truthy category_filter then
    match category_filter with
    | Some f =>
        (event_data <- py_get event "data" (VDict []) ;;
         cat <- py_get event_data "$category" (VList []) ;;
         match cat with
         | VList l =>
             let wanted := lower f in
             lowered <- lower_all l ;;
             Ok (negb (str_mem wanted lowered))
         | _ => Ok false
         end)%res
    | None => Ok false
    end
  else Ok false.

(** One iteration of [for event in events], on [(total_seconds, top_apps)]. *)
Definition loop_body {T : Text} (category_filter : option string)
  (acc : float * list value) (event : value) : res (float * list value) :=
  let (total_seconds, top_apps) := acc in
  (event_data <- py_get event "data" (VDict []) ;;
   app_name <- py_get event_data "app" (VStr "Unknown") ;;
   duration <- py_get event "duration" (VInt 0) ;;
   skip <- filtered_out category_filter event ;;
   if skip : bool then Ok acc
   else
     total_seconds' <- float_add total_seconds duration ;;
     seconds <- py_round duration ;;
     Ok (total_seconds',
         (top_apps ++ [VDict [("name", app_name); ("seconds", VInt seconds)]])%list)
  )%res.

Fixpoint for_events {T : Text} (category_filter : option string)
  (events : list value) (acc : float * list value)
  : res (float * list value) :=
  match events with
  | [] => Ok acc
  | event :: rest =>
      (acc' <- loop_body category_filter acc event ;;
       for_events category_filter rest acc')%res
  end.

(** Everything after the [try] block: from the query result to the
    response. *)
Definition aggregate {T : Text} (category_filter : option string)
  (result : value) : res value :=
  if negb (truthy result) || negb (isinstance_list result) then
    Ok (VDict [("total_seconds", VInt 0); ("top_apps", VList [])])
  else
    match result with
    | VList (first :: _) =>
        let events := match first with VList l => l | _ => [] end in
        (acc <- for_events category_filter events (0%float, []) ;;
         total <- float_round (fst acc) ;;
         Ok (VDict [("total_seconds", VInt total);
                    ("top_apps", VList (firstn 10 (snd acc)))]))%res
    | _ =>
        (* len(result) == 0 *)
        Ok (VDict [("total_seconds", VInt 0); ("top_apps", VList [])])
    end.

(** [start] and [end] as the handler picks them, joined into the one time
    period of the query. *)
Definition timeperiod (now : datetime) (call : ServiceCall) : string :=
  let start :=
    match start_time call with
    | Some s =>
        if str_truthy (Some s) then s else isoformat (replace_midnight now)
    | None => isoformat (replace_midnight now)
    end in
  let end_ :=
    match end_time call with
    | Some s => if str_truthy (Some s) then s else isoformat now
    | None => isoformat now
    end in
  start ++ "/" ++ end_.

Definition async_handle_query_stats {Se : ClientSession} {T : Text}
  (entries : list ConfigEntry) (now : datetime) (call : ServiceCall)
  : M World value :=
  (found <- lift_res (_find_client_for_device entries (device_id call)) ;;
   match found with
   | None =>
      ret (VDict [("error",
                   VStr ("Device '" ++ device_id call ++ "' not found"));
                  ("total_seconds", VInt 0);
                  ("top_apps", VList [])])
   | Some client =>
      let category_filter := category call in
      (answer <- try_except
                   (result <- async_query client query_lines
                                [timeperiod now call] ;;
                    ret (inr result))
                   (fun err =>
                      if isinstance_ActivityWatchApiError err then
                        ret (inl (VDict [("error", VStr (exn_str err));
                                         ("total_seconds", VInt 0);
                                         ("top_apps", VList [])]))
                      else raise err) ;;
       match answer with
       | inl early => ret early
       | inr result => lift_res (aggregate category_filter result)
       end)
   end)%monad.

End services.

(** ** More of const.py *)

Definition CONF_HOST : string := "host".
Definition CONF_PORT : string := "port".
Definition CONF_API_KEY : string := "api_key".
Definition CONF_SCAN_INTERVAL : string := "scan_interval".
Definition CONF_MONITORED_CATEGORIES : string := "monitored_categories".
Definition DEFAULT_HOST : string := "localhost".
Definition DEFAULT_PORT : Z := 5600.
Definition DEFAULT_SCAN_INTERVAL : Z := 15.
Definition MIN_SCAN_INTERVAL : Z := 5.
Definition MAX_SCAN_INTERVAL : Z := 300.
Definition DEFAULT_DEVICE_NAME : string := "ActivityWatch".

(** ** More of Python's strings *)

(** Which characters [str.strip] takes for whitespace is Unicode's matter,
    and an interface like [Text]: [isspace] is [str.isspace] on one
    character. *)
Class Whitespace : Type := {
  isspace : ascii -> bool
}.

(** [s.lstrip()]. *)
Fixpoint py_lstrip {W : Whitespace} (s : string) : string :=
  match s with
  | EmptyString => EmptyString
  | String c s' => if isspace c then py_lstrip s' else s
  end.

(** [s.rstrip()]. *)
Fixpoint py_rstrip {W : Whitespace} (s : string) : string :=
  match s with
  | EmptyString => EmptyString
  | String c s' =>
      match py_rstrip s' with
      | EmptyString => if isspace c then EmptyString else String c EmptyString
      | t => String c t
      end
  end.

(** [s.strip()]. *)
Definition py_strip {W : Whitespace} (s : string) : string :=
  py_rstrip (py_lstrip s).

(** [s.split(sep)] for a separator of one character: the pieces between its
    occurrences, the empty ones too; a string without it is one piece. *)
Fixpoint py_split (sep : ascii) (s : string) : list string :=
  match s with
  | EmptyString => [EmptyString]
  | String c s' =>
      if Ascii.eqb c sep then EmptyString :: py_split sep s'
      else match py_split sep s' with
           | piece :: rest => String c piece :: rest
           | [] => [String c EmptyString]
           end
  end.

(** [v.split(sep)]: of the values here only a [str] has the method. *)
Definition split_of (v : value) (sep : ascii) : res (list string) :=
  match v with
  | VStr s => Ok (py_split sep s)
  | _ => Raise AttributeError
  end.

(** [sep.join(l)] for a list of [str]. *)
Fixpoint join (sep : string) (l : list string) : string :=
  match l with
  | [] => EmptyString
  | [x] => x
  | x :: rest => x ++ sep ++ join sep rest
  end.

(** The items of an iterable handed to [join]: each must be a [str]. *)
Fixpoint str_items (l : list value) : res (list string) :=
  match l with
  | [] => Ok []
  | VStr s :: rest => (tl <- str_items rest ;; Ok (s :: tl))%res
  | _ :: _ => Raise TypeError
  end.

Fixpoint chars (s : string) : list string :=
  match s with
  | EmptyString => []
  | String c s' => String c EmptyString :: chars s'
  end.

(** [sep.join(v)]: a [list] gives its items, a [str] its characters, a
    [dict] its keys; nothing else here can be iterated. *)
Definition py_join (sep : string) (v : value) : res string :=
  match v with
  | VList l => (items <- str_items l ;; Ok (join sep items))%res
  | VStr s => Ok (join sep (chars s))
  | VDict d => Ok (join sep (map fst d))
  | _ => Raise TypeError
  end.

(** [d[k]] for a [dict]. *)
Definition dict_getitem (d : list (string * value)) (k : string) : res value :=
  match dict_lookup k d with
  | Some v => Ok v
  | None => Raise KeyError
  end.

(** [except Exception]: every class named in [exn] derives from
    [Exception]; of the others, those raised to cancel a task or to end the
    interpreter do not. *)
Definition isinstance_Exception (e : exn) : bool :=
  match e with
  | OtherError name =>
      negb (existsb (String.eqb name)
              ["CancelledError"; "KeyboardInterrupt"; "SystemExit";
               "GeneratorExit"; "BaseException"])
  | _ => true
  end.

(** ** config_flow.py *)

Module config_flow.
Import aiohttp api.

(** What [vol.Schema] is built from: a key that is required or optional,
    with or without a default, and what its value must be. *)
Inductive marker : Type :=
| Required (key : string) (default : option value)
| Optional (key : string) (default : option value).

Inductive validator : Type :=
| is_str
| is_int
| is_int_in_range (min max : Z).

Definition Schema : Type := list (marker * validator).

Definition USER_SCHEMA : Schema :=
  [(Required CONF_HOST (Some (VStr DEFAULT_HOST)), is_str);
   (Required CONF_PORT (Some (VInt DEFAULT_PORT)), is_int);
   (Optional CONF_API_KEY None, is_str);
   (Required CONF_DEVICE_NAME (Some (VStr DEFAULT_DEVICE_NAME)), is_str)].

(** What a step hands back to the host: the entry to create, or the form
    to show, with the errors it was given. *)
Inductive FlowResult (D : Type) : Type :=
| async_create_entry (title : string) (data : D)
| async_show_form (step_id : string) (data_schema : Schema)
    (errors : option (list (string * string))).
Arguments async_create_entry {D} title data.
Arguments async_show_form {D} step_id data_schema errors.

(** [user_input] of the user step as [USER_SCHEMA] lets it through: the
    three required keys with their types, and the API key if there is
    one. *)
Record UserInput : Type := {
  conf_host : string;
  conf_port : Z;
  conf_api_key : option string;
  conf_device_name : string
}.

(** The host's side of a config flow: [_async_abort_entries_match] returns,
    or raises to abort the flow when a configured entry matches. *)
Class ConfigFlow : Type := {
  _async_abort_entries_match : list (string * value) -> res unit
}.

Section UserStep.
Context {Se : ClientSession} {H : ConfigFlow}.

(** The [try] statement of the user step: the error it records, if any. *)
Definition validate (client : ActivityWatchApiClient)
  : M World (option string) :=
  try_except
    (_ <- async_validate_connection client ;; ret None)%monad
    (fun e =>
       if isinstance_ActivityWatchApiConnectionError e
       then ret (Some "cannot_connect")
       else if isinstance_Exception e
            then ret (Some "unknown")
            else raise e).

Definition async_step_user (user_input : option UserInput)
  : M World (FlowResult UserInput) :=
  match user_input with
  | Some user_input =>
      (lift_res (_async_abort_entries_match
                   [(CONF_HOST, VStr (conf_host user_input));
                    (CONF_PORT, VInt (conf_port user_input))]) ;;;
       let client := api.__init__ (conf_host user_input)
                       (conf_port user_input) (conf_api_key user_input) in
       error <- validate client ;;
       match error with
       | None =>
           ret (async_create_entry (conf_device_name user_input) user_input)
       | Some base =>
           ret (async_show_form "user" USER_SCHEMA (Some [("base", base)]))
       end)%monad
  | None => ret (async_show_form "user" USER_SCHEMA (Some []))
  end.

End UserStep.

Section OptionsFlow.
Context {W : Whitespace}.

(** [[c.strip() for c in pieces if c.strip()]]. *)
Fixpoint stripped (pieces : list string) : list string :=
  match pieces with
  | [] => []
  | c :: rest =>
      if negb (String.eqb (py_strip c) EmptyString)
      then py_strip c :: stripped rest
      else stripped rest
  end.

(** The schema of the options form, with the defaults it shows. *)
Definition options_schema (scan_interval : value) (categories_str : string)
  : Schema :=
  [(Required CONF_SCAN_INTERVAL (Some scan_interval),
    is_int_in_range MIN_SCAN_INTERVAL MAX_SCAN_INTERVAL);
   (Optional CONF_MONITORED_CATEGORIES (Some (VStr categories_str)), is_str)].

(** [options] is [self._config_entry.options]. *)
Definition async_step_init (options : list (string * value))
  (user_input : option (list (string * value)))
  : res (FlowResult (list (string * value))) :=
  match user_input with
  | Some user_input =>
      (categories_str <- py_get (VDict user_input) CONF_MONITORED_CATEGORIES
                           (VStr EmptyString) ;;
       pieces <- split_of categories_str ","%char ;;
       let categories := stripped pieces in
       scan_interval <- dict_getitem user_input CONF_SCAN_INTERVAL ;;
       Ok (async_create_entry EmptyString
             [(CONF_SCAN_INTERVAL, scan_interval);
              (CONF_MONITORED_CATEGORIES, strs categories)]))%res
  | None =>
      (current_categories <- py_get (VDict options) CONF_MONITORED_CATEGORIES
                               (VList []) ;;
       categories_str <- (if truthy current_categories
                          then py_join ", " current_categories
                          else Ok EmptyString) ;;
       scan_interval <- py_get (VDict options) CONF_SCAN_INTERVAL
                          (VInt DEFAULT_SCAN_INTERVAL) ;;
       Ok (async_show_form "init"
             (options_schema scan_interval categories_str) None))%res
  end.

End OptionsFlow.
End config_flow.

(** ** Fixtures

    Concrete sessions, text handling and events, for running the model. *)

Module fixtures.
Import aiohttp api coordinator services.

Definition lower_ascii (c : ascii) : ascii :=
  let n := nat_of_ascii c in
  if (65 <=? n)%nat && (n <=? 90)%nat then ascii_of_nat (n + 32) else c.

Fixpoint lower_ascii_str (s : string) : string :=
  match s with
  | EmptyString => EmptyString
  | String c s' => String (lower_ascii c) (lower_ascii_str s')
  end.

(** Text handling for text whose letters are ASCII: [lower] is exact there;
    [str] of [None], booleans and integers is exact; [int] of a string is
    not exercised and rejects. *)
Definition ascii_text : Text :=
  {| lower := lower_ascii_str;
     str_other := fun v =>
       match v with
       | VNone => "None"
       | VBool true => "True"
       | VBool false => "False"
       | VInt z => str_of_Z z
       | _ => "?"
       end;
     int_of_str := fun _ => Raise ValueError |}.

(** A session that plays back a script: each request gets the next outcome;
    once the script is used up the connection is refused. *)
Definition scripted : ClientSession :=
  {| World := list outcome;
     send := fun _ w =>
       match w with
       | o :: w' => (o, w')
       | [] => (Failed (ClientError "Connection refused"), [])
       end |}.

(** A 200 response carrying [v] as JSON. *)
Definition ok_json (v : value) : outcome :=
  Responded {| status := 200; text := Ok EmptyString; json := Ok v |}.

(** A response with another status and a text body. *)
Definition status_text (st : Z) (body : string) : outcome :=
  Responded {| status := st; text := Ok body; json := Ok VNone |}.

Definition MOCK_WINDOW_EVENT : value :=
  VDict [("id", VInt 1);
         ("timestamp", VStr "2024-01-15T10:00:00.000000+00:00");
         ("duration", VFloat 120.5);
         ("data", VDict [("app", VStr "Code");
                         ("title", VStr "main.py - Visual Studio Code");
                         ("url", VStr EmptyString);
                         ("$category", VList [VStr "Work"; VStr "Engineering"])])].

Definition MOCK_WINDOW_EVENT_2 : value :=
  VDict [("id", VInt 2);
         ("timestamp", VStr "2024-01-15T10:02:00.000000+00:00");
         ("duration", VFloat 60);
         ("data", VDict [("app", VStr "Firefox");
                         ("title", VStr "GitHub - Pull Requests");
                         ("url", VStr "https://github.com");
                         ("$category", VList [VStr "Work"; VStr "Communication"])])].

Definition MOCK_WINDOW_EVENT_NO_CATEGORY : value :=
  VDict [("id", VInt 3);
         ("timestamp", VStr "2024-01-15T10:03:00.000000+00:00");
         ("duration", VFloat 30);
         ("data", VDict [("app", VStr "Notepad");
                         ("title", VStr "Untitled")])].

(** The same app as [MOCK_WINDOW_EVENT], another title, url and duration. *)
Definition WINDOW_EVENT_RETITLED : value :=
  VDict [("id", VInt 5);
         ("timestamp", VStr "2024-01-15T10:01:00.000000+00:00");
         ("duration", VFloat 12.25);
         ("data", VDict [("app", VStr "Code");
                         ("title", VStr "api.py - Visual Studio Code");
                         ("url", VStr "file:///api.py");
                         ("$category", VList [VStr "Work"])])].

(** A window event lasting 120.75 seconds: cut toward zero it is 120,
    rounded it would be 121. *)
Definition LONG_WINDOW_EVENT : value :=
  VDict [("id", VInt 6);
         ("timestamp", VStr "2024-01-15T10:06:00.000000+00:00");
         ("duration", VFloat 120.75);
         ("data", VDict [("app", VStr "Code");
                         ("title", VStr "sensor.py - Visual Studio Code");
                         ("$category", VList [VStr "Work"; VStr "Engineering"])])].

(** A window event whose data carries no [app]. *)
Definition WINDOW_EVENT_NO_APP : value :=
  VDict [("id", VInt 4);
         ("timestamp", VStr "2024-01-15T10:04:00.000000+00:00");
         ("duration", VFloat 5);
         ("data", VDict [("title", VStr "Desktop")])].

Definition MOCK_AFK_EVENT_ACTIVE : value :=
  VDict [("id", VInt 10);
         ("timestamp", VStr "2024-01-15T10:00:00.000000+00:00");
         ("duration", VFloat 300);
         ("data", VDict [("status", VStr "not-afk")])].

Definition MOCK_AFK_EVENT_AFK : value :=
  VDict [("id", VInt 11);
         ("timestamp", VStr "2024-01-15T09:55:00.000000+00:00");
         ("duration", VFloat 600);
         ("data", VDict [("status", VStr "afk")])].

Definition MOCK_BUCKETS : value :=
  VDict [("aw-watcher-window_test-hostname",
          VDict [("id", VStr "aw-watcher-window_test-hostname");
                 ("type", VStr "aw-watcher-window");
                 ("hostname", VStr "test-hostname")]);
         ("aw-watcher-afk_test-hostname",
          VDict [("id", VStr "aw-watcher-afk_test-hostname");
                 ("type", VStr "aw-watcher-afk");
                 ("hostname", VStr "test-hostname")])].

Definition test_client : ActivityWatchApiClient :=
  api.__init__ "localhost" 5600 None.

(** A coordinator for device Test-PC whose window bucket is known. *)
Definition window_only : ActivityWatchCoordinator :=
  set_window_bucket (Some "aw-watcher-window_test-hostname")
    (coordinator.__init__ test_client "Test-PC").

(** A coordinator for device Test-PC with both buckets known. *)
Definition both_buckets : ActivityWatchCoordinator :=
  set_afk_bucket (Some "aw-watcher-afk_test-hostname") window_only.

Definition start_state (c : ActivityWatchCoordinator) (script : list outcome)
  : @State scripted :=
  @Build_State scripted c [] script.

(** The snapshot of a tick that fetched window event [ev] and no AFK
    event. *)
Definition window_snapshot (ev : value) : ActivityWatchData :=
  {| window_event := ev; afk_event := VNone |}.

(** The server's answer to an events request: a list holding [ev]. *)
Definition one_event (ev : value) : outcome := ok_json (VList [ev]).

Definition test_entries : list ConfigEntry :=
  [{| entry_data := [("host", VStr "localhost"); ("port", VInt 5600);
                     ("device_name", VStr "Test-PC")];
      runtime_data := Some window_only |}].

Definition test_now : datetime :=
  {| year := 2024; month := 1; day := 15;
     hour := 10; minute := 5; second := 0; microsecond := 0 |}.

Definition test_call (category : option string) : ServiceCall :=
  {| device_id := "Test-PC"; start_time := None; end_time := None;
     category := category |}.

(** Whitespace among the characters below 256, as [str.isspace] has it:
    tab to carriage return, the four separators, the space, next line and
    the no-break space. *)
Definition latin1_space : Whitespace :=
  {| isspace := fun c =>
       let n := nat_of_ascii c in
       ((9 <=? n)%nat && (n <=? 13)%nat)
       || ((28 <=? n)%nat && (n <=? 32)%nat)
       || (n =? 133)%nat || (n =? 160)%nat |}.

(** A host with no entry configured: nothing matches. *)
Definition no_entries : config_flow.ConfigFlow :=
  {| config_flow._async_abort_entries_match := fun _ => Ok tt |}.

(** A host on which localhost:5600 is configured already. *)
Definition localhost_configured : config_flow.ConfigFlow :=
  {| config_flow._async_abort_entries_match := fun match_dict =>
       if py_eq (VDict match_dict)
                (VDict [("host", VStr "localhost"); ("port", VInt 5600)])
       then Raise (OtherError "AbortFlow")
       else Ok tt |}.

Definition test_input : config_flow.UserInput :=
  {| config_flow.conf_host := "localhost";
     config_flow.conf_port := 5600;
     config_flow.conf_api_key := None;
     config_flow.conf_device_name := "Test-PC" |}.

End fixtures.

Import aiohttp api coordinator services fixtures.
Import config_flow.

(** * Vocabulary of the properties

    Names for what the statements below talk about: the fields of an
    event, well-formedness of what the server sends, and the results the
    code is compared with. *)

(** ** Requests *)

(** Either request method, as one operation. *)
Definition perform {Se : ClientSession} (m : method)
  (self : ActivityWatchApiClient) (path : string)
  (params : option (list (string * string))) (data : option value)
  : M World value :=
  match m with
  | GET => _get self path params
  | POST => _post self path data
  end.

Definition request_of (m : method) (self : ActivityWatchApiClient)
  (path : string) (params : option (list (string * string)))
  (data : option value) : request :=
  match m with
  | GET => get_request self path params
  | POST => post_request self path data
  end.

(** The statuses each method lets through. *)
Definition accepted (m : method) (st : Z) : bool :=
  match m with
  | GET => st =? 200
  | POST => (st =? 200) || (st =? 201)
  end.

Definition is_2xx (st : Z) : bool := (200 <=? st) && (st <? 300).

(** ** Events and notifications *)

(** [ev["data"].get(k, default)], with [default] also standing in where the
    event has no such structure. *)
Definition event_field (ev : value) (k : string) (default : value) : value :=
  match (d <- py_get ev "data" (VDict []) ;; py_get d k default)%res with
  | Ok v => v
  | Raise _ => default
  end.

(** The event's [app]; [VNone] when it carries none. *)
Definition app_of (ev : value) : value := event_field ev "app" VNone.

(** The notification for a switch to the window of event [ev]. *)
Definition window_switch (device : string) (ev : value) : bus_event :=
  (EVENT_ACTIVITY_SWITCH,
   VDict [("device_id", VStr device);
          ("type", VStr "window_switch");
          ("app", app_of ev);
          ("title", event_field ev "title" (VStr EmptyString));
          ("url", event_field ev "url" (VStr EmptyString))]).

(** A value of type [str | None], as the baseline field is declared. *)
Definition str_or_none (v : value) : Prop :=
  v = VNone \/ exists s, v = VStr s.

(** ** Observations of the coordinator's state *)

(** [preserving f c]: running [c] leaves the observation [f] of the state
    as it was, whether [c] returns or raises. *)
Definition preserving {Se : ClientSession} {X A : Type} (f : State -> X)
  (c : M State A) : Prop :=
  forall s, f (snd (c s)) = f s.

(** An observation that does not look at the server. *)
Definition world_blind {Se : ClientSession} {X : Type} (f : State -> X)
  : Prop :=
  forall s w, f {| self := self s; bus := bus s; world := w |} = f s.

(** The bucket ids, as one observation. *)
Definition buckets {Se : ClientSession} (s : State)
  : option string * option string :=
  (window_bucket (self s), afk_bucket (self s)).

(** ** Bucket listings *)

(** The [type] field of a bucket's info; empty when it has none. *)
Definition bucket_type_of (info : value) : string :=
  match info with
  | VDict d =>
      match dict_lookup "type" d with
      | Some (VStr t) => t
      | _ => EmptyString
      end
  | _ => EmptyString
  end.

(** A bucket listing as the server documents it: every info is a mapping
    whose [type], when present, is a string. *)
Definition listing_ok (its : list (string * value)) : bool :=
  forallb (fun kv =>
             match snd kv with
             | VDict d =>
                 match dict_lookup "type" d with
                 | Some (VStr _) | None => true
                 | Some _ => false
                 end
             | _ => false
             end) its.

Definition has_type (ty : string) (kv : string * value) : bool :=
  contains ty (bucket_type_of (snd kv)).

(** The first bucket, in listing order, whose type contains [ty]. *)
Definition first_bucket (ty : string) (its : list (string * value))
  : option string :=
  option_map fst (find (has_type ty) its).

(** ** Snapshots and their events *)

(** An event as the data model has it: a mapping whose [data], when
    present, is a mapping. *)
Definition event_ok (ev : value) : bool :=
  match ev with
  | VDict dd =>
      match dict_lookup "data" dd with
      | None | Some (VDict _) => true
      | Some _ => false
      end
  | _ => false
  end.

(** The AFK event's [status]; the empty string when it has none. *)
Definition status_of (ev : value) : value :=
  event_field ev "status" (VStr EmptyString).

(** The entries of the event's category list; none when the event has no
    such list. *)
Definition category_list (ev : value) : list value :=
  match event_field ev "$category" (VList []) with
  | VList l => l
  | _ => []
  end.

Definition is_str (v : value) : bool :=
  match v with VStr _ => true | _ => false end.

(** The snapshot holds no AFK event: no tick has returned yet, or the
    latest one fetched none. *)
Definition no_afk_event (c : ActivityWatchCoordinator) : Prop :=
  data c = None \/ exists d, data c = Some d /\ afk_event d = VNone.

Definition no_window_event (c : ActivityWatchCoordinator) : Prop :=
  data c = None \/ exists d, data c = Some d /\ window_event d = VNone.

Definition finite (f : float) : bool :=
  match Prim2SF f with
  | S754_zero _ | S754_finite _ _ _ => true
  | _ => false
  end.

(** [z] is [f] cut toward zero: it has the sign of [f], and its magnitude
    is the largest integer not above the magnitude [m * 2^e] of [f]. *)
Definition truncation_of (f : float) (z : Z) : Prop :=
  match Prim2SF f with
  | S754_zero _ => z = 0
  | S754_finite s m e =>
      exists q,
        z = signed s q /\ 0 <= q /\
        if 0 <=? e then q = Z.pos m * 2 ^ e
        else q * 2 ^ (- e) <= Z.pos m < (q + 1) * 2 ^ (- e)
  | _ => False
  end.

(** The strings a list of [str] values holds. *)
Fixpoint strings_of (l : list value) : list string :=
  match l with
  | [] => []
  | VStr s :: l' => s :: strings_of l'
  | _ :: l' => strings_of l'
  end.

(** ** Query results *)

(** The payload of a failure path. *)
Definition failure (msg : string) : value :=
  VDict [("error", VStr msg); ("total_seconds", VInt 0);
         ("top_apps", VList [])].

(** The payload for a result that holds no events. *)
Definition empty_stats : value :=
  VDict [("total_seconds", VInt 0); ("top_apps", VList [])].

(** The merged events of a query result: the members of its first element
    when the result is a list that starts with a list. *)
Definition first_events (result : value) : list value :=
  match result with
  | VList (VList l :: _) => l
  | _ => []
  end.

(** A merged event as the query returns it: a mapping with a [data] mapping
    that carries [app], a category list of strings or none, and a finite
    float [duration]. *)
Definition query_event_ok (ev : value) : bool :=
  match ev with
  | VDict dd =>
      match dict_lookup "data" dd, dict_lookup "duration" dd with
      | Some (VDict ed), Some (VFloat f) =>
          finite f
          && match dict_lookup "app" ed with Some _ => true | None => false end
          && match dict_lookup "$category" ed with
             | None => true
             | Some (VList l) => forallb is_str l
             | Some _ => false
             end
      | _, _ => false
      end
  | _ => false
  end.

Definition duration_of (ev : value) : float :=
  match ev with
  | VDict dd =>
      match dict_lookup "duration" dd with
      | Some (VFloat f) => f
      | _ => 0%float
      end
  | _ => 0%float
  end.

(** [round(f)] as an integer; 0 where Python would raise. *)
Definition rounded (f : float) : Z :=
  match float_round f with
  | Ok z => z
  | Raise _ => 0
  end.

(** Left-to-right float sum from 0.0, as the loop accumulates it. *)
Definition float_sum (l : list float) : float :=
  fold_left PrimFloat.add l 0%float.

(** Some entry of the event's category list has the lowercase form of the
    filter. *)
Definition matches_filter {T : Text} (f : string) (ev : value) : bool :=
  str_mem (lower f) (map lower (strings_of (category_list ev))).

(** The events the loop keeps: all of them without a filter, those that
    match it with one. *)
Definition retained {T : Text} (category_filter : option string)
  (events : list value) : list value :=
  if str_truthy category_filter then
    match category_filter with
    | Some f => filter (matches_filter f) events
    | None => events
    end
  else events.

(** One entry of [top_apps]. *)
Definition reduced (ev : value) : value :=
  VDict [("name", app_of ev); ("seconds", VInt (rounded (duration_of ev)))].

(** [z] is [f] rounded to the nearest integer, a tie going to the even
    one: it has the sign of [f], its magnitude is within one half of the
    magnitude [m * 2^e] of [f], and is even when exactly one half away. *)
Definition nearest_even_of (f : float) (z : Z) : Prop :=
  match Prim2SF f with
  | S754_zero _ => z = 0
  | S754_finite s m e =>
      exists q,
        z = signed s q /\ 0 <= q /\
        if 0 <=? e then q = Z.pos m * 2 ^ e
        else
          2 * Z.abs (q * 2 ^ (- e) - Z.pos m) <= 2 ^ (- e) /\
          (2 * Z.abs (q * 2 ^ (- e) - Z.pos m) = 2 ^ (- e) ->
           Z.even q = true)
  | _ => False
  end.

(** ** Ticks, seen from outside *)

(** What a tick keeps of the answer to an events request: its first
    element when the answer is truthy, [None] otherwise. *)
Definition kept_event (events : value) : value :=
  if truthy events then
    match py_index0 events with
    | Ok e => e
    | Raise _ => VNone
    end
  else VNone.

(** The server as the AFK request of a tick finds it: after the window
    request, when there is one. *)
Definition after_window_request {Se : ClientSession} (s : State) : World :=
  world (snd (latest_event (window_bucket (self s)) s)).

(** Is [ev] one of this integration's switch notifications for [device]? *)
Definition is_window_switch (device : string) (ev : bus_event) : Prop :=
  fst ev = EVENT_ACTIVITY_SWITCH /\
  exists app title url,
    snd ev = VDict [("device_id", VStr device);
                    ("type", VStr "window_switch");
                    ("app", app); ("title", title); ("url", url)].

(** ** Shapes of the service's answers *)

(** An entry of [top_apps]: a name and a whole number of seconds. *)
Definition is_app_entry (v : value) : Prop :=
  exists name seconds, v = VDict [("name", name); ("seconds", VInt seconds)].

(** A response of the service: a mapping with an integer [total_seconds]
    and a [top_apps] list of at most ten entries; when it carries an
    [error], that is a string and the rest is zero and empty. *)
Definition is_stats (v : value) : Prop :=
  exists d total apps,
    v = VDict d /\
    dict_lookup "total_seconds" d = Some (VInt total) /\
    dict_lookup "top_apps" d = Some (VList apps) /\
    (List.length apps <= 10)%nat /\
    Forall is_app_entry apps /\
    (forall err, dict_lookup "error" d = Some err ->
                 (exists msg, err = VStr msg) /\ total = 0 /\ apps = []).

(** The exceptions Python's own operations raise on ill-typed data. *)
Definition is_data_error (e : exn) : bool :=
  match e with
  | AttributeError | TypeError | ValueError | OverflowError => true
  | _ => false
  end.

(** The entry is the one configured for [device_id]. *)
Definition entry_is_for (device_id : string) (entry : ConfigEntry) : Prop :=
  dict_lookup CONF_DEVICE_NAME (entry_data entry) = Some (VStr device_id).

(** The value under [$category] in the event's data, a list or not; the
    empty list when there is none. *)
Definition raw_category (ev : value) : value :=
  event_field ev "$category" (VList []).

(** [c] does not occur in [s]. *)
Fixpoint no_char (c : ascii) (s : string) : bool :=
  match s with
  | EmptyString => true
  | String a s' => negb (Ascii.eqb a c) && no_char c s'
  end.

(** A category as the options flow stores it: not empty, without a comma,
    and with no whitespace at either end. *)
Definition clean_category {W : Whitespace} (c : string) : Prop :=
  c <> EmptyString /\ no_char "," c = true /\ py_strip c = c.

(** [s] is empty or starts with a character that is not whitespace. *)
Definition starts_clean {W : Whitespace} (s : string) : Prop :=
  match s with
  | EmptyString => True
  | String c _ => isspace c = false
  end.

(** The request that validates a connection to [host]:[port]. *)
Definition info_request (ui : config_flow.UserInput) : request :=
  get_request
    (api.__init__ (config_flow.conf_host ui) (config_flow.conf_port ui)
       (config_flow.conf_api_key ui))
    "/info" None.

(** * Properties *)

(** ** The API client's errors *)

Lemma accepted_is_2xx :
  forall m st, accepted m st = true -> is_2xx st = true.
Proof.
  intros m st H. unfold is_2xx.
  destruct m; simpl in H.
  - apply Z.eqb_eq in H. subst st. reflexivity.
  - apply orb_true_iff in H.
    destruct H as [H | H]; apply Z.eqb_eq in H; subst st; reflexivity.
Qed.

Lemma perform_unfold :
  forall (Se : ClientSession) m self path params data w,
    perform m self path params data w =
    (except_ClientError self
       (read_response (accepted m) path
          (fst (send (request_of m self path params data) w))),
     snd (send (request_of m self path params data) w)).
Proof.
  intros Se m self path params data w.
  destruct m; simpl; unfold _get, _post;
    destruct (send _ w) as [o w']; reflexivity.
Qed.

(** C5 (as the code has it).  For a GET and for a POST alike, with [o] what
    the session answers: a response whose status the method does not accept
    (for GET anything but 200, for POST anything but 200 and 201, so every
    non-2xx status) raises the generic [ActivityWatchApiError] whose message
    carries the status and the response body; an accepted status with a JSON
    body returns that body; an [aiohttp.ClientError] raises
    [ActivityWatchApiConnectionError], which is not the generic class
    itself. *)
Theorem api_error_taxonomy :
  forall (Se : ClientSession) (m : method) (self : ActivityWatchApiClient)
         (path : string) (params : option (list (string * string)))
         (data : option value) (w w' : World) (o : outcome),
    send (request_of m self path params data) w = (o, w') ->
    (forall st, is_2xx st = false -> accepted m st = false) /\
    (forall resp body,
        o = Responded resp ->
        accepted m (status resp) = false ->
        text resp = Ok body ->
        perform m self path params data w =
        (Raise (ActivityWatchApiError
                  ("HTTP " ++ str_of_Z (status resp) ++ " from " ++ path
                   ++ ": " ++ body)), w')) /\
    (forall resp v,
        o = Responded resp ->
        accepted m (status resp) = true ->
        json resp = Ok v ->
        perform m self path params data w = (Ok v, w')) /\
    (forall err,
        o = Failed (ClientError err) ->
        exists msg,
          perform m self path params data w =
          (Raise (ActivityWatchApiConnectionError msg), w') /\
          forall generic,
            ActivityWatchApiConnectionError msg
            <> ActivityWatchApiError generic).
Proof.
  intros Se m self path params data w w' o Hsend.
  rewrite perform_unfold, Hsend. simpl.
  repeat split.
  - intros st Hst. destruct (accepted m st) eqn:E; [|reflexivity].
    apply accepted_is_2xx in E. congruence.
  - intros resp body -> Hacc Htext. simpl.
    rewrite Hacc, Htext. reflexivity.
  - intros resp v -> Hacc Hjson. simpl.
    rewrite Hacc, Hjson. reflexivity.
  - intros err ->. simpl. eexists. split; [reflexivity|].
    intros generic. discriminate.
Qed.

Lemma api_error_taxonomy_witness :
  @perform scripted GET test_client "/info" None None
    [status_text 404 "Not Found"]
  = (Raise (ActivityWatchApiError "HTTP 404 from /info: Not Found"), [])
  /\ @perform scripted POST test_client "/query/" None (Some (VList []))
       [Responded {| status := 201; text := Ok EmptyString;
                     json := Ok (VList [VList []]) |}]
     = (Ok (VList [VList []]), [])
  /\ exists msg,
       @perform scripted GET test_client "/info" None None []
       = (Raise (ActivityWatchApiConnectionError msg), []).
Proof.
  split; [|split].
  - destruct (api_error_taxonomy scripted GET test_client "/info" None None
                [status_text 404 "Not Found"] []
                (status_text 404 "Not Found") eq_refl) as (_ & H & _).
    apply (H _ "Not Found" eq_refl); reflexivity.
  - destruct (api_error_taxonomy scripted POST test_client "/query/" None
                (Some (VList []))
                [Responded {| status := 201; text := Ok EmptyString;
                              json := Ok (VList [VList []]) |}] []
                _ eq_refl) as (_ & _ & H & _).
    apply (H _ _ eq_refl); reflexivity.
  - destruct (api_error_taxonomy scripted GET test_client "/info" None None
                [] [] _ eq_refl) as (_ & _ & _ & H).
    destruct (H "Connection refused" eq_refl) as (msg & Hm & _).
    exists msg. exact Hm.
Defined.

(** C5, as stated, fails: a GET answered with status 201, a 2xx status,
    raises the generic API error. *)
Lemma get_2xx_raises :
  is_2xx 201 = true /\
  @_get scripted test_client "/info" None [status_text 201 "Created"]
  = (Raise (ActivityWatchApiError "HTTP 201 from /info: Created"), []).
Proof. split; reflexivity. Qed.

(** ** Equality on values *)

Lemma py_eq_none_l : forall b, py_eq VNone b = true -> b = VNone.
Proof. intros b H. destruct b; simpl in H; congruence. Qed.

Lemma py_eq_str_l :
  forall x b, py_eq (VStr x) b = true -> b = VStr x.
Proof.
  intros x b H. destruct b; simpl in H; try discriminate.
  apply String.eqb_eq in H. congruence.
Qed.

Lemma py_eq_str_r :
  forall v x, py_eq v (VStr x) = true <-> v = VStr x.
Proof.
  intros v x. split.
  - intros H. destruct v; simpl in H; try discriminate.
    apply String.eqb_eq in H. congruence.
  - intros ->. simpl. apply String.eqb_refl.
Qed.

(** ** The coordinator *)

Section CoordinatorFacts.
Context {Se : ClientSession}.

Ltac unfold_monad :=
  unfold bind, ret, raise, lift_res, gets, modify, try_except, on_self,
    async_fire, await in *.

Lemma preserving_bind :
  forall (X A B : Type) (f : State -> X) (c : M State A) (k : A -> M State B),
    preserving f c -> (forall a, preserving f (k a)) ->
    preserving f (bind c k).
Proof.
  intros X A B f c k Hc Hk s. unfold bind.
  specialize (Hc s). destruct (c s) as [[a|e] s1]; simpl in *.
  - rewrite Hk. exact Hc.
  - exact Hc.
Qed.

Lemma preserving_try_except :
  forall (X A : Type) (f : State -> X) (c : M State A) (h : exn -> M State A),
    preserving f c -> (forall e, preserving f (h e)) ->
    preserving f (try_except c h).
Proof.
  intros X A f c h Hc Hh s. unfold try_except.
  specialize (Hc s). destruct (c s) as [[a|e] s1]; simpl in *.
  - exact Hc.
  - rewrite Hh. exact Hc.
Qed.

Lemma preserving_pure :
  forall (X A : Type) (f : State -> X) (r : res A),
    preserving f (lift_res r).
Proof. intros X A f r s. reflexivity. Qed.

Lemma preserving_ret :
  forall (X A : Type) (f : State -> X) (a : A), preserving f (ret a).
Proof. intros X A f a s. reflexivity. Qed.

Lemma preserving_raise :
  forall (X A : Type) (f : State -> X) (e : exn),
    preserving f (@raise State A e).
Proof. intros X A f e s. reflexivity. Qed.

Lemma preserving_gets :
  forall (X A : Type) (f : State -> X) (g : State -> A),
    preserving f (gets g).
Proof. intros X A f g s. reflexivity. Qed.

(** Awaiting a client call touches only the server. *)
Lemma preserving_await :
  forall (X A : Type) (f : State -> X) (c : M World A),
    world_blind f -> preserving f (await c).
Proof.
  intros X A f c Hf s. unfold await.
  destruct (c (world s)) as [r w']. simpl. apply Hf.
Qed.

Lemma preserving_on_api_error :
  forall (X A : Type) (f : State -> X) (err : exn),
    preserving f (@on_api_error Se A err).
Proof.
  intros X A f err. unfold on_api_error.
  destruct (isinstance_ActivityWatchApiConnectionError err);
    [apply preserving_raise|].
  destruct (isinstance_ActivityWatchApiError err); apply preserving_raise.
Qed.

Lemma preserving_latest_event :
  forall (X : Type) (f : State -> X) (b : option string),
    world_blind f -> preserving f (latest_event b).
Proof.
  intros X f b Hf. unfold latest_event.
  destruct (str_truthy b); [|apply preserving_ret].
  destruct b as [b|]; [|apply preserving_ret].
  apply preserving_bind; [apply preserving_gets|intros c].
  apply preserving_bind; [apply preserving_await; exact Hf|intros events].
  destruct (truthy events); [|apply preserving_ret].
  apply preserving_bind; [apply preserving_pure|intros e].
  apply preserving_ret.
Qed.

(** The [try] block reads [self] and asks the server; it writes neither
    [self] nor the bus. *)
Lemma preserving_fetch :
  forall (X : Type) (f : State -> X), world_blind f -> preserving f fetch.
Proof.
  intros X f Hf. unfold fetch.
  apply preserving_bind; [apply preserving_gets|intros wb].
  apply preserving_bind; [apply preserving_latest_event; exact Hf|intros w].
  apply preserving_bind; [apply preserving_gets|intros ab].
  apply preserving_bind; [apply preserving_latest_event; exact Hf|intros a].
  apply preserving_ret.
Qed.

Lemma preserving_guarded_fetch :
  forall (X : Type) (f : State -> X),
    world_blind f -> preserving f (try_except fetch on_api_error).
Proof.
  intros X f Hf. apply preserving_try_except.
  - apply preserving_fetch. exact Hf.
  - intros e. apply preserving_on_api_error.
Qed.

Lemma self_world_blind : world_blind self.
Proof. intros s w. reflexivity. Qed.

Lemma bus_world_blind : world_blind bus.
Proof. intros s w. reflexivity. Qed.

(** A tick that returns got its snapshot from the [try] block and then ran
    the switch check on it, starting from an unchanged [self] and bus. *)
Lemma update_returns :
  forall (s s' : State) (d : ActivityWatchData),
    _async_update_data s = (Ok d, s') ->
    exists s1,
      self s1 = self s /\ bus s1 = bus s /\
      _fire_window_switch_event d s1 = (Ok tt, s').
Proof.
  intros s s' d H. unfold _async_update_data in H.
  unfold bind at 1 in H.
  pose proof (preserving_guarded_fetch _ self self_world_blind s) as Hs.
  pose proof (preserving_guarded_fetch _ bus bus_world_blind s) as Hb.
  destruct (try_except fetch on_api_error s) as [[d1|e] s1]; simpl in Hs, Hb;
    [|discriminate].
  unfold bind at 1 in H.
  destruct (_fire_window_switch_event d1 s1) as [[[]|e] s2] eqn:Hf;
    [|discriminate].
  unfold ret in H. inversion H; subst.
  exists s1. repeat split; assumption.
Qed.

(** What the switch check does when it returns, on an event that is there:
    on a [None] baseline it records; on another baseline it fires and
    records when the app differs, and does nothing when it is the same. *)
Lemma fire_effect :
  forall (d : ActivityWatchData) (s s' : State),
    _fire_window_switch_event d s = (Ok tt, s') ->
    window_event d <> VNone ->
    let a := app_of (window_event d) in
    let prev := _previous_window_app (self s) in
    world s' = world s /\
    ((prev = VNone /\
      self s' = set_previous_window_app a (self s) /\ bus s' = bus s)
     \/
     (prev <> VNone /\ py_eq a prev = false /\
      self s' = set_previous_window_app a (self s) /\
      bus s' = (bus s ++ [window_switch (device_name (self s))
                            (window_event d)])%list)
     \/
     (prev <> VNone /\ py_eq a prev = true /\ s' = s)).
Proof.
  intros d s s' H Hev a prev. subst a prev.
  unfold _fire_window_switch_event in H.
  destruct (window_event d) as [| | | | |l|dd] eqn:Ev;
    try congruence; try (simpl in H; discriminate).
  unfold window_switch, app_of, event_field.
  unfold_monad. simpl in H |- *.
  set (event_data := match dict_lookup "data" dd with
                     | Some x => x
                     | None => VDict []
                     end) in *.
  clearbody event_data.
  destruct event_data as [| | | | | |ed]; try (simpl in H; discriminate).
  simpl in H |- *.
  set (a := match dict_lookup "app" ed with
            | Some x => x
            | None => VNone
            end) in *.
  clearbody a.
  destruct (_previous_window_app (self s)) eqn:Ep; simpl in H.
  all: try (destruct (py_eq a _) eqn:Eq; simpl in H).
  all: inversion H; subst s'; clear H; cbn [self bus world];
    split; try reflexivity.
  all: try (left; repeat split; reflexivity).
  all: try (right; right; split; [discriminate|split; reflexivity]).
  all: right; left; split; [discriminate|repeat split; reflexivity].
Qed.

(** A tick that returns without a window event leaves [self] and the bus
    alone. *)
Lemma tick_without_event :
  forall (s s' : State) (d : ActivityWatchData),
    _async_update_data s = (Ok d, s') ->
    window_event d = VNone ->
    self s' = self s /\ bus s' = bus s.
Proof.
  intros s s' d H Hev.
  destruct (update_returns s s' d H) as (s1 & Hs & Hb & Hf).
  unfold _fire_window_switch_event in Hf. rewrite Hev in Hf.
  unfold ret in Hf. inversion Hf; subst. split; assumption.
Qed.

(** A tick that returns with a window event: the three cases of the switch
    check, in terms of the state the tick started from. *)
Lemma tick_effect :
  forall (s s' : State) (d : ActivityWatchData),
    _async_update_data s = (Ok d, s') ->
    window_event d <> VNone ->
    let a := app_of (window_event d) in
    let prev := _previous_window_app (self s) in
    (prev = VNone /\
     self s' = set_previous_window_app a (self s) /\ bus s' = bus s)
    \/
    (prev <> VNone /\ py_eq a prev = false /\
     self s' = set_previous_window_app a (self s) /\
     bus s' = (bus s ++ [window_switch (device_name (self s))
                           (window_event d)])%list)
    \/
    (prev <> VNone /\ py_eq a prev = true /\
     self s' = self s /\ bus s' = bus s).
Proof.
  intros s s' d H Hev a prev. subst a prev.
  destruct (update_returns s s' d H) as (s1 & Hs & Hb & Hf).
  destruct (fire_effect d s1 s' Hf Hev) as (_ & Hc).
  rewrite Hs, Hb in Hc.
  destruct Hc as [Hc | [Hc | (Hp & Hq & ->)]].
  - left. exact Hc.
  - right. left. exact Hc.
  - right. right. repeat split; assumption.
Qed.

(** After a tick that returned with a window event whose app is a string or
    absent, the baseline is that app. *)
Lemma baseline_after_tick :
  forall (s s' : State) (d : ActivityWatchData),
    _async_update_data s = (Ok d, s') ->
    window_event d <> VNone ->
    str_or_none (app_of (window_event d)) ->
    _previous_window_app (self s') = app_of (window_event d).
Proof.
  intros s s' d H Hev Hty.
  destruct (tick_effect s s' d H Hev)
    as [(_ & Hs & _) | [(_ & _ & Hs & _) | (Hp & Hq & Hs & _)]];
    try (rewrite Hs; reflexivity).
  rewrite Hs. destruct Hty as [Ha | [x Ha]]; rewrite Ha in Hq |- *.
  - apply py_eq_none_l in Hq. congruence.
  - apply py_eq_str_l in Hq. exact Hq.
Qed.

Lemma preserving_fire :
  forall (X : Type) (f : State -> X) (d : ActivityWatchData),
    (forall s v,
        f {| self := set_previous_window_app v (self s);
             bus := bus s; world := world s |} = f s) ->
    (forall s ev,
        f {| self := self s; bus := (bus s ++ [ev])%list;
             world := world s |} = f s) ->
    preserving f (_fire_window_switch_event d).
Proof.
  intros X f d Hset Hfire. unfold _fire_window_switch_event.
  assert (Hon : forall v, preserving f (on_self (set_previous_window_app v))).
  { intros v s. apply Hset. }
  assert (Hmain :
    forall ev,
      preserving f
        (event_data <- lift_res (py_get ev "data" (VDict [])) ;;
         current_app <- lift_res (py_get event_data "app" VNone) ;;
         previous <- gets (fun s => _previous_window_app (self s)) ;;
         match previous with
         | VNone => on_self (set_previous_window_app current_app)
         | _ =>
             if negb (py_eq current_app previous) then
               (on_self (set_previous_window_app current_app) ;;;
                device <- gets (fun s => device_name (self s)) ;;
                title <- lift_res (py_get event_data "title"
                                     (VStr EmptyString)) ;;
                url <- lift_res (py_get event_data "url"
                                   (VStr EmptyString)) ;;
                async_fire EVENT_ACTIVITY_SWITCH
                  (VDict [("device_id", VStr device);
                          ("type", VStr "window_switch");
                          ("app", current_app);
                          ("title", title);
                          ("url", url)]))
             else ret tt
         end)%monad).
  { intros ev.
    apply preserving_bind; [apply preserving_pure|intros event_data].
    apply preserving_bind; [apply preserving_pure|intros current_app].
    apply preserving_bind; [apply preserving_gets|intros previous].
    assert (Hfires :
      preserving f
        (if negb (py_eq current_app previous) then
           (on_self (set_previous_window_app current_app) ;;;
            device <- gets (fun s => device_name (self s)) ;;
            title <- lift_res (py_get event_data "title"
                                 (VStr EmptyString)) ;;
            url <- lift_res (py_get event_data "url" (VStr EmptyString)) ;;
            async_fire EVENT_ACTIVITY_SWITCH
              (VDict [("device_id", VStr device);
                      ("type", VStr "window_switch");
                      ("app", current_app);
                      ("title", title);
                      ("url", url)]))%monad
         else ret tt)).
    { destruct (negb (py_eq current_app previous)); [|apply preserving_ret].
      apply preserving_bind; [apply Hon|intros _].
      apply preserving_bind; [apply preserving_gets|intros device].
      apply preserving_bind; [apply preserving_pure|intros title].
      apply preserving_bind; [apply preserving_pure|intros url].
      intros s. apply Hfire. }
    destruct previous; first [apply Hon | exact Hfires]. }
  destruct (window_event d); first [apply preserving_ret | apply Hmain].
Qed.

Lemma preserving_update_buckets : preserving buckets _async_update_data.
Proof.
  unfold _async_update_data.
  apply preserving_bind.
  - apply preserving_guarded_fetch. intros s w. reflexivity.
  - intros d. apply preserving_bind; [|intros _; apply preserving_ret].
    apply preserving_fire; intros; reflexivity.
Qed.

Lemma preserving_refresh_buckets : preserving buckets async_refresh.
Proof.
  intros s. unfold async_refresh.
  pose proof (preserving_update_buckets s) as H.
  destruct (_async_update_data s) as [[d|e] s1]; simpl in H |- *; exact H.
Qed.

Lemma preserving_update_data :
  preserving (fun s => data (self s)) _async_update_data.
Proof.
  unfold _async_update_data.
  apply preserving_bind.
  - apply preserving_guarded_fetch. intros s w. reflexivity.
  - intros d. apply preserving_bind; [|intros _; apply preserving_ret].
    apply preserving_fire; intros; reflexivity.
Qed.

(** While no tick returns a window event, the snapshot holds none. *)
Lemma ticks_without_window_event :
  forall (n : nat) (s : State),
    no_window_event (self s) ->
    (forall k d,
        (k < n)%nat ->
        fst (_async_update_data (ticks k s)) = Ok d ->
        window_event d = VNone) ->
    no_window_event (self (ticks n s)).
Proof.
  induction n as [|n IH]; intros s Hs Hnever; [exact Hs|].
  simpl. apply IH.
  - unfold async_refresh.
    pose proof (preserving_update_data s) as Hdata.
    pose proof (Hnever 0%nat) as H0. simpl in H0.
    destruct (_async_update_data s) as [[d|e] s1]; simpl in *.
    + right. exists d. split; [reflexivity|].
      apply H0; [apply Nat.lt_0_succ|reflexivity].
    + unfold no_window_event in *. rewrite Hdata. exact Hs.
  - intros k d Hk Hd. apply (Hnever (S k) d); [|exact Hd].
    apply (proj1 (Nat.succ_lt_mono k n)). exact Hk.
Qed.

Lemma ticks_buckets :
  forall (n : nat) (s : State), buckets (ticks n s) = buckets s.
Proof.
  induction n as [|n IH]; intros s; simpl; [reflexivity|].
  rewrite IH. apply preserving_refresh_buckets.
Qed.

End CoordinatorFacts.

(** Edge-triggered switches, where the first event carries an app.  Take
    a tick that returns with window event E1
    and, after it, a tick that returns with window event E2.  Started from
    the uninitialized state, the first tick alone puts nothing on the bus;
    if moreover E1 carries an app (it is not [None]) and E2's app differs
    from it, the two ticks together put exactly one notification on the
    bus, carrying the device identifier, the type tag window_switch, and
    E2's app, title and url.  If E2's app equals E1's, the second tick
    puts nothing on the bus, whatever else changed in the event: from any
    state when E1's app is a string or absent, and from the uninitialized
    state whatever the app is. *)
Theorem window_switch_edge_triggered :
  forall (Se : ClientSession) (s s1 : State) (d1 : ActivityWatchData),
    _async_update_data s = (Ok d1, s1) ->
    window_event d1 <> VNone ->
    let a1 := app_of (window_event d1) in
    (_previous_window_app (self s) = VNone -> bus s1 = bus s) /\
    (forall (s2 : State) (d2 : ActivityWatchData),
        _async_update_data s1 = (Ok d2, s2) ->
        window_event d2 <> VNone ->
        let a2 := app_of (window_event d2) in
        (_previous_window_app (self s) = VNone ->
         a1 <> VNone ->
         py_eq a2 a1 = false ->
         bus s2 = (bus s ++ [window_switch (device_name (self s))
                               (window_event d2)])%list) /\
        (str_or_none a1 -> py_eq a2 a1 = true -> bus s2 = bus s1) /\
        (_previous_window_app (self s) = VNone ->
         py_eq a2 a1 = true -> bus s2 = bus s1)).
Proof.
  intros Se s s1 d1 H1 Hev1 a1. split.
  - intros Hinit.
    destruct (tick_effect s s1 d1 H1 Hev1)
      as [(_ & _ & Hb) | [(Hp & _) | (Hp & _)]]; congruence.
  - intros s2 d2 H2 Hev2 a2. split; [|split].
    + intros Hinit Ha1 Hne.
      destruct (tick_effect s s1 d1 H1 Hev1)
        as [(_ & Hs & Hb) | [(Hp & _) | (Hp & _)]]; try congruence.
      destruct (tick_effect s1 s2 d2 H2 Hev2)
        as [(Hp & _) | [(_ & _ & _ & Hb2) | (_ & Hq & _)]].
      * rewrite Hs in Hp. simpl in Hp. contradiction.
      * rewrite Hb2, Hb, Hs. reflexivity.
      * rewrite Hs in Hq. simpl in Hq. fold a1 a2 in Hq. congruence.
    + intros Hty Heq.
      pose proof (baseline_after_tick s s1 d1 H1 Hev1 Hty) as Hbase.
      destruct (tick_effect s1 s2 d2 H2 Hev2)
        as [(_ & _ & Hb2) | [(_ & Hq & _) | (_ & _ & _ & Hb2)]];
        try exact Hb2.
      rewrite Hbase in Hq. fold a1 a2 in Hq. congruence.
    + intros Hinit Heq.
      destruct (tick_effect s s1 d1 H1 Hev1)
        as [(_ & Hs & _) | [(Hp & _) | (Hp & _)]]; try congruence.
      destruct (tick_effect s1 s2 d2 H2 Hev2)
        as [(_ & _ & Hb2) | [(_ & Hq & _) | (_ & _ & _ & Hb2)]];
        try exact Hb2.
      rewrite Hs in Hq. simpl in Hq. fold a1 a2 in Hq. congruence.
Qed.

(** Switches from a baseline that is an app.  On a tick that returns with
    a window event,
    when the stored baseline is not [None] and the event's app differs from
    it, the coordinator puts one change notification on the bus and the
    baseline becomes the event's app, which is [None] when the event
    carries no app. *)
Theorem switch_fires_on_known_baseline :
  forall (Se : ClientSession) (s s' : State) (d : ActivityWatchData),
    _async_update_data s = (Ok d, s') ->
    window_event d <> VNone ->
    _previous_window_app (self s) <> VNone ->
    py_eq (app_of (window_event d)) (_previous_window_app (self s)) = false ->
    bus s' = (bus s ++ [window_switch (device_name (self s))
                          (window_event d)])%list /\
    _previous_window_app (self s') = app_of (window_event d) /\
    (forall dd ed,
        window_event d = VDict dd ->
        dict_lookup "data" dd = Some (VDict ed) ->
        dict_lookup "app" ed = None ->
        _previous_window_app (self s') = VNone).
Proof.
  intros Se s s' d H Hev Hprev Hne.
  destruct (tick_effect s s' d H Hev)
    as [(Hp & _) | [(_ & _ & Hs & Hb) | (_ & Hq & _)]]; try congruence.
  assert (Hbase : _previous_window_app (self s') = app_of (window_event d)).
  { rewrite Hs. reflexivity. }
  repeat split; try assumption.
  intros dd ed Hd Hdata Happ. rewrite Hbase, Hd.
  unfold app_of, event_field. simpl. rewrite Hdata. simpl.
  rewrite Happ. reflexivity.
Qed.

(** C10.  When the [try] block of a tick raises an API error (the
    connection error included), the tick raises [UpdateFailed], and nothing
    the coordinator holds has changed: not the cached snapshot, not the
    baseline, not the bus.  The host's refresh then leaves the snapshot as
    it was as well. *)
Theorem failed_tick_is_atomic :
  forall (Se : ClientSession) (s : State) (e : exn),
    fst (fetch s) = Raise e ->
    isinstance_ActivityWatchApiError e = true ->
    fst (_async_update_data s)
    = Raise (UpdateFailed
               ((if isinstance_ActivityWatchApiConnectionError e
                 then "Connection error: " else "API error: ")
                ++ exn_str e)) /\
    self (snd (_async_update_data s)) = self s /\
    data (self (snd (_async_update_data s))) = data (self s) /\
    _previous_window_app (self (snd (_async_update_data s)))
    = _previous_window_app (self s) /\
    bus (snd (_async_update_data s)) = bus s /\
    self (snd (async_refresh s)) = self s /\
    bus (snd (async_refresh s)) = bus s.
Proof.
  intros Se s e Hf He.
  pose proof (preserving_fetch _ self self_world_blind s) as Hs.
  pose proof (preserving_fetch _ bus bus_world_blind s) as Hb.
  assert (Hu : _async_update_data s
               = (Raise (UpdateFailed
                           ((if isinstance_ActivityWatchApiConnectionError e
                             then "Connection error: " else "API error: ")
                            ++ exn_str e)), snd (fetch s))).
  { unfold _async_update_data, bind, try_except.
    destruct (fetch s) as [r s1]. simpl in Hf. subst r. simpl.
    unfold on_api_error, raise.
    destruct (isinstance_ActivityWatchApiConnectionError e);
      [reflexivity|].
    rewrite He. reflexivity. }
  unfold async_refresh. rewrite Hu. simpl.
  rewrite Hs, Hb. repeat split; reflexivity.
Qed.

Lemma window_switch_edge_triggered_witness :
  let s := start_state window_only
             [one_event MOCK_WINDOW_EVENT; one_event MOCK_WINDOW_EVENT_2] in
  let s1 := snd (_async_update_data s) in
  let s2 := snd (_async_update_data s1) in
  let t := start_state window_only
             [one_event MOCK_WINDOW_EVENT; one_event WINDOW_EVENT_RETITLED] in
  let t1 := snd (_async_update_data t) in
  let t2 := snd (_async_update_data t1) in
  bus s1 = [] /\
  bus s2 = [window_switch "Test-PC" MOCK_WINDOW_EVENT_2] /\
  bus t2 = bus t1.
Proof.
  intros s s1 s2 t t1 t2.
  destruct (window_switch_edge_triggered scripted s s1
              (window_snapshot MOCK_WINDOW_EVENT) eq_refl
              ltac:(discriminate)) as [Hfirst Hsecond].
  destruct (Hsecond s2 (window_snapshot MOCK_WINDOW_EVENT_2) eq_refl
              ltac:(discriminate)) as [Hfire _].
  destruct (window_switch_edge_triggered scripted t t1
              (window_snapshot MOCK_WINDOW_EVENT) eq_refl
              ltac:(discriminate)) as [_ Hsame].
  destruct (Hsame t2 (window_snapshot WINDOW_EVENT_RETITLED) eq_refl
              ltac:(discriminate)) as (_ & Hquiet & _).
  split; [|split].
  - exact (Hfirst eq_refl).
  - exact (Hfire eq_refl ltac:(discriminate) eq_refl).
  - apply Hquiet; [right; exists "Code"; reflexivity | reflexivity].
Defined.

(** C1.  The code on two ticks from the uninitialized state, E1 without
    an app and E2 with app Firefox: both ticks return, the two app values
    differ, and the bus is empty after the second.  The second tick has
    taken the first-poll branch of [_fire_window_switch_event] again,
    because the baseline the first one recorded is [None]. *)
Lemma no_switch_after_event_without_app :
  let s := start_state window_only
             [one_event WINDOW_EVENT_NO_APP; one_event MOCK_WINDOW_EVENT_2] in
  let r1 := _async_update_data s in
  let r2 := _async_update_data (snd r1) in
  fst r1 = Ok (window_snapshot WINDOW_EVENT_NO_APP) /\
  fst r2 = Ok (window_snapshot MOCK_WINDOW_EVENT_2) /\
  app_of WINDOW_EVENT_NO_APP = VNone /\
  app_of MOCK_WINDOW_EVENT_2 = VStr "Firefox" /\
  py_eq (app_of MOCK_WINDOW_EVENT_2) (app_of WINDOW_EVENT_NO_APP) = false /\
  bus (snd r2) = [].
Proof. repeat split; reflexivity. Qed.

Lemma switch_fires_on_known_baseline_witness :
  let s0 := start_state window_only
              [one_event MOCK_WINDOW_EVENT; one_event WINDOW_EVENT_NO_APP] in
  let s := snd (_async_update_data s0) in
  let s' := snd (_async_update_data s) in
  _previous_window_app (self s) = VStr "Code" /\
  bus s' = [window_switch "Test-PC" WINDOW_EVENT_NO_APP] /\
  _previous_window_app (self s') = VNone.
Proof.
  intros s0 s s'.
  destruct (switch_fires_on_known_baseline scripted s s'
              (window_snapshot WINDOW_EVENT_NO_APP) eq_refl
              ltac:(discriminate) ltac:(discriminate) eq_refl)
    as (Hbus & _ & Hnone).
  split; [reflexivity|split].
  - exact Hbus.
  - exact (Hnone _ _ eq_refl eq_refl eq_refl).
Defined.

(** C2.  The code on three ticks from the uninitialized state, with apps
    Code, none, Firefox.  The second tick fires a switch to app [None] and
    stores [None] as the baseline; on the third the app differs from that
    baseline, and the tick fires nothing: it takes the first-poll branch
    and only records Firefox. *)
Lemma none_baseline_swallows_switch :
  let s0 := start_state window_only
              [one_event MOCK_WINDOW_EVENT; one_event WINDOW_EVENT_NO_APP;
               one_event MOCK_WINDOW_EVENT_2] in
  let s2 := ticks 2 s0 in
  let r := _async_update_data s2 in
  bus s2 = [window_switch "Test-PC" WINDOW_EVENT_NO_APP] /\
  _previous_window_app (self s2) = VNone /\
  fst r = Ok (window_snapshot MOCK_WINDOW_EVENT_2) /\
  py_eq (app_of MOCK_WINDOW_EVENT_2) (_previous_window_app (self s2)) = false /\
  bus (snd r) = bus s2 /\
  _previous_window_app (self (snd r)) = VStr "Firefox".
Proof. repeat split; reflexivity. Qed.

Lemma failed_tick_is_atomic_witness :
  let s0 := start_state both_buckets
              [one_event MOCK_WINDOW_EVENT; one_event MOCK_AFK_EVENT_ACTIVE;
               one_event MOCK_WINDOW_EVENT_2; status_text 500 "boom"] in
  let s := ticks 1 s0 in
  let r := _async_update_data s in
  data (self s)
  = Some {| window_event := MOCK_WINDOW_EVENT;
            afk_event := MOCK_AFK_EVENT_ACTIVE |} /\
  fst r = Raise (UpdateFailed
                   "API error: HTTP 500 from /buckets/aw-watcher-afk_test-hostname/events: boom") /\
  self (snd r) = self s /\
  bus (snd r) = bus s.
Proof.
  intros s0 s r.
  destruct (failed_tick_is_atomic scripted s
              (ActivityWatchApiError
                 "HTTP 500 from /buckets/aw-watcher-afk_test-hostname/events: boom")
              eq_refl eq_refl) as (Hr & Hs & _ & _ & Hb & _).
  split; [reflexivity|]. split; [exact Hr|]. split; [exact Hs|exact Hb].
Defined.

(** ** Bucket discovery *)

(** [contains] is the substring test. *)
Lemma prefix_spec :
  forall p s, String.prefix p s = true <-> exists b, s = p ++ b.
Proof.
  induction p as [|c p IH]; intros s.
  - split; [intros _; exists s; reflexivity|].
    intros _. destruct s; reflexivity.
  - destruct s as [|c' s]; simpl.
    + split; [discriminate|intros [b Hb]; discriminate].
    + destruct (Ascii.ascii_dec c c') as [->|Hne].
      * rewrite IH. split; intros [b Hb]; exists b; congruence.
      * split; [discriminate|intros [b Hb]; congruence].
Qed.

Lemma contains_spec :
  forall p s, contains p s = true <-> exists a b, s = a ++ p ++ b.
Proof.
  intros p s. induction s as [|c s IH]; cbn [contains].
  - rewrite orb_false_r, prefix_spec. split.
    + intros [b Hb]. exists EmptyString, b. exact Hb.
    + intros (a & b & H). destruct a; simpl in H; [|discriminate].
      exists b. exact H.
  - rewrite orb_true_iff, IH, prefix_spec. split.
    + intros [[b Hb] | (a & b & Hab)].
      * exists EmptyString, b. exact Hb.
      * exists (String c a), b. simpl. congruence.
    + intros (a & b & H). destruct a as [|c' a]; simpl in H.
      * left. exists b. exact H.
      * right. exists a, b. congruence.
Qed.

Lemma matching_buckets_filter :
  forall ty its,
    listing_ok its = true ->
    matching_buckets ty its = Ok (map fst (filter (has_type ty) its)).
Proof.
  intros ty its. induction its as [|[bid info] its IH]; intros Hok.
  - reflexivity.
  - simpl in Hok. apply andb_true_iff in Hok. destruct Hok as [Hinfo Hrest].
    simpl. unfold has_type at 1. simpl.
    destruct info as [| | | | | |d]; try discriminate. simpl.
    rewrite (IH Hrest).
    destruct (dict_lookup "type" d) as [[| | | |t| |]|];
      try discriminate; cbn [str_in res_bind].
    + destruct (contains ty t); reflexivity.
    + destruct (contains ty EmptyString); reflexivity.
Qed.

Lemma head_of_filter :
  forall ty its,
    match map fst (filter (has_type ty) its) with
    | b :: _ => Some b
    | [] => None
    end = first_bucket ty its.
Proof.
  intros ty its. unfold first_bucket.
  induction its as [|kv its IH]; simpl; [reflexivity|].
  destruct (has_type ty kv); [reflexivity|exact IH].
Qed.

(** Bucket discovery against a server whose two listings are well formed:
    each id becomes the first match of its listing, or stays as it was when
    nothing matches. *)
Lemma async_setup_first_match :
  forall (Se : ClientSession) (s : State) (its1 its2 : list (string * value))
         (w1 w2 : World),
    async_get_buckets (client (self s)) (world s) = (Ok (VDict its1), w1) ->
    async_get_buckets (client (self s)) w1 = (Ok (VDict its2), w2) ->
    listing_ok its1 = true ->
    listing_ok its2 = true ->
    fst (async_setup s) = Ok tt /\
    window_bucket (self (snd (async_setup s)))
    = match first_bucket BUCKET_WINDOW its1 with
      | Some b => Some b
      | None => window_bucket (self s)
      end /\
    afk_bucket (self (snd (async_setup s)))
    = match first_bucket BUCKET_AFK its2 with
      | Some b => Some b
      | None => afk_bucket (self s)
      end.
Proof.
  intros Se s its1 its2 w1 w2 H1 H2 Hok1 Hok2.
  unfold async_setup, async_find_buckets.
  unfold bind, gets, await, lift_res, ret, on_self, modify. simpl.
  rewrite H1. simpl.
  rewrite (matching_buckets_filter _ _ Hok1).
  rewrite <- (head_of_filter BUCKET_WINDOW its1).
  destruct (map fst (filter (has_type BUCKET_WINDOW) its1)) as [|bw lw];
    simpl; rewrite H2; simpl;
    rewrite (matching_buckets_filter _ _ Hok2);
    rewrite <- (head_of_filter BUCKET_AFK its2);
    destruct (map fst (filter (has_type BUCKET_AFK) its2)) as [|ba la];
    simpl; repeat split; reflexivity.
Qed.

(** C9.  Setup assigns each bucket id as the first bucket of the listing
    whose type contains the respective substring (and leaves it unset when
    there is none); from then on, and in fact from any state, no number of
    update ticks changes either id, whatever the server answers. *)
Theorem bucket_ids_stable :
  forall (Se : ClientSession),
    (forall (s : State) (its1 its2 : list (string * value)) (w1 w2 : World),
        async_get_buckets (client (self s)) (world s)
        = (Ok (VDict its1), w1) ->
        async_get_buckets (client (self s)) w1 = (Ok (VDict its2), w2) ->
        listing_ok its1 = true ->
        listing_ok its2 = true ->
        window_bucket (self s) = None ->
        afk_bucket (self s) = None ->
        window_bucket (self (snd (async_setup s)))
        = first_bucket BUCKET_WINDOW its1 /\
        afk_bucket (self (snd (async_setup s)))
        = first_bucket BUCKET_AFK its2) /\
    (forall (s : State),
        window_bucket (self (snd (_async_update_data s)))
        = window_bucket (self s) /\
        afk_bucket (self (snd (_async_update_data s)))
        = afk_bucket (self s)) /\
    (forall (n : nat) (s : State),
        window_bucket (self (ticks n s)) = window_bucket (self s) /\
        afk_bucket (self (ticks n s)) = afk_bucket (self s)).
Proof.
  intros Se. split; [|split].
  - intros s its1 its2 w1 w2 H1 H2 Hok1 Hok2 Hw Ha.
    destruct (async_setup_first_match Se s its1 its2 w1 w2 H1 H2 Hok1 Hok2)
      as (_ & Hwb & Hab).
    rewrite Hwb, Hab, Hw, Ha.
    destruct (first_bucket BUCKET_WINDOW its1);
      destruct (first_bucket BUCKET_AFK its2); split; reflexivity.
  - intros s. pose proof (preserving_update_buckets s) as H.
    unfold buckets in H. inversion H. split; reflexivity.
  - intros n s. pose proof (ticks_buckets n s) as H.
    unfold buckets in H. inversion H. split; reflexivity.
Qed.

Lemma bucket_ids_stable_witness :
  let s := start_state (coordinator.__init__ test_client "Test-PC")
             [ok_json MOCK_BUCKETS; ok_json MOCK_BUCKETS;
              status_text 404 "no such bucket"] in
  let s0 := snd (async_setup s) in
  window_bucket (self s0) = Some "aw-watcher-window_test-hostname" /\
  afk_bucket (self s0) = Some "aw-watcher-afk_test-hostname" /\
  window_bucket (self (ticks 3 s0)) = window_bucket (self s0) /\
  afk_bucket (self (ticks 3 s0)) = afk_bucket (self s0).
Proof.
  intros s s0.
  destruct (bucket_ids_stable scripted) as (Hsetup & _ & Hticks).
  destruct (Hsetup s _ _ _ _ eq_refl eq_refl eq_refl eq_refl eq_refl eq_refl)
    as (Hw & Ha).
  destruct (Hticks 3%nat s0) as (Hw3 & Ha3).
  split; [exact Hw|]. split; [exact Ha|]. split; [exact Hw3|exact Ha3].
Defined.

(** ** The read views *)

Lemma float_trunc_finite :
  forall f, finite f = true -> exists z, float_trunc f = Ok z.
Proof.
  intros f H. unfold finite in H. unfold float_trunc.
  destruct (Prim2SF f); try discriminate; eexists; reflexivity.
Qed.

Lemma float_trunc_spec :
  forall f z, float_trunc f = Ok z -> truncation_of f z.
Proof.
  intros f z H. unfold float_trunc in H. unfold truncation_of.
  destruct (Prim2SF f) as [s|s| |s m e]; try discriminate.
  - inversion H. reflexivity.
  - inversion H; subst z. clear H.
    exists (trunc_mag m e). split; [reflexivity|].
    unfold trunc_mag. destruct (0 <=? e) eqn:He.
    + split; [|reflexivity]. apply Z.leb_le in He.
      apply Z.mul_nonneg_nonneg; [lia|]. apply Z.pow_nonneg. lia.
    + apply Z.leb_gt in He.
      assert (Hd : 0 < 2 ^ (- e)) by (apply Z.pow_pos_nonneg; lia).
      split.
      * apply Z.div_pos; lia.
      * pose proof (Z.div_mod (Z.pos m) (2 ^ (- e)) ltac:(lia)) as Hdm.
        pose proof (Z.mod_pos_bound (Z.pos m) (2 ^ (- e)) Hd) as Hm.
        nia.
Qed.

Lemma round_mag_nearest :
  forall (m : positive) (e : Z),
    e < 0 ->
    0 <= round_mag m e /\
    2 * Z.abs (round_mag m e * 2 ^ (- e) - Z.pos m) <= 2 ^ (- e) /\
    (2 * Z.abs (round_mag m e * 2 ^ (- e) - Z.pos m) = 2 ^ (- e) ->
     Z.even (round_mag m e) = true).
Proof.
  intros m e He. unfold round_mag.
  destruct (0 <=? e) eqn:Hle; [apply Z.leb_le in Hle; lia|].
  set (d := 2 ^ (- e)).
  assert (Hd : 0 < d) by (apply Z.pow_pos_nonneg; lia).
  pose proof (Z.div_mod (Z.pos m) d ltac:(lia)) as Hdm.
  pose proof (Z.mod_pos_bound (Z.pos m) d Hd) as Hr.
  assert (Hq : 0 <= Z.pos m / d) by (apply Z.div_pos; lia).
  set (q := Z.pos m / d) in *. set (r := Z.pos m mod d) in *.
  destruct (2 * r ?= d) eqn:Hc.
  - apply Z.compare_eq in Hc.
    destruct (Z.even q) eqn:Hev.
    + split; [lia|]. split; [|intros _; exact Hev].
      replace (q * d - Z.pos m) with (- r) by lia.
      rewrite Z.abs_opp, Z.abs_eq; lia.
    + split; [lia|]. split.
      * replace ((q + 1) * d - Z.pos m) with (d - r) by lia.
        rewrite Z.abs_eq; lia.
      * intros _. change (q + 1) with (Z.succ q).
        rewrite Z.even_succ, <- Z.negb_even, Hev. reflexivity.
  - rewrite Z.compare_lt_iff in Hc. split; [lia|].
    replace (q * d - Z.pos m) with (- r) by lia.
    rewrite Z.abs_opp, Z.abs_eq by lia. split; lia.
  - rewrite Z.compare_gt_iff in Hc. split; [lia|].
    replace ((q + 1) * d - Z.pos m) with (d - r) by lia.
    rewrite Z.abs_eq by lia. split; lia.
Qed.

(** [round] on a finite float gives the nearest integer, ties to even. *)
Lemma float_round_spec :
  forall f z, float_round f = Ok z -> nearest_even_of f z.
Proof.
  intros f z H. unfold float_round in H. unfold nearest_even_of.
  destruct (Prim2SF f) as [s|s| |s m e]; try discriminate.
  - inversion H. reflexivity.
  - inversion H; subst z. clear H.
    exists (round_mag m e). split; [reflexivity|].
    destruct (0 <=? e) eqn:He.
    + unfold round_mag. rewrite He. split; [|reflexivity].
      apply Z.leb_le in He.
      apply Z.mul_nonneg_nonneg; [lia|]. apply Z.pow_nonneg. lia.
    + apply Z.leb_gt in He.
      destruct (round_mag_nearest m e He) as (H0 & H1 & H2).
      split; [exact H0|]. split; assumption.
Qed.

Lemma rounded_spec :
  forall f, finite f = true -> nearest_even_of f (rounded f).
Proof.
  intros f H. apply float_round_spec.
  unfold rounded, float_round, finite in *.
  destruct (Prim2SF f); try discriminate; reflexivity.
Qed.

Lemma is_on_active_none :
  forall c,
    binary_sensor.ActivityWatchActiveBinarySensor.is_on c = Ok None
    <-> no_afk_event c.
Proof.
  intros c. unfold binary_sensor.ActivityWatchActiveBinarySensor.is_on,
    no_afk_event.
  destruct (data c) as [d|].
  - split.
    + intros H. right. exists d. split; [reflexivity|].
      destruct (afk_event d) as [| | | | | |dd]; try reflexivity;
        try (simpl in H; discriminate).
      simpl in H.
      destruct (match dict_lookup "data" dd with
                | Some x => x
                | None => VDict []
                end); simpl in H; discriminate.
    + intros [H | (d' & Hd & Hafk)]; [discriminate|].
      inversion Hd; subst d'. rewrite Hafk. reflexivity.
  - split; [intros _; left; reflexivity|reflexivity].
Qed.

Lemma is_on_active_value :
  forall c d,
    data c = Some d ->
    afk_event d <> VNone ->
    event_ok (afk_event d) = true ->
    binary_sensor.ActivityWatchActiveBinarySensor.is_on c
    = Ok (Some (py_eq (status_of (afk_event d)) (VStr "not-afk"))).
Proof.
  intros c d Hd Hev Hok.
  unfold binary_sensor.ActivityWatchActiveBinarySensor.is_on, status_of,
    event_field.
  rewrite Hd.
  destruct (afk_event d) as [| | | | | |dd]; try discriminate;
    try congruence.
  simpl in Hok |- *.
  destruct (dict_lookup "data" dd) as [[| | | | | |ed]|];
    try discriminate; reflexivity.
Qed.

(** C6 (as the code has it).  The presence sensor is unknown exactly when
    the cached snapshot holds no AFK event (there is no snapshot yet, or the
    latest tick fetched none); with an AFK event cached, it is on exactly
    when the event's status equals not-afk, and off in every other case. *)
Theorem presence_sensor_value :
  forall (c : ActivityWatchCoordinator),
    (binary_sensor.ActivityWatchActiveBinarySensor.is_on c = Ok None
     <-> no_afk_event c) /\
    (forall d,
        data c = Some d ->
        afk_event d <> VNone ->
        event_ok (afk_event d) = true ->
        (binary_sensor.ActivityWatchActiveBinarySensor.is_on c
         = Ok (Some true)
         <-> status_of (afk_event d) = VStr "not-afk") /\
        (status_of (afk_event d) <> VStr "not-afk" ->
         binary_sensor.ActivityWatchActiveBinarySensor.is_on c
         = Ok (Some false))).
Proof.
  intros c. split; [apply is_on_active_none|].
  intros d Hd Hev Hok.
  rewrite (is_on_active_value c d Hd Hev Hok).
  pose proof (py_eq_str_r (status_of (afk_event d)) "not-afk") as Hs.
  destruct (py_eq (status_of (afk_event d)) (VStr "not-afk")).
  - split.
    + split; [intros _; apply Hs; reflexivity|reflexivity].
    + intros Hne. exfalso. apply Hne. apply Hs. reflexivity.
  - split.
    + split; [discriminate|]. intros H. apply Hs in H. discriminate.
    + reflexivity.
Qed.

Lemma presence_sensor_value_witness :
  let active := set_data (Some {| window_event := VNone;
                                  afk_event := MOCK_AFK_EVENT_ACTIVE |})
                  both_buckets in
  let away := set_data (Some {| window_event := VNone;
                                afk_event := MOCK_AFK_EVENT_AFK |})
                both_buckets in
  binary_sensor.ActivityWatchActiveBinarySensor.is_on both_buckets = Ok None
  /\ binary_sensor.ActivityWatchActiveBinarySensor.is_on active
     = Ok (Some true)
  /\ binary_sensor.ActivityWatchActiveBinarySensor.is_on away
     = Ok (Some false).
Proof.
  intros active away. split; [|split].
  - destruct (presence_sensor_value both_buckets) as [H _].
    apply H. left. reflexivity.
  - destruct (presence_sensor_value active) as [_ H].
    destruct (H _ eq_refl ltac:(discriminate) eq_refl) as [Hon _].
    apply Hon. reflexivity.
  - destruct (presence_sensor_value away) as [_ H].
    destruct (H _ eq_refl ltac:(discriminate) eq_refl) as [_ Hoff].
    apply Hoff. discriminate.
Defined.

(** C6, as stated, fails: an AFK event was cached by the first tick (the
    sensor was on), the second tick fetched an empty list, and the sensor
    is unknown although an AFK event has been cached before. *)
Lemma presence_unknown_after_cached_event :
  let s0 := start_state both_buckets
              [one_event MOCK_WINDOW_EVENT; one_event MOCK_AFK_EVENT_ACTIVE;
               one_event MOCK_WINDOW_EVENT; ok_json (VList [])] in
  let s1 := ticks 1 s0 in
  let s2 := ticks 2 s0 in
  data (self s1) = Some {| window_event := MOCK_WINDOW_EVENT;
                           afk_event := MOCK_AFK_EVENT_ACTIVE |} /\
  binary_sensor.ActivityWatchActiveBinarySensor.is_on (self s1)
  = Ok (Some true) /\
  fst (_async_update_data s1)
  = Ok {| window_event := MOCK_WINDOW_EVENT; afk_event := VNone |} /\
  data (self s2) = Some {| window_event := MOCK_WINDOW_EVENT;
                           afk_event := VNone |} /\
  binary_sensor.ActivityWatchActiveBinarySensor.is_on (self s2) = Ok None.
Proof. repeat split; reflexivity. Qed.

Lemma lower_all_strings :
  forall (T : Text) (l : list value),
    forallb is_str l = true ->
    lower_all l = Ok (map lower (strings_of l)).
Proof.
  intros T l. induction l as [|v l IH]; intros H; [reflexivity|].
  simpl in H. apply andb_true_iff in H. destruct H as [Hv Hl].
  destruct v; try discriminate. simpl. rewrite (IH Hl). reflexivity.
Qed.

Lemma str_mem_lowered :
  forall (T : Text) (wanted : string) (l : list value),
    str_mem (lower wanted) (map lower (strings_of l)) = true
    <-> exists entry, In (VStr entry) l /\ lower entry = lower wanted.
Proof.
  intros T wanted l. unfold str_mem. induction l as [|v l IH].
  - simpl. split; [discriminate|intros (e & [] & _)].
  - destruct v; simpl;
      try (rewrite IH; split;
           [intros (e & Hin & He); exists e; split; [right; exact Hin|exact He]
           |intros (e & [Hin|Hin] & He);
            [discriminate|exists e; split; assumption]]).
    rewrite orb_true_iff, IH, String.eqb_eq. split.
    + intros [H | (e & Hin & He)].
      * exists s. split; [left; reflexivity|congruence].
      * exists e. split; [right; exact Hin|exact He].
    + intros (e & [Hin|Hin] & He).
      * inversion Hin; subst. left. congruence.
      * right. exists e. split; assumption.
Qed.

Lemma is_on_category_value :
  forall (T : Text) c d category,
    data c = Some d ->
    window_event d <> VNone ->
    event_ok (window_event d) = true ->
    forallb is_str (category_list (window_event d)) = true ->
    binary_sensor.ActivityWatchCategoryBinarySensor.is_on c category
    = Ok (Some (str_mem (lower category)
                  (map lower (strings_of (category_list (window_event d)))))).
Proof.
  intros T c d category Hd Hev Hok Hstr.
  unfold binary_sensor.ActivityWatchCategoryBinarySensor.is_on.
  rewrite Hd. unfold category_list, event_field in *.
  destruct (window_event d) as [| | | | | |dd]; try discriminate;
    try congruence.
  simpl in Hok, Hstr |- *.
  destruct (dict_lookup "data" dd) as [[| | | | | |ed]|];
    try discriminate; simpl in Hstr |- *; [|reflexivity].
  destruct (dict_lookup "$category" ed) as [[| | | | |l|]|];
    simpl in Hstr |- *; try reflexivity.
  rewrite (lower_all_strings T l Hstr). reflexivity.
Qed.

(** C7.  With a window event cached whose category entries are strings:
    the category sensor is on exactly when some entry of the event's
    category list, in any position, has the same lowercase form as the
    configured category; it is off when no entry does, which includes an
    empty or absent list.  With no window event in the snapshot it is
    unknown, and so it is after any number of ticks of a fresh coordinator
    none of which returned a window event. *)
Theorem category_sensor_value :
  forall (T : Text) (c : ActivityWatchCoordinator) (category : string),
    (forall d,
        data c = Some d ->
        window_event d <> VNone ->
        event_ok (window_event d) = true ->
        forallb is_str (category_list (window_event d)) = true ->
        (binary_sensor.ActivityWatchCategoryBinarySensor.is_on c category
         = Ok (Some true)
         <-> exists entry,
               In (VStr entry) (category_list (window_event d)) /\
               lower entry = lower category) /\
        ((forall entry,
             In (VStr entry) (category_list (window_event d)) ->
             lower entry <> lower category) ->
         binary_sensor.ActivityWatchCategoryBinarySensor.is_on c category
         = Ok (Some false)) /\
        (category_list (window_event d) = [] ->
         binary_sensor.ActivityWatchCategoryBinarySensor.is_on c category
         = Ok (Some false))) /\
    (no_window_event c ->
     binary_sensor.ActivityWatchCategoryBinarySensor.is_on c category
     = Ok None) /\
    (forall (Se : ClientSession) (s : State) (n : nat),
        data (self s) = None ->
        (forall k d,
            (k < n)%nat ->
            fst (_async_update_data (ticks k s)) = Ok d ->
            window_event d = VNone) ->
        binary_sensor.ActivityWatchCategoryBinarySensor.is_on
          (self (ticks n s)) category
        = Ok None).
Proof.
  intros T c category.
  assert (Hunknown :
    forall c', no_window_event c' ->
      binary_sensor.ActivityWatchCategoryBinarySensor.is_on c' category
      = Ok None).
  { unfold binary_sensor.ActivityWatchCategoryBinarySensor.is_on.
    intros c' [Hnone | (d & Hd & Hev)].
    - rewrite Hnone. reflexivity.
    - rewrite Hd, Hev. reflexivity. }
  split; [|split; [exact (Hunknown c)|]];
    [|intros Se s n Hfresh Hnever; apply Hunknown;
      apply ticks_without_window_event;
      [left; exact Hfresh|exact Hnever]].
  - intros d Hd Hev Hok Hstr.
    rewrite (is_on_category_value T c d category Hd Hev Hok Hstr).
    pose proof (str_mem_lowered T category (category_list (window_event d)))
      as Hmem.
    destruct (str_mem (lower category)
                (map lower (strings_of (category_list (window_event d))))).
    + split; [|split].
      * split; [intros _; apply Hmem; reflexivity|reflexivity].
      * intros Hnone. destruct Hmem as [Hmem _].
        destruct (Hmem eq_refl) as (e & Hin & He).
        exfalso. exact (Hnone e Hin He).
      * intros Hempty. destruct Hmem as [Hmem _].
        destruct (Hmem eq_refl) as (e & Hin & _).
        rewrite Hempty in Hin. destruct Hin.
    + split; [|split; reflexivity].
      split; [discriminate|]. intros H. apply Hmem in H. discriminate.
Qed.

Lemma category_sensor_value_witness :
  let seen := set_data (Some (window_snapshot MOCK_WINDOW_EVENT))
                window_only in
  let bare := set_data (Some (window_snapshot MOCK_WINDOW_EVENT_NO_CATEGORY))
                window_only in
  @binary_sensor.ActivityWatchCategoryBinarySensor.is_on ascii_text
    seen "work" = Ok (Some true) /\
  @binary_sensor.ActivityWatchCategoryBinarySensor.is_on ascii_text
    seen "Engineering" = Ok (Some true) /\
  @binary_sensor.ActivityWatchCategoryBinarySensor.is_on ascii_text
    seen "Gaming" = Ok (Some false) /\
  @binary_sensor.ActivityWatchCategoryBinarySensor.is_on ascii_text
    bare "Work" = Ok (Some false) /\
  @binary_sensor.ActivityWatchCategoryBinarySensor.is_on ascii_text
    window_only "Work" = Ok None /\
  @binary_sensor.ActivityWatchCategoryBinarySensor.is_on ascii_text
    (self (ticks 1 (start_state window_only [ok_json (VList [])])))
    "Work" = Ok None.
Proof.
  intros seen bare.
  split; [|split; [|split; [|split; [|split]]]].
  - destruct (category_sensor_value ascii_text seen "work") as [H _].
    destruct (H _ eq_refl ltac:(discriminate) eq_refl eq_refl) as (Hon & _).
    apply Hon. exists "Work". split; [left; reflexivity|reflexivity].
  - destruct (category_sensor_value ascii_text seen "Engineering") as [H _].
    destruct (H _ eq_refl ltac:(discriminate) eq_refl eq_refl) as (Hon & _).
    apply Hon. exists "Engineering".
    split; [right; left; reflexivity|reflexivity].
  - destruct (category_sensor_value ascii_text seen "Gaming") as [H _].
    destruct (H _ eq_refl ltac:(discriminate) eq_refl eq_refl)
      as (_ & Hoff & _).
    apply Hoff. intros entry [Hin | [Hin | []]];
      inversion Hin; subst entry; discriminate.
  - destruct (category_sensor_value ascii_text bare "Work") as [H _].
    destruct (H _ eq_refl ltac:(discriminate) eq_refl eq_refl)
      as (_ & _ & Hoff).
    apply Hoff. reflexivity.
  - destruct (category_sensor_value ascii_text window_only "Work")
      as (_ & H & _).
    apply H. left. reflexivity.
  - destruct (category_sensor_value ascii_text window_only "Work")
      as (_ & _ & H).
    apply (H scripted (start_state window_only [ok_json (VList [])]) 1%nat);
      [reflexivity|].
    intros k d Hk Hd.
    destruct k as [|k]; [|inversion Hk as [|m Hm]; inversion Hm].
    simpl in Hd. inversion Hd. reflexivity.
Defined.

Lemma native_value_of_event :
  forall (T : Text) c d,
    data c = Some d ->
    window_event d <> VNone ->
    event_ok (window_event d) = true ->
    sensor.ActivityWatchCurrentActivitySensor.native_value c
    = Ok (Some match category_list (window_event d) with
               | first :: _ => py_str first
               | [] => "Uncategorized"
               end).
Proof.
  intros T c d Hd Hev Hok.
  unfold sensor.ActivityWatchCurrentActivitySensor.native_value.
  rewrite Hd. unfold category_list, event_field.
  destruct (window_event d) as [| | | | | |dd]; try discriminate;
    try congruence.
  simpl in Hok |- *.
  destruct (dict_lookup "data" dd) as [[| | | | | |ed]|];
    try discriminate; simpl; [|reflexivity].
  destruct (dict_lookup "$category" ed) as [[|b|z|f|s|l|dc]|];
    simpl; try reflexivity.
  - destruct b; reflexivity.
  - destruct (negb (z =? 0)); reflexivity.
  - destruct (negb (PrimFloat.eqb f 0)); reflexivity.
  - destruct (negb (String.eqb s EmptyString)); reflexivity.
  - destruct l; reflexivity.
  - destruct dc; reflexivity.
Qed.

Lemma duration_attribute_of_event :
  forall (T : Text) c d dd f z,
    data c = Some d ->
    window_event d = VDict dd ->
    event_ok (window_event d) = true ->
    dict_lookup "duration" dd = Some (VFloat f) ->
    float_trunc f = Ok z ->
    exists attrs,
      sensor.ActivityWatchCurrentActivitySensor.extra_state_attributes c
      = Ok (Some (VDict attrs)) /\
      dict_lookup "duration" attrs = Some (VInt z).
Proof.
  intros T c d dd f z Hd Hev Hok Hdur Htr.
  unfold sensor.ActivityWatchCurrentActivitySensor.extra_state_attributes.
  rewrite Hd. rewrite Hev in Hok |- *.
  simpl in Hok |- *. rewrite Hdur.
  destruct (dict_lookup "data" dd) as [[| | | | | |ed]|];
    try discriminate; simpl; rewrite Htr; simpl;
    eexists; split; reflexivity.
Qed.

(** C8.  With a window event cached: the sensor's value is the first entry
    of the event's category list when the list is there and not empty, and
    the string Uncategorized otherwise; and when the event's duration is a
    finite float, the duration attribute is that float cut toward zero. *)
Theorem current_activity_value :
  forall (T : Text) (c : ActivityWatchCoordinator) (d : ActivityWatchData),
    data c = Some d ->
    window_event d <> VNone ->
    event_ok (window_event d) = true ->
    (forall first rest,
        category_list (window_event d) = VStr first :: rest ->
        sensor.ActivityWatchCurrentActivitySensor.native_value c
        = Ok (Some first)) /\
    (category_list (window_event d) = [] ->
     sensor.ActivityWatchCurrentActivitySensor.native_value c
     = Ok (Some "Uncategorized")) /\
    (forall dd f,
        window_event d = VDict dd ->
        dict_lookup "duration" dd = Some (VFloat f) ->
        finite f = true ->
        exists attrs z,
          sensor.ActivityWatchCurrentActivitySensor.extra_state_attributes c
          = Ok (Some (VDict attrs)) /\
          dict_lookup "duration" attrs = Some (VInt z) /\
          truncation_of f z).
Proof.
  intros T c d Hd Hev Hok.
  rewrite (native_value_of_event T c d Hd Hev Hok).
  split; [|split].
  - intros first rest ->. reflexivity.
  - intros ->. reflexivity.
  - intros dd f Hdd Hdur Hfin.
    destruct (float_trunc_finite f Hfin) as [z Hz].
    destruct (duration_attribute_of_event T c d dd f z Hd Hdd Hok Hdur Hz)
      as (attrs & Hattrs & Hlook).
    exists attrs, z. repeat split; try assumption.
    apply float_trunc_spec. exact Hz.
Qed.

Lemma current_activity_value_witness :
  let seen := set_data (Some (window_snapshot LONG_WINDOW_EVENT))
                window_only in
  let bare := set_data (Some (window_snapshot MOCK_WINDOW_EVENT_NO_CATEGORY))
                window_only in
  @sensor.ActivityWatchCurrentActivitySensor.native_value ascii_text seen
  = Ok (Some "Work") /\
  @sensor.ActivityWatchCurrentActivitySensor.native_value ascii_text bare
  = Ok (Some "Uncategorized") /\
  (exists attrs z,
      @sensor.ActivityWatchCurrentActivitySensor.extra_state_attributes
        ascii_text seen = Ok (Some (VDict attrs)) /\
      dict_lookup "duration" attrs = Some (VInt z) /\
      truncation_of 120.75 z) /\
  float_trunc 120.75 = Ok 120 /\
  float_round 120.75 = Ok 121.
Proof.
  intros seen bare.
  destruct (current_activity_value ascii_text seen _ eq_refl
              ltac:(discriminate) eq_refl) as (Hfirst & _ & Hdur).
  destruct (current_activity_value ascii_text bare _ eq_refl
              ltac:(discriminate) eq_refl) as (_ & Hnone & _).
  split; [exact (Hfirst _ _ eq_refl)|].
  split; [exact (Hnone eq_refl)|].
  split; [exact (Hdur _ _ eq_refl eq_refl eq_refl)|].
  split; reflexivity.
Defined.

(** ** The query-stats service *)

Lemma float_round_finite :
  forall f, finite f = true -> float_round f = Ok (rounded f).
Proof.
  intros f H. unfold rounded, float_round, finite in *.
  destruct (Prim2SF f); try discriminate; reflexivity.
Qed.

Lemma filtered_out_ok :
  forall (T : Text) (cf : option string) (ev : value),
    query_event_ok ev = true ->
    filtered_out cf ev
    = Ok (if str_truthy cf
          then match cf with
               | Some f => negb (matches_filter f ev)
               | None => false
               end
          else false).
Proof.
  intros T cf ev Hok. unfold filtered_out.
  destruct (str_truthy cf); [|reflexivity].
  destruct cf as [f|]; [|reflexivity].
  unfold matches_filter, category_list, event_field.
  destruct ev as [| | | | | |dd]; try discriminate. simpl in Hok |- *.
  destruct (dict_lookup "data" dd) as [[| | | | | |ed]|]; try discriminate.
  destruct (dict_lookup "duration" dd) as [[| | |fl| | |]|];
    try discriminate.
  simpl. apply andb_true_iff in Hok. destruct Hok as [_ Hcat].
  destruct (dict_lookup "$category" ed) as [[| | | | |l|]|];
    try discriminate; simpl; [|reflexivity].
  rewrite (lower_all_strings T l Hcat). reflexivity.
Qed.

Lemma loop_body_ok :
  forall (T : Text) (cf : option string) (t : float) (apps : list value)
         (ev : value),
    query_event_ok ev = true ->
    loop_body cf (t, apps) ev
    = Ok (if (if str_truthy cf
              then match cf with
                   | Some f => negb (matches_filter f ev)
                   | None => false
                   end
              else false)
          then (t, apps)
          else ((t + duration_of ev)%float, (apps ++ [reduced ev])%list)).
Proof.
  intros T cf t apps ev Hok.
  unfold loop_body. rewrite (filtered_out_ok T cf ev Hok).
  unfold reduced, app_of, event_field, duration_of.
  destruct ev as [| | | | | |dd]; try discriminate. simpl in Hok |- *.
  destruct (dict_lookup "data" dd) as [[| | | | | |ed]|]; try discriminate.
  destruct (dict_lookup "duration" dd) as [[| | |fl| | |]|];
    try discriminate.
  simpl.
  apply andb_true_iff in Hok. destruct Hok as [Hok _].
  apply andb_true_iff in Hok. destruct Hok as [Hfin Happ].
  destruct (dict_lookup "app" ed) as [app|]; [|discriminate].
  destruct (if str_truthy cf then _ else false); [reflexivity|].
  simpl. rewrite (float_round_finite fl Hfin). reflexivity.
Qed.

Lemma for_events_ok :
  forall (T : Text) (cf : option string) (events : list value)
         (t : float) (apps : list value),
    forallb query_event_ok events = true ->
    for_events cf events (t, apps)
    = Ok (fold_left PrimFloat.add (map duration_of (retained cf events)) t,
          (apps ++ map reduced (retained cf events))%list).
Proof.
  intros T cf events. induction events as [|ev events IH]; intros t apps Hok.
  - unfold retained. simpl.
    destruct (str_truthy cf); [destruct cf|]; simpl;
      rewrite app_nil_r; reflexivity.
  - simpl in Hok. apply andb_true_iff in Hok. destruct Hok as [Hev Hrest].
    cbn [for_events]. rewrite (loop_body_ok T cf t apps ev Hev).
    cbn [res_bind].
    unfold retained in *. destruct (str_truthy cf) eqn:Hcf.
    + destruct cf as [f|]; [|discriminate]. cbn [filter negb].
      destruct (matches_filter f ev); cbn [negb map fold_left].
      * rewrite (IH _ _ Hrest). rewrite <- app_assoc. reflexivity.
      * apply IH. exact Hrest.
    + cbn [map fold_left].
      rewrite (IH _ _ Hrest). rewrite <- app_assoc. reflexivity.
Qed.

Lemma handler_with_client :
  forall (Se : ClientSession) (T : Text) entries now call client w,
    _find_client_for_device entries (device_id call) = Ok (Some client) ->
    async_handle_query_stats entries now call w
    = match async_query client query_lines [timeperiod now call] w with
      | (Ok result, w') => (aggregate (category call) result, w')
      | (Raise err, w') =>
          if isinstance_ActivityWatchApiError err
          then (Ok (failure (exn_str err)), w')
          else (Raise err, w')
      end.
Proof.
  intros Se T entries now call client w Hfind.
  unfold async_handle_query_stats. rewrite Hfind.
  unfold bind, try_except, ret, raise, lift_res.
  destruct (async_query client query_lines [timeperiod now call] w)
    as [[result|err] w']; [reflexivity|].
  destruct (isinstance_ActivityWatchApiError err); reflexivity.
Qed.

Lemma handler_without_client :
  forall (Se : ClientSession) (T : Text) entries now call w,
    _find_client_for_device entries (device_id call) = Ok None ->
    async_handle_query_stats entries now call w
    = (Ok (failure ("Device '" ++ device_id call ++ "' not found")), w).
Proof.
  intros Se T entries now call w Hfind.
  unfold async_handle_query_stats, bind, lift_res. rewrite Hfind.
  reflexivity.
Qed.

Lemma handler_lookup_raises :
  forall (Se : ClientSession) (T : Text) entries now call w e,
    _find_client_for_device entries (device_id call) = Raise e ->
    async_handle_query_stats entries now call w = (Raise e, w).
Proof.
  intros Se T entries now call w e Hfind.
  unfold async_handle_query_stats, bind, lift_res. rewrite Hfind.
  reflexivity.
Qed.

Lemma aggregate_without_events :
  forall (T : Text) cf result,
    first_events result = [] -> aggregate cf result = Ok empty_stats.
Proof.
  intros T cf result H. unfold aggregate, first_events in *.
  destruct result as [| | | | |l|]; try reflexivity;
    try (simpl; destruct (negb _); reflexivity).
  destruct l as [|first l]; [reflexivity|]. simpl.
  destruct first; try reflexivity. subst. reflexivity.
Qed.

(** C3 (as the code has it).  The handler returns, without raising, in each
    of these cases: the device is unknown, and the payload is total 0, no
    apps and an error string; the client's query raises an API error (the
    connection error included), and the payload is total 0, no apps and the
    error's text; the query result holds no events (it is empty, or not a
    list, or its first element is not a list or is an empty one), and the
    payload is total 0 and no apps, without an [error] entry. *)
Theorem query_stats_failure_paths :
  forall (Se : ClientSession) (T : Text) (entries : list ConfigEntry)
         (now : datetime) (call : ServiceCall) (w : World),
    (_find_client_for_device entries (device_id call) = Ok None ->
     async_handle_query_stats entries now call w
     = (Ok (failure ("Device '" ++ device_id call ++ "' not found")), w)) /\
    (forall client err w',
        _find_client_for_device entries (device_id call) = Ok (Some client) ->
        async_query client query_lines [timeperiod now call] w
        = (Raise err, w') ->
        isinstance_ActivityWatchApiError err = true ->
        async_handle_query_stats entries now call w
        = (Ok (failure (exn_str err)), w')) /\
    (forall client result w',
        _find_client_for_device entries (device_id call) = Ok (Some client) ->
        async_query client query_lines [timeperiod now call] w
        = (Ok result, w') ->
        first_events result = [] ->
        async_handle_query_stats entries now call w = (Ok empty_stats, w')) /\
    dict_lookup "error" [("total_seconds", VInt 0); ("top_apps", VList [])]
    = None.
Proof.
  intros Se T entries now call w. split; [|split; [|split]].
  - intros Hfind. unfold async_handle_query_stats, bind, lift_res.
    rewrite Hfind. reflexivity.
  - intros client err w' Hfind Hq Herr.
    rewrite (handler_with_client Se T entries now call client w Hfind).
    rewrite Hq, Herr. reflexivity.
  - intros client result w' Hfind Hq Hempty.
    rewrite (handler_with_client Se T entries now call client w Hfind).
    rewrite Hq, (aggregate_without_events T _ _ Hempty). reflexivity.
  - reflexivity.
Qed.

Lemma query_stats_failure_paths_witness :
  @async_handle_query_stats scripted ascii_text [] test_now
    (test_call None) []
  = (Ok (failure "Device 'Test-PC' not found"), []) /\
  @async_handle_query_stats scripted ascii_text test_entries test_now
    (test_call None) [status_text 500 "boom"]
  = (Ok (failure "HTTP 500 from /query/: boom"), []) /\
  @async_handle_query_stats scripted ascii_text test_entries test_now
    (test_call None) []
  = (Ok (failure
           "Cannot connect to ActivityWatch at http://localhost:5600: Connection refused"),
     []) /\
  @async_handle_query_stats scripted ascii_text test_entries test_now
    (test_call None) [ok_json (VDict [("detail", VStr "no data")])]
  = (Ok empty_stats, []).
Proof.
  split; [|split; [|split]].
  - destruct (query_stats_failure_paths scripted ascii_text [] test_now
                (test_call None) []) as (H & _).
    exact (H eq_refl).
  - destruct (query_stats_failure_paths scripted ascii_text test_entries
                test_now (test_call None) [status_text 500 "boom"])
      as (_ & H & _).
    exact (H _ _ _ eq_refl eq_refl eq_refl).
  - destruct (query_stats_failure_paths scripted ascii_text test_entries
                test_now (test_call None) []) as (_ & H & _).
    exact (H _ _ _ eq_refl eq_refl eq_refl).
  - destruct (query_stats_failure_paths scripted ascii_text test_entries
                test_now (test_call None)
                [ok_json (VDict [("detail", VStr "no data")])])
      as (_ & _ & H & _).
    exact (H _ _ _ eq_refl eq_refl eq_refl).
Defined.

(** C3, as stated, fails twice over: a 200 response whose events are not
    mappings makes the handler raise, and a response that is not a list is
    answered with a payload that has no [error] entry. *)
Lemma query_stats_raises_on_malformed_event :
  @async_handle_query_stats scripted ascii_text test_entries test_now
    (test_call None) [ok_json (VList [VList [VInt 1]])]
  = (Raise AttributeError, []) /\
  @async_handle_query_stats scripted ascii_text test_entries test_now
    (test_call None) [ok_json (VDict [("detail", VStr "no data")])]
  = (Ok (VDict [("total_seconds", VInt 0); ("top_apps", VList [])]), []).
Proof. split; reflexivity. Qed.

(** C4.  For a query result whose first element is a list of well-formed
    merged events: the events kept are all of them without a category
    filter (an empty filter string is no filter) and, with one, exactly
    those whose category list has an entry with the filter's lowercase
    form; [total_seconds] is the rounded float
    sum of the kept events' durations; [top_apps] is the kept events in the
    server's order, cut to the first 10, each reduced to its app as [name]
    and its rounded duration as [seconds]. *)
Theorem query_stats_aggregation :
  forall (Se : ClientSession) (T : Text) (entries : list ConfigEntry)
         (now : datetime) (call : ServiceCall) (w w' : World)
         (client : ActivityWatchApiClient) (events rest : list value),
    _find_client_for_device entries (device_id call) = Ok (Some client) ->
    async_query client query_lines [timeperiod now call] w
    = (Ok (VList (VList events :: rest)), w') ->
    forallb query_event_ok events = true ->
    finite (float_sum (map duration_of (retained (category call) events)))
    = true ->
    async_handle_query_stats entries now call w
    = (Ok (VDict
             [("total_seconds",
               VInt (rounded
                       (float_sum
                          (map duration_of
                             (retained (category call) events)))));
              ("top_apps",
               VList (firstn 10
                        (map reduced (retained (category call) events))))]),
       w').
Proof.
  intros Se T entries now call w w' client events rest Hfind Hq Hok Hfin.
  rewrite (handler_with_client Se T entries now call client w Hfind).
  rewrite Hq. unfold aggregate.
  cbn [truthy isinstance_list negb orb].
  rewrite (for_events_ok T (category call) events _ _ Hok).
  cbn [res_bind fst snd app].
  fold (float_sum (map duration_of (retained (category call) events))).
  rewrite (float_round_finite _ Hfin). reflexivity.
Qed.

Lemma query_stats_aggregation_witness :
  @async_handle_query_stats scripted ascii_text test_entries test_now
    (test_call (Some "work"))
    [ok_json (VList [VList [MOCK_WINDOW_EVENT;
                            MOCK_WINDOW_EVENT_NO_CATEGORY;
                            MOCK_WINDOW_EVENT_2]])]
  = (Ok (VDict
           [("total_seconds", VInt 180);
            ("top_apps",
             VList [VDict [("name", VStr "Code"); ("seconds", VInt 120)];
                    VDict [("name", VStr "Firefox");
                           ("seconds", VInt 60)]])]),
     []).
Proof.
  exact (query_stats_aggregation scripted ascii_text test_entries test_now
           (test_call (Some "work"))
           [ok_json (VList [VList [MOCK_WINDOW_EVENT;
                                   MOCK_WINDOW_EVENT_NO_CATEGORY;
                                   MOCK_WINDOW_EVENT_2]])]
           [] test_client
           [MOCK_WINDOW_EVENT; MOCK_WINDOW_EVENT_NO_CATEGORY;
            MOCK_WINDOW_EVENT_2] []
           eq_refl eq_refl eq_refl eq_refl).
Defined.

(** * Further properties *)

(** ** The coordinator beyond the claims *)

Section CoordinatorMore.
Context {Se : ClientSession}.

(** The [except] clauses only ever raise, and leave the state alone. *)
Lemma on_api_error_raises_only :
  forall (err : exn) (s : State),
    exists e, @on_api_error Se ActivityWatchData err s = (Raise e, s).
Proof.
  intros err s. unfold on_api_error, raise.
  destruct (isinstance_ActivityWatchApiConnectionError err);
    [eexists; reflexivity|].
  destruct (isinstance_ActivityWatchApiError err); eexists; reflexivity.
Qed.

(** What the tick does after its [try] block has returned. *)
Lemma update_after_fetch :
  forall (s s1 : State) (d : ActivityWatchData),
    fetch s = (Ok d, s1) ->
    _async_update_data s
    = (match fst (_fire_window_switch_event d s1) with
       | Ok _ => Ok d
       | Raise e => Raise e
       end, snd (_fire_window_switch_event d s1)).
Proof.
  intros s s1 d H. unfold _async_update_data, bind, try_except, ret.
  rewrite H. destruct (_fire_window_switch_event d s1) as [[[]|e] s2];
    reflexivity.
Qed.

(** A tick that returns has its snapshot from the [try] block. *)
Lemma update_returns_fetch :
  forall (s s' : State) (d : ActivityWatchData),
    _async_update_data s = (Ok d, s') ->
    exists s1, fetch s = (Ok d, s1).
Proof.
  intros s s' d H. unfold _async_update_data, bind, try_except in H.
  destruct (fetch s) as [[d1|e] s1] eqn:Hf.
  - destruct (_fire_window_switch_event d1 s1) as [[[]|e] s2];
      [|discriminate].
    unfold ret in H. inversion H; subst. exists s1. reflexivity.
  - destruct (on_api_error_raises_only e s1) as [e' He'].
    rewrite He' in H. discriminate.
Qed.

(** The switch check raises only when it cannot read the event, and then
    before it has written anything. *)
Lemma fire_raises_clean :
  forall (d : ActivityWatchData) (s s' : State) (e : exn),
    _fire_window_switch_event d s = (Raise e, s') ->
    s' = s /\ e = AttributeError /\
    window_event d <> VNone /\ event_ok (window_event d) = false.
Proof.
  intros d s s' e H. unfold _fire_window_switch_event in H.
  unfold bind, ret, lift_res, gets, on_self, modify, async_fire in H.
  destruct (window_event d) as [| | | | | |dd] eqn:Ev;
    simpl in H; try discriminate;
    try (inversion H; subst; repeat split; congruence).
  unfold event_ok.
  destruct (dict_lookup "data" dd) as [event_data|]; simpl in H.
  - destruct event_data as [| | | | | |ed]; simpl in H;
      try (inversion H; subst; repeat split; congruence).
    exfalso.
    destruct (_previous_window_app (self s)); simpl in H;
      try discriminate;
      destruct (py_eq _ _); simpl in H; discriminate.
  - exfalso.
    destruct (_previous_window_app (self s)); simpl in H;
      try discriminate;
      destruct (py_eq _ _); simpl in H; discriminate.
Qed.

Lemma fire_returns_on_event_ok :
  forall (d : ActivityWatchData) (s : State),
    event_ok (window_event d) = true ->
    fst (_fire_window_switch_event d s) = Ok tt.
Proof.
  intros d s Hok.
  destruct (_fire_window_switch_event d s) as [[[]|e] s'] eqn:H;
    [reflexivity|].
  destruct (fire_raises_clean d s s' e H) as (_ & _ & _ & Hbad).
  congruence.
Qed.

End CoordinatorMore.

Lemma tick_raise_frame :
  forall (Se : ClientSession) (s s' : State) (e : exn),
    _async_update_data s = (Raise e, s') ->
    self s' = self s /\ bus s' = bus s.
Proof.
  intros Se s s' e H.
  pose proof (preserving_fetch _ self self_world_blind s) as Hs.
  pose proof (preserving_fetch _ bus bus_world_blind s) as Hb.
  destruct (fetch s) as [[d|e0] s1] eqn:Hf; simpl in Hs, Hb.
  - rewrite (update_after_fetch s s1 d Hf) in H.
    destruct (_fire_window_switch_event d s1) as [[[]|e1] s2] eqn:Hfire;
      simpl in H; [discriminate|].
    destruct (fire_raises_clean d s1 s2 e1 Hfire) as (-> & _).
    inversion H; subst. split; assumption.
  - unfold _async_update_data, bind, try_except in H. rewrite Hf in H.
    destruct (on_api_error_raises_only e0 s1) as [e' He'].
    rewrite He' in H. inversion H; subst. split; assumption.
Qed.

(** X1.  A tick that raises, whatever the exception, has changed nothing
    the coordinator holds: [self] (buckets, baseline, cached snapshot) and
    the bus are as before, and the host's refresh keeps them so. *)
Theorem raising_tick_changes_nothing :
  forall (Se : ClientSession) (s s' : State) (e : exn),
    _async_update_data s = (Raise e, s') ->
    self s' = self s /\ bus s' = bus s /\
    self (snd (async_refresh s)) = self s /\
    bus (snd (async_refresh s)) = bus s.
Proof.
  intros Se s s' e H.
  destruct (tick_raise_frame Se s s' e H) as [Hs Hb].
  unfold async_refresh. rewrite H. simpl. repeat split; assumption.
Qed.

Lemma raising_tick_changes_nothing_witness :
  let s0 := start_state window_only
              [one_event MOCK_WINDOW_EVENT;
               one_event (VDict [("data", VStr "not a mapping")])] in
  let s := ticks 1 s0 in
  let r := _async_update_data s in
  fst r = Raise AttributeError /\
  self (snd r) = self s /\ bus (snd r) = bus s /\
  _previous_window_app (self (snd r)) = VStr "Code".
Proof.
  intros s0 s r.
  destruct (raising_tick_changes_nothing scripted s (snd r) AttributeError
              eq_refl) as (Hs & Hb & _).
  split; [reflexivity|]. split; [exact Hs|]. split; [exact Hb|].
  reflexivity.
Defined.

(** X2.  Once the [try] block has returned a snapshot, the tick returns
    that snapshot when the window event is absent or readable (a mapping
    whose [data] is a mapping or missing); on any other window event it
    raises [AttributeError], which no [except] clause turns into
    [UpdateFailed]. *)
Theorem tick_result_after_fetch :
  forall (Se : ClientSession) (s s1 : State) (d : ActivityWatchData),
    fetch s = (Ok d, s1) ->
    (window_event d = VNone \/ event_ok (window_event d) = true ->
     fst (_async_update_data s) = Ok d) /\
    (window_event d <> VNone ->
     event_ok (window_event d) = false ->
     fst (_async_update_data s) = Raise AttributeError).
Proof.
  intros Se s s1 d Hf. rewrite (update_after_fetch s s1 d Hf). simpl.
  split.
  - intros [Hnone | Hok].
    + unfold _fire_window_switch_event. rewrite Hnone. reflexivity.
    + rewrite (fire_returns_on_event_ok d s1 Hok). reflexivity.
  - intros Hev Hbad.
    destruct (_fire_window_switch_event d s1) as [[[]|e] s2] eqn:Hfire;
      simpl.
    + exfalso.
      unfold _fire_window_switch_event in Hfire.
      unfold bind, lift_res in Hfire. unfold event_ok in Hbad.
      destruct (window_event d) as [| | | | | |dd];
        try congruence; try (simpl in Hfire; discriminate).
      simpl in Hfire.
      destruct (dict_lookup "data" dd) as [[| | | | | |ed]|];
        try discriminate; simpl in Hfire; discriminate.
    + destruct (fire_raises_clean d s1 s2 e Hfire) as (_ & -> & _).
      reflexivity.
Qed.

Lemma tick_result_after_fetch_witness :
  let good := start_state window_only [one_event MOCK_WINDOW_EVENT] in
  let bad := start_state window_only [one_event (VInt 7)] in
  fst (_async_update_data good) = Ok (window_snapshot MOCK_WINDOW_EVENT) /\
  fst (_async_update_data bad) = Raise AttributeError.
Proof.
  intros good bad. split.
  - destruct (tick_result_after_fetch scripted good _
                (window_snapshot MOCK_WINDOW_EVENT) eq_refl) as [H _].
    apply H. right. reflexivity.
  - destruct (tick_result_after_fetch scripted bad _
                (window_snapshot (VInt 7)) eq_refl) as [_ H].
    apply H; [discriminate|reflexivity].
Defined.

(** X3.  With no usable bucket id on either side ([None] or the empty
    string), a tick sends no request and changes nothing: it returns the
    empty snapshot from the very state it started in. *)
Theorem tick_without_buckets :
  forall (Se : ClientSession) (s : State),
    str_truthy (window_bucket (self s)) = false ->
    str_truthy (afk_bucket (self s)) = false ->
    _async_update_data s = (Ok new_data, s).
Proof.
  intros Se s Hw Ha.
  unfold _async_update_data, fetch, latest_event, try_except, bind, gets, ret.
  rewrite Hw, Ha. reflexivity.
Qed.

Lemma tick_without_buckets_witness :
  let s := start_state
             (set_window_bucket (Some EmptyString)
                (coordinator.__init__ test_client "Test-PC"))
             [one_event MOCK_WINDOW_EVENT] in
  _async_update_data s = (Ok new_data, s) /\
  world (snd (_async_update_data s)) = [one_event MOCK_WINDOW_EVENT].
Proof.
  intros s.
  pose proof (tick_without_buckets scripted s eq_refl eq_refl) as H.
  split; [exact H|]. rewrite H. reflexivity.
Defined.

Lemma latest_event_skips :
  forall (Se : ClientSession) (b : option string) (s : State),
    str_truthy b = false -> latest_event b s = (Ok None, s).
Proof.
  intros Se b s H. unfold latest_event. rewrite H. reflexivity.
Qed.

Lemma latest_event_keeps :
  forall (Se : ClientSession) (b : string) (s s1 : State)
         (r : option value) (evs : value) (w1 : World),
    b <> EmptyString ->
    latest_event (Some b) s = (Ok r, s1) ->
    async_get_events (client (self s)) b 1 (world s) = (Ok evs, w1) ->
    match r with Some e => e | None => VNone end = kept_event evs.
Proof.
  intros Se b s s1 r evs w1 Hb H Hq.
  unfold latest_event in H.
  assert (Ht : str_truthy (Some b) = true).
  { simpl. apply negb_true_iff. apply String.eqb_neq. exact Hb. }
  rewrite Ht in H.
  unfold bind, gets, await, lift_res, ret in H. simpl in H.
  rewrite Hq in H. unfold kept_event.
  destruct (truthy evs).
  - destruct (py_index0 evs); inversion H; subst; reflexivity.
  - inversion H; subst; reflexivity.
Qed.

Lemma fetch_unfold :
  forall (Se : ClientSession) (s s2 : State) (d : ActivityWatchData),
    fetch s = (Ok d, s2) ->
    exists w a s1,
      latest_event (window_bucket (self s)) s = (Ok w, s1) /\
      latest_event (afk_bucket (self s)) s1 = (Ok a, s2) /\
      self s1 = self s /\
      window_event d = match w with Some e => e | None => VNone end /\
      afk_event d = match a with Some e => e | None => VNone end.
Proof.
  intros Se s s2 d H. unfold fetch in H.
  unfold bind at 1 in H. unfold gets at 1 in H.
  unfold bind at 1 in H.
  pose proof (preserving_latest_event _ self (window_bucket (self s))
                self_world_blind s) as Hself.
  destruct (latest_event (window_bucket (self s)) s) as [[w|e] s1] eqn:Hw;
    [|discriminate].
  simpl in Hself.
  unfold bind at 1 in H. unfold gets at 1 in H.
  unfold bind at 1 in H. rewrite Hself in H.
  destruct (latest_event (afk_bucket (self s)) s1) as [[a|e] s2'] eqn:Ha;
    [|discriminate].
  unfold ret in H. inversion H; subst.
  exists w, a, s1. repeat split; try assumption.
  - destruct a; destruct w; reflexivity.
  - destruct a; destruct w; reflexivity.
Qed.

(** X4.  The snapshot a tick returns holds, on each side, what the server
    answered for that bucket: the first element of a non-empty list, and
    [None] for an empty (falsy) answer or when that side has no bucket
    id.  The AFK request is made after the window request. *)
Theorem tick_snapshot_contents :
  forall (Se : ClientSession) (s s' : State) (d : ActivityWatchData),
    _async_update_data s = (Ok d, s') ->
    (str_truthy (window_bucket (self s)) = false ->
     window_event d = VNone) /\
    (forall b evs w1,
        window_bucket (self s) = Some b ->
        b <> EmptyString ->
        async_get_events (client (self s)) b 1 (world s) = (Ok evs, w1) ->
        window_event d = kept_event evs) /\
    (str_truthy (afk_bucket (self s)) = false ->
     afk_event d = VNone) /\
    (forall b evs w2,
        afk_bucket (self s) = Some b ->
        b <> EmptyString ->
        async_get_events (client (self s)) b 1 (after_window_request s)
        = (Ok evs, w2) ->
        afk_event d = kept_event evs) /\
    (forall e rest, kept_event (VList (e :: rest)) = e) /\
    kept_event (VList []) = VNone.
Proof.
  intros Se s s' d H.
  destruct (update_returns_fetch s s' d H) as [s2 Hf].
  destruct (fetch_unfold Se s s2 d Hf)
    as (w & a & s1 & Hw & Ha & Hself & Hdw & Hda).
  split; [|split; [|split; [|split; [|split]]]].
  - intros Hskip. rewrite (latest_event_skips Se _ s Hskip) in Hw.
    inversion Hw; subst. exact Hdw.
  - intros b evs w1 Hb Hne Hq. rewrite Hb in Hw. rewrite Hdw.
    exact (latest_event_keeps Se b s s1 w evs w1 Hne Hw Hq).
  - intros Hskip. rewrite (latest_event_skips Se _ s1 Hskip) in Ha.
    inversion Ha; subst. exact Hda.
  - intros b evs w2 Hb Hne Hq. rewrite Hb in Ha. rewrite Hda.
    unfold after_window_request in Hq. rewrite Hw in Hq. simpl in Hq.
    rewrite <- Hself in Hq.
    exact (latest_event_keeps Se b s1 s2 a evs w2 Hne Ha Hq).
  - reflexivity.
  - reflexivity.
Qed.

Lemma tick_snapshot_contents_witness :
  let s := start_state both_buckets
             [ok_json (VList [MOCK_WINDOW_EVENT_2; MOCK_WINDOW_EVENT]);
              ok_json (VList [])] in
  let t := start_state (coordinator.__init__ test_client "Test-PC") [] in
  fst (_async_update_data s)
  = Ok {| window_event := MOCK_WINDOW_EVENT_2; afk_event := VNone |} /\
  window_event (window_snapshot MOCK_WINDOW_EVENT_2)
  = kept_event (VList [MOCK_WINDOW_EVENT_2; MOCK_WINDOW_EVENT]) /\
  afk_event (window_snapshot MOCK_WINDOW_EVENT_2) = kept_event (VList []) /\
  window_event new_data = VNone /\ afk_event new_data = VNone.
Proof.
  intros s t.
  destruct (tick_snapshot_contents scripted s (snd (_async_update_data s))
              (window_snapshot MOCK_WINDOW_EVENT_2) eq_refl)
    as (_ & Hw & _ & Ha & _).
  destruct (tick_snapshot_contents scripted t (snd (_async_update_data t))
              new_data eq_refl) as (Hnw & _ & Hna & _).
  split; [reflexivity|].
  split; [exact (Hw _ _ _ eq_refl ltac:(discriminate) eq_refl)|].
  split; [exact (Ha _ _ _ eq_refl ltac:(discriminate) eq_refl)|].
  split; [exact (Hnw eq_refl)|exact (Hna eq_refl)].
Defined.

(** ** Notifications over a run *)

(** One tick, whatever its outcome: the bus is as it was, or a baseline
    was there and exactly the switch notification of the fetched event was
    added, in which case the baseline is now that event's app. *)
Lemma tick_bus_step :
  forall (Se : ClientSession) (s : State),
    (bus (snd (_async_update_data s)) = bus s /\
     (_previous_window_app (self s) <> VNone ->
      _previous_window_app (self (snd (_async_update_data s)))
      = _previous_window_app (self s)))
    \/
    (_previous_window_app (self s) <> VNone /\
     exists d,
       fst (_async_update_data s) = Ok d /\
       window_event d <> VNone /\
       py_eq (app_of (window_event d)) (_previous_window_app (self s))
       = false /\
       bus (snd (_async_update_data s))
       = (bus s ++ [window_switch (device_name (self s))
                      (window_event d)])%list /\
       _previous_window_app (self (snd (_async_update_data s)))
       = app_of (window_event d)).
Proof.
  intros Se s.
  destruct (_async_update_data s) as [[d|e] s'] eqn:H; simpl.
  - assert (Hcase : window_event d = VNone \/ window_event d <> VNone).
    { destruct (window_event d); [left; reflexivity|right; discriminate..]. }
    destruct Hcase as [Ev | Hev].
    + destruct (tick_without_event s s' d H Ev) as [Hs Hb].
      left. split; [exact Hb|]. intros _. rewrite Hs. reflexivity.
    + destruct (tick_effect s s' d H Hev)
        as [(Hp & _ & Hb) | [(Hp & Hq & Hs & Hb) | (_ & _ & Hs & Hb)]].
      * left. split; [exact Hb|]. intros Hn. contradiction.
      * right. split; [exact Hp|]. exists d.
        repeat split; try assumption. rewrite Hs. reflexivity.
      * left. split; [exact Hb|]. intros _. rewrite Hs. reflexivity.
  - destruct (tick_raise_frame Se s s' e H) as [Hs Hb].
    left. split; [exact Hb|]. intros _. rewrite Hs. reflexivity.
Qed.

Lemma window_switch_is_window_switch :
  forall device ev, is_window_switch device (window_switch device ev).
Proof.
  intros device ev. split; [reflexivity|].
  unfold window_switch. simpl. eexists _, _, _. reflexivity.
Qed.

Lemma preserving_update_device_name :
  forall (Se : ClientSession),
    preserving (fun s => (device_name (self s), client (self s)))
      _async_update_data.
Proof.
  intros Se. unfold _async_update_data.
  apply preserving_bind.
  - apply preserving_guarded_fetch. intros s w. reflexivity.
  - intros d. apply preserving_bind; [|intros _; apply preserving_ret].
    apply preserving_fire; intros; reflexivity.
Qed.

Lemma preserving_refresh_device_name :
  forall (Se : ClientSession),
    preserving (fun s => (device_name (self s), client (self s)))
      async_refresh.
Proof.
  intros Se s. unfold async_refresh.
  pose proof (preserving_update_device_name Se s) as H.
  destruct (_async_update_data s) as [[d|e] s1]; simpl in H |- *; exact H.
Qed.

(** What one refresh adds to the bus. *)
Lemma refresh_bus_step :
  forall (Se : ClientSession) (s : State),
    exists l,
      bus (snd (async_refresh s)) = (bus s ++ l)%list /\
      (List.length l <= 1)%nat /\
      Forall (is_window_switch (device_name (self s))) l /\
      (_previous_window_app (self s) = VNone -> l = []).
Proof.
  intros Se s.
  assert (Hbus : bus (snd (async_refresh s))
                 = bus (snd (_async_update_data s))).
  { unfold async_refresh.
    destruct (_async_update_data s) as [[d|e] s1]; reflexivity. }
  rewrite Hbus.
  destruct (tick_bus_step Se s) as [[Hb _] | (Hp & d & _ & _ & _ & Hb & _)].
  - exists []. rewrite Hb, app_nil_r. repeat split; auto.
  - exists [window_switch (device_name (self s)) (window_event d)].
    repeat split; auto.
    + constructor; [apply window_switch_is_window_switch|constructor].
    + intros Hn. contradiction.
Qed.

Lemma ticks_bus_run :
  forall (Se : ClientSession) (n : nat) (s : State),
    exists l,
      bus (ticks n s) = (bus s ++ l)%list /\
      (List.length l <= n)%nat /\
      Forall (is_window_switch (device_name (self s))) l /\
      (_previous_window_app (self s) = VNone ->
       (List.length l <= n - 1)%nat).
Proof.
  intros Se n. induction n as [|n IH]; intros s.
  - exists []. simpl. rewrite app_nil_r. repeat split; auto.
  - simpl.
    destruct (refresh_bus_step Se s) as (l1 & Hb1 & Hl1 & Hf1 & Hn1).
    destruct (IH (snd (async_refresh s))) as (l2 & Hb2 & Hl2 & Hf2 & _).
    pose proof (preserving_refresh_device_name Se s) as Hdev.
    simpl in Hdev. injection Hdev as Hname Hclient.
    rewrite Hname in Hf2.
    exists (l1 ++ l2)%list. rewrite Hb2, Hb1, <- app_assoc.
    split; [reflexivity|]. rewrite length_app.
    split; [lia|]. split.
    + apply Forall_app. split; [exact Hf1|exact Hf2].
    + intros Hn. rewrite (Hn1 Hn). simpl. lia.
Qed.

(** X5.  The bus only ever grows at its end, by this integration's
    window-switch notifications for the coordinator's device: one tick
    adds at most one, [n] ticks add at most [n], and started without a
    baseline they add at most [n - 1], the first tick adding none. *)
Theorem notifications_over_ticks :
  forall (Se : ClientSession) (n : nat) (s : State),
    exists l,
      bus (ticks n s) = (bus s ++ l)%list /\
      (List.length l <= n)%nat /\
      Forall (is_window_switch (device_name (self s))) l /\
      (_previous_window_app (self s) = VNone ->
       (List.length l <= n - 1)%nat /\
       bus (snd (_async_update_data s)) = bus s).
Proof.
  intros Se n s.
  destruct (ticks_bus_run Se n s) as (l & Hb & Hl & Hf & Hn).
  exists l. repeat split; auto.
  destruct (tick_bus_step Se s) as [[Hsame _] | (Hp & _)];
    [exact Hsame|contradiction].
Qed.

Lemma notifications_over_ticks_witness :
  let s := start_state window_only
             [one_event MOCK_WINDOW_EVENT; one_event MOCK_WINDOW_EVENT_2;
              one_event MOCK_WINDOW_EVENT] in
  exists l,
    bus (ticks 3 s) = l /\ (List.length l <= 2)%nat /\
    Forall (is_window_switch "Test-PC") l /\
    bus (ticks 3 s)
    = [window_switch "Test-PC" MOCK_WINDOW_EVENT_2;
       window_switch "Test-PC" MOCK_WINDOW_EVENT].
Proof.
  intros s.
  destruct (notifications_over_ticks scripted 3 s)
    as (l & Hb & _ & Hf & Hn).
  destruct (Hn eq_refl) as [Hl _].
  exists l. split; [exact Hb|]. split; [exact Hl|].
  split; [exact Hf|reflexivity].
Defined.

(** X6.  While a baseline is stored, the baseline and the bus move
    together: a tick that leaves the bus as it was leaves the baseline as
    it was, and a tick that changes the bus has added the one switch
    notification of the fetched event and made that event's app the
    baseline. *)
Theorem baseline_moves_with_bus :
  forall (Se : ClientSession) (s : State),
    _previous_window_app (self s) <> VNone ->
    (bus (snd (_async_update_data s)) = bus s ->
     _previous_window_app (self (snd (_async_update_data s)))
     = _previous_window_app (self s)) /\
    (bus (snd (_async_update_data s)) <> bus s ->
     exists d,
       fst (_async_update_data s) = Ok d /\
       bus (snd (_async_update_data s))
       = (bus s ++ [window_switch (device_name (self s))
                      (window_event d)])%list /\
       _previous_window_app (self (snd (_async_update_data s)))
       = app_of (window_event d)).
Proof.
  intros Se s Hprev.
  destruct (tick_bus_step Se s)
    as [[Hb Hbase] | (_ & d & Hd & _ & _ & Hb & Hbase)].
  - split; [intros _; exact (Hbase Hprev)|].
    intros Hne. contradiction.
  - split.
    + intros Hsame. exfalso. rewrite Hb in Hsame.
      apply (f_equal (@List.length bus_event)) in Hsame.
      rewrite length_app in Hsame. simpl in Hsame. lia.
    + intros _. exists d. repeat split; assumption.
Qed.

Lemma baseline_moves_with_bus_witness :
  let s0 := start_state window_only
              [one_event MOCK_WINDOW_EVENT; one_event WINDOW_EVENT_RETITLED;
               one_event MOCK_WINDOW_EVENT_2] in
  let s1 := ticks 1 s0 in
  let s2 := ticks 2 s0 in
  _previous_window_app (self (snd (_async_update_data s1))) = VStr "Code" /\
  _previous_window_app (self (snd (_async_update_data s2)))
  = VStr "Firefox".
Proof.
  intros s0 s1 s2.
  destruct (baseline_moves_with_bus scripted s1 ltac:(discriminate))
    as [Hkeep _].
  destruct (baseline_moves_with_bus scripted s2 ltac:(discriminate))
    as [_ Hmove].
  split.
  - exact (Hkeep eq_refl).
  - destruct (Hmove ltac:(discriminate)) as (d & Hd & _ & Hbase).
    rewrite Hbase.
    assert (Hd' : d = window_snapshot MOCK_WINDOW_EVENT_2).
    { change (fst (_async_update_data s2))
        with (@Ok ActivityWatchData (window_snapshot MOCK_WINDOW_EVENT_2))
        in Hd.
      inversion Hd. reflexivity. }
    rewrite Hd'. reflexivity.
Defined.

(** ** Setup beyond the claims *)

Lemma find_buckets_unfold :
  forall (Se : ClientSession) (self : ActivityWatchApiClient)
         (ty : string) (w : World),
    async_find_buckets self ty w
    = (match fst (async_get_buckets self w) with
       | Ok buckets =>
           (its <- items buckets ;; matching_buckets ty its)%res
       | Raise e => Raise e
       end, snd (async_get_buckets self w)).
Proof.
  intros Se self ty w. unfold async_find_buckets, bind, lift_res.
  destruct (async_get_buckets self w) as [[v|e] w']; reflexivity.
Qed.

(** X7.  Setup does not roll back.  When the first listing raises, setup
    raises the same exception and [self] is untouched; when the first
    listing succeeds and the second raises, setup raises that exception
    with the window bucket id already assigned and the AFK id as it
    was. *)
Theorem setup_failure_keeps_progress :
  forall (Se : ClientSession) (s : State),
    (forall e w1,
        async_get_buckets (client (self s)) (world s) = (Raise e, w1) ->
        fst (async_setup s) = Raise e /\
        self (snd (async_setup s)) = self s) /\
    (forall its1 w1 e w2,
        async_get_buckets (client (self s)) (world s)
        = (Ok (VDict its1), w1) ->
        listing_ok its1 = true ->
        async_get_buckets (client (self s)) w1 = (Raise e, w2) ->
        fst (async_setup s) = Raise e /\
        window_bucket (self (snd (async_setup s)))
        = match first_bucket BUCKET_WINDOW its1 with
          | Some b => Some b
          | None => window_bucket (self s)
          end /\
        afk_bucket (self (snd (async_setup s))) = afk_bucket (self s)).
Proof.
  intros Se s. split.
  - intros e w1 H1.
    unfold async_setup, bind, gets, await. simpl.
    rewrite find_buckets_unfold, H1. simpl. split; reflexivity.
  - intros its1 w1 e w2 H1 Hok1 H2.
    unfold async_setup, bind, gets, await, ret, on_self, modify. simpl.
    rewrite find_buckets_unfold, H1. simpl.
    rewrite (matching_buckets_filter _ _ Hok1).
    rewrite <- (head_of_filter BUCKET_WINDOW its1).
    destruct (map fst (filter (has_type BUCKET_WINDOW) its1)) as [|bw lw];
      simpl; rewrite find_buckets_unfold, H2; simpl;
      repeat split; reflexivity.
Qed.

Lemma setup_failure_keeps_progress_witness :
  let fresh := coordinator.__init__ test_client "Test-PC" in
  let down := start_state fresh [] in
  let flaky := start_state fresh
                 [ok_json MOCK_BUCKETS; status_text 503 "busy"] in
  self (snd (async_setup down)) = fresh /\
  fst (async_setup flaky)
  = Raise (ActivityWatchApiError "HTTP 503 from /buckets/: busy") /\
  window_bucket (self (snd (async_setup flaky)))
  = Some "aw-watcher-window_test-hostname" /\
  afk_bucket (self (snd (async_setup flaky))) = None.
Proof.
  intros fresh down flaky.
  destruct (setup_failure_keeps_progress scripted down) as [Hfirst _].
  destruct (setup_failure_keeps_progress scripted flaky) as [_ Hsecond].
  destruct (Hfirst _ _ eq_refl) as [_ Hself].
  destruct (Hsecond _ _ _ _ eq_refl eq_refl eq_refl) as (He & Hw & Ha).
  split; [exact Hself|]. split; [exact He|]. split; [exact Hw|exact Ha].
Defined.

Section IdentityFacts.
Context {Se : ClientSession}.

Lemma preserving_on_self :
  forall (X : Type) (f : State -> X)
         (g : ActivityWatchCoordinator -> ActivityWatchCoordinator),
    (forall s, f {| self := g (self s); bus := bus s; world := world s |}
               = f s) ->
    preserving f (on_self g).
Proof. intros X f g H s. apply H. Qed.

Lemma preserving_setup_identity :
  preserving (fun s => (device_name (self s), client (self s),
                        _previous_window_app (self s), data (self s),
                        bus s))
    async_setup.
Proof.
  unfold async_setup.
  apply preserving_bind; [apply preserving_gets|intros c].
  apply preserving_bind;
    [apply preserving_await; intros s w; reflexivity|intros wbs].
  apply preserving_bind.
  - destruct wbs as [|bw wbs]; [apply preserving_ret|].
    apply preserving_on_self. intros st. reflexivity.
  - intros _.
    apply preserving_bind;
      [apply preserving_await; intros s w; reflexivity|intros abs].
    destruct abs as [|ba abs]; [apply preserving_ret|].
    apply preserving_on_self. intros st. reflexivity.
Qed.

Lemma ticks_identity :
  forall (n : nat) (s : State),
    device_name (self (ticks n s)) = device_name (self s) /\
    client (self (ticks n s)) = client (self s).
Proof.
  induction n as [|n IH]; intros s; simpl; [split; reflexivity|].
  destruct (IH (snd (async_refresh s))) as [Hn Hc].
  pose proof (preserving_refresh_device_name Se s) as H.
  simpl in H. injection H as Hname Hclient.
  rewrite Hn, Hc. split; assumption.
Qed.

End IdentityFacts.

(** X8.  The coordinator's client and device name are fixed at
    construction: bucket discovery changes neither (nor the baseline, the
    cached snapshot or the bus, whether it returns or raises), and no
    number of ticks changes either. *)
Theorem coordinator_identity_is_fixed :
  forall (Se : ClientSession) (s : State),
    (device_name (self (snd (async_setup s))) = device_name (self s) /\
     client (self (snd (async_setup s))) = client (self s) /\
     _previous_window_app (self (snd (async_setup s)))
     = _previous_window_app (self s) /\
     data (self (snd (async_setup s))) = data (self s) /\
     bus (snd (async_setup s)) = bus s) /\
    (forall n,
        device_name (self (ticks n s)) = device_name (self s) /\
        client (self (ticks n s)) = client (self s)).
Proof.
  intros Se s. split.
  - pose proof (preserving_setup_identity s) as H. simpl in H.
    injection H as H1 H2 H3 H4 H5. repeat split; assumption.
  - intros n. apply ticks_identity.
Qed.

(** ** The API client beyond the claims *)

Lemma except_ClientError_never_client :
  forall (A : Type) (self : ActivityWatchApiClient) (r : res A) (msg : string),
    except_ClientError self r <> Raise (ClientError msg).
Proof.
  intros A self r msg. destruct r as [a|e]; simpl; [discriminate|].
  destruct e; discriminate.
Qed.

(** X9.  No [aiohttp.ClientError] ever leaves a GET or a POST.  One raised
    while the body is read (the text of a refused status, the JSON of an
    accepted one) comes out as the connection error, like one raised while
    connecting; an exception of any other class, from connecting or from
    reading, comes out unchanged. *)
Theorem client_errors_are_wrapped :
  forall (Se : ClientSession) (m : method) (self : ActivityWatchApiClient)
         (path : string) (params : option (list (string * string)))
         (data : option value) (w : World),
    (forall msg,
        fst (perform m self path params data w) <> Raise (ClientError msg)) /\
    (forall resp w' err,
        send (request_of m self path params data) w = (Responded resp, w') ->
        (accepted m (status resp) = false /\
         text resp = Raise (ClientError err))
        \/ (accepted m (status resp) = true /\
            json resp = Raise (ClientError err)) ->
        perform m self path params data w
        = (Raise (ActivityWatchApiConnectionError
                    ("Cannot connect to ActivityWatch at " ++ _base_url self
                     ++ ": " ++ err)), w')) /\
    (forall o w' e,
        send (request_of m self path params data) w = (o, w') ->
        (forall msg, e <> ClientError msg) ->
        o = Failed e
        \/ (exists resp, o = Responded resp /\
                         accepted m (status resp) = false /\
                         text resp = Raise e)
        \/ (exists resp, o = Responded resp /\
                         accepted m (status resp) = true /\
                         json resp = Raise e) ->
        perform m self path params data w = (Raise e, w')).
Proof.
  intros Se m self path params data w. rewrite perform_unfold.
  split; [|split].
  - intros msg. simpl. apply except_ClientError_never_client.
  - intros resp w' err Hsend Hcase. rewrite Hsend. simpl.
    destruct Hcase as [[Hacc Hbody] | [Hacc Hbody]];
      rewrite Hacc, Hbody; reflexivity.
  - intros o w' e Hsend Hother Hcase. rewrite Hsend. cbn [fst snd].
    assert (Hpass : except_ClientError self (@Raise value e) = Raise e).
    { destruct e; try reflexivity. exfalso. apply (Hother msg). reflexivity. }
    destruct Hcase as [-> | [(resp & -> & Hacc & Hbody)
                            | (resp & -> & Hacc & Hbody)]];
      cbn [read_response]; rewrite ?Hacc, ?Hbody; cbn [negb res_bind];
      rewrite Hpass; reflexivity.
Qed.

Lemma client_errors_are_wrapped_witness :
  @perform scripted GET test_client "/info" None None
    [Responded {| status := 200; text := Ok EmptyString;
                  json := Raise (ClientError "unexpected mimetype") |}]
  = (Raise (ActivityWatchApiConnectionError
              "Cannot connect to ActivityWatch at http://localhost:5600: unexpected mimetype"),
     []) /\
  @perform scripted GET test_client "/info" None None
    [Responded {| status := 200; text := Ok EmptyString;
                  json := Raise (OtherError "JSONDecodeError") |}]
  = (Raise (OtherError "JSONDecodeError"), []) /\
  @perform scripted POST test_client "/query/" None None
    [Failed (OtherError "TimeoutError")]
  = (Raise (OtherError "TimeoutError"), []).
Proof.
  split; [|split].
  - destruct (client_errors_are_wrapped scripted GET test_client "/info"
                None None
                [Responded {| status := 200; text := Ok EmptyString;
                              json := Raise (ClientError
                                               "unexpected mimetype") |}])
      as (_ & H & _).
    apply (H _ _ _ eq_refl). right. split; reflexivity.
  - destruct (client_errors_are_wrapped scripted GET test_client "/info"
                None None
                [Responded {| status := 200; text := Ok EmptyString;
                              json := Raise (OtherError
                                               "JSONDecodeError") |}])
      as (_ & _ & H).
    apply (H _ _ _ eq_refl); [intros msg; discriminate|].
    right. right. eexists. repeat split; reflexivity.
  - destruct (client_errors_are_wrapped scripted POST test_client "/query/"
                None None [Failed (OtherError "TimeoutError")])
      as (_ & _ & H).
    apply (H _ _ _ eq_refl); [intros msg; discriminate|].
    left. reflexivity.
Defined.

Lemma In_matching :
  forall ty its bid,
    In bid (map fst (filter (has_type ty) its))
    <-> exists info a b,
          In (bid, info) its /\ bucket_type_of info = a ++ ty ++ b.
Proof.
  intros ty its bid. rewrite in_map_iff. split.
  - intros ([bid' info] & Hfst & Hin). simpl in Hfst. subst bid'.
    apply filter_In in Hin. destruct Hin as [Hin Hty].
    unfold has_type in Hty. simpl in Hty.
    apply contains_spec in Hty. destruct Hty as (a & b & Hab).
    exists info, a, b. split; assumption.
  - intros (info & a & b & Hin & Hab).
    exists (bid, info). split; [reflexivity|].
    apply filter_In. split; [exact Hin|].
    unfold has_type. simpl. apply contains_spec. exists a, b. exact Hab.
Qed.

(** X10.  On a well-formed listing (every info a mapping whose [type] is a
    string or missing), bucket search returns, in listing order and with
    nothing else, the ids of the buckets whose type has the pattern as a
    substring. *)
Theorem find_buckets_selects :
  forall (Se : ClientSession) (self : ActivityWatchApiClient) (ty : string)
         (w w' : World) (its : list (string * value)),
    async_get_buckets self w = (Ok (VDict its), w') ->
    listing_ok its = true ->
    async_find_buckets self ty w
    = (Ok (map fst (filter (has_type ty) its)), w') /\
    (forall bid,
        In bid (map fst (filter (has_type ty) its))
        <-> exists info a b,
              In (bid, info) its /\ bucket_type_of info = a ++ ty ++ b).
Proof.
  intros Se self ty w w' its Hq Hok. split.
  - rewrite find_buckets_unfold, Hq. simpl.
    rewrite (matching_buckets_filter ty its Hok). reflexivity.
  - intros bid. apply In_matching.
Qed.

Lemma find_buckets_selects_witness :
  @async_find_buckets scripted test_client "aw-watcher-"
    [ok_json MOCK_BUCKETS]
  = (Ok ["aw-watcher-window_test-hostname"; "aw-watcher-afk_test-hostname"],
     []) /\
  @async_find_buckets scripted test_client "afk" [ok_json MOCK_BUCKETS]
  = (Ok ["aw-watcher-afk_test-hostname"], []) /\
  @async_find_buckets scripted test_client "aw-watcher-web"
    [ok_json MOCK_BUCKETS]
  = (Ok [], []).
Proof.
  split; [|split].
  - exact (proj1 (find_buckets_selects scripted test_client "aw-watcher-"
                    [ok_json MOCK_BUCKETS] [] _ eq_refl eq_refl)).
  - exact (proj1 (find_buckets_selects scripted test_client "afk"
                    [ok_json MOCK_BUCKETS] [] _ eq_refl eq_refl)).
  - exact (proj1 (find_buckets_selects scripted test_client "aw-watcher-web"
                    [ok_json MOCK_BUCKETS] [] _ eq_refl eq_refl)).
Defined.

Lemma matching_buckets_app :
  forall ty pre rest,
    listing_ok pre = true ->
    matching_buckets ty (pre ++ rest)
    = (tl <- matching_buckets ty rest ;;
       Ok (map fst (filter (has_type ty) pre) ++ tl)%list)%res.
Proof.
  intros ty pre rest. induction pre as [|[bid info] pre IH]; intros Hok.
  - simpl. destruct (matching_buckets ty rest); reflexivity.
  - simpl in Hok. apply andb_true_iff in Hok. destruct Hok as [Hinfo Hpre].
    cbn [app matching_buckets]. rewrite (IH Hpre).
    cbn [filter]. unfold has_type at 2. cbn [snd].
    destruct info as [| | | | | |d]; try discriminate.
    cbn [py_get bucket_type_of] in *.
    destruct (dict_lookup "type" d) as [[| | | |t| |]|];
      try discriminate; cbn [str_in res_bind];
      (destruct (matching_buckets ty rest) as [tl|e]; cbn [res_bind];
       [destruct (contains ty _); reflexivity|reflexivity]).
Qed.

(** X11.  Bucket search gives no partial result.  An answer that is not a
    mapping raises [AttributeError]; so does a listing whose first
    ill-formed info is not a mapping, wherever it stands and whatever
    matched before it; and when that info is a mapping whose [type] is
    [None] or a number, the search raises [TypeError]. *)
Theorem find_buckets_rejects_malformed :
  forall (Se : ClientSession) (self : ActivityWatchApiClient) (ty : string)
         (w w' : World),
    (forall v,
        async_get_buckets self w = (Ok v, w') ->
        (forall d, v <> VDict d) ->
        async_find_buckets self ty w = (Raise AttributeError, w')) /\
    (forall pre bid info post,
        async_get_buckets self w
        = (Ok (VDict (pre ++ (bid, info) :: post)), w') ->
        listing_ok pre = true ->
        ((forall d, info <> VDict d) ->
         async_find_buckets self ty w = (Raise AttributeError, w')) /\
        (forall d t,
            info = VDict d ->
            dict_lookup "type" d = Some t ->
            t = VNone \/ (exists b, t = VBool b) \/ (exists z, t = VInt z)
            \/ (exists f, t = VFloat f) ->
            async_find_buckets self ty w = (Raise TypeError, w'))).
Proof.
  intros Se self ty w w'. split.
  - intros v Hq Hv. rewrite find_buckets_unfold, Hq. simpl.
    destruct v; try reflexivity. exfalso. apply (Hv d). reflexivity.
  - intros pre bid info post Hq Hpre. split.
    + intros Hinfo. rewrite find_buckets_unfold, Hq. simpl.
      rewrite (matching_buckets_app ty pre _ Hpre).
      cbn [matching_buckets].
      destruct info; try reflexivity. exfalso. apply (Hinfo d). reflexivity.
    + intros d t -> Hty Hkind. rewrite find_buckets_unfold, Hq. simpl.
      rewrite (matching_buckets_app ty pre _ Hpre).
      cbn [matching_buckets py_get]. rewrite Hty.
      destruct Hkind as [-> | [[b ->] | [[z ->] | [f ->]]]]; reflexivity.
Qed.

Lemma find_buckets_rejects_malformed_witness :
  @async_find_buckets scripted test_client BUCKET_WINDOW
    [ok_json (VList [VStr "aw-watcher-window_h"])]
  = (Raise AttributeError, []) /\
  @async_find_buckets scripted test_client BUCKET_WINDOW
    [ok_json (VDict [("aw-watcher-window_h",
                      VDict [("type", VStr "aw-watcher-window")]);
                     ("broken", VStr "aw-watcher-window")])]
  = (Raise AttributeError, []) /\
  @async_find_buckets scripted test_client BUCKET_WINDOW
    [ok_json (VDict [("aw-watcher-window_h",
                      VDict [("type", VStr "aw-watcher-window")]);
                     ("untyped", VDict [("type", VNone)])])]
  = (Raise TypeError, []).
Proof.
  split; [|split].
  - destruct (find_buckets_rejects_malformed scripted test_client
                BUCKET_WINDOW
                [ok_json (VList [VStr "aw-watcher-window_h"])] [])
      as [H _].
    apply (H _ eq_refl). intros d. discriminate.
  - destruct (find_buckets_rejects_malformed scripted test_client
                BUCKET_WINDOW
                [ok_json (VDict [("aw-watcher-window_h",
                                  VDict [("type", VStr "aw-watcher-window")]);
                                 ("broken", VStr "aw-watcher-window")])] [])
      as [_ H].
    destruct (H [("aw-watcher-window_h",
                  VDict [("type", VStr "aw-watcher-window")])]
                "broken" (VStr "aw-watcher-window") [] eq_refl eq_refl)
      as [Hbad _].
    apply Hbad. intros d. discriminate.
  - destruct (find_buckets_rejects_malformed scripted test_client
                BUCKET_WINDOW
                [ok_json (VDict [("aw-watcher-window_h",
                                  VDict [("type", VStr "aw-watcher-window")]);
                                 ("untyped", VDict [("type", VNone)])])] [])
      as [_ H].
    destruct (H [("aw-watcher-window_h",
                  VDict [("type", VStr "aw-watcher-window")])]
                "untyped" (VDict [("type", VNone)]) [] eq_refl eq_refl)
      as [_ Htype].
    apply (Htype _ VNone eq_refl eq_refl). left. reflexivity.
Defined.

(** ** The query-stats service beyond the claims *)

Lemma res_bind_raise :
  forall (A B : Type) (c : res A) (k : A -> res B) (e : exn),
    res_bind c k = Raise e ->
    c = Raise e \/ exists a, c = Ok a /\ k a = Raise e.
Proof.
  intros A B c k e H. destruct c as [a|e0].
  - right. exists a. split; [reflexivity|exact H].
  - left. simpl in H. inversion H. reflexivity.
Qed.

Lemma py_get_raises :
  forall v k dflt e, py_get v k dflt = Raise e -> e = AttributeError.
Proof. intros v k dflt e H. destruct v; simpl in H; congruence. Qed.

Lemma lower_all_raises :
  forall (T : Text) l e, lower_all l = Raise e -> e = AttributeError.
Proof.
  intros T l e. induction l as [|v l IH]; intros H; [discriminate|].
  destruct v; simpl in H; try congruence.
  destruct (lower_all l) as [rest|e0]; simpl in H; [discriminate|].
  inversion H; subst. apply IH. reflexivity.
Qed.

Lemma float_round_raises :
  forall f e, float_round f = Raise e -> is_data_error e = true.
Proof.
  intros f e H. unfold float_round in H.
  destruct (Prim2SF f); inversion H; reflexivity.
Qed.

Lemma float_add_raises :
  forall t v e, float_add t v = Raise e -> is_data_error e = true.
Proof.
  intros t v e H. destruct v; simpl in H; try (inversion H; reflexivity).
  unfold float_of_Z in H.
  destruct (is_infinity _); simpl in H; inversion H; reflexivity.
Qed.

Lemma py_round_raises :
  forall v e, py_round v = Raise e -> is_data_error e = true.
Proof.
  intros v e H. destruct v; simpl in H; try (inversion H; reflexivity).
  apply (float_round_raises f e H).
Qed.

Lemma filtered_out_raises :
  forall (T : Text) cf ev e,
    filtered_out cf ev = Raise e -> is_data_error e = true.
Proof.
  intros T cf ev e H. unfold filtered_out in H.
  destruct (str_truthy cf); [|discriminate].
  destruct cf as [f|]; [|discriminate].
  apply res_bind_raise in H.
  destruct H as [H | (event_data & _ & H)];
    [apply py_get_raises in H; subst; reflexivity|].
  apply res_bind_raise in H.
  destruct H as [H | (cat & _ & H)];
    [apply py_get_raises in H; subst; reflexivity|].
  destruct cat; try discriminate.
  apply res_bind_raise in H.
  destruct H as [H | (lowered & _ & H)]; [|discriminate].
  apply lower_all_raises in H. subst. reflexivity.
Qed.

(** One iteration keeps the entries it found, adds at most one of the
    right shape, and raises only data errors. *)
Lemma loop_body_shape :
  forall (T : Text) cf t apps ev,
    Forall is_app_entry apps ->
    match loop_body cf (t, apps) ev with
    | Ok (_, apps') => Forall is_app_entry apps'
    | Raise e => is_data_error e = true
    end.
Proof.
  intros T cf t apps ev Happs. unfold loop_body.
  destruct (py_get ev "data" (VDict [])) as [event_data|e] eqn:H1;
    cbn [res_bind]; [|apply py_get_raises in H1; subst; reflexivity].
  destruct (py_get event_data "app" (VStr "Unknown")) as [app_name|e] eqn:H2;
    cbn [res_bind]; [|apply py_get_raises in H2; subst; reflexivity].
  destruct (py_get ev "duration" (VInt 0)) as [duration|e] eqn:H3;
    cbn [res_bind]; [|apply py_get_raises in H3; subst; reflexivity].
  destruct (filtered_out cf ev) as [skip|e] eqn:H4;
    cbn [res_bind]; [|exact (filtered_out_raises T cf ev e H4)].
  destruct skip; [exact Happs|].
  destruct (float_add t duration) as [t'|e] eqn:H5;
    cbn [res_bind]; [|exact (float_add_raises t duration e H5)].
  destruct (py_round duration) as [seconds|e] eqn:H6;
    cbn [res_bind]; [|exact (py_round_raises duration e H6)].
  apply Forall_app. split; [exact Happs|].
  constructor; [|constructor]. exists app_name, seconds. reflexivity.
Qed.

Lemma for_events_shape :
  forall (T : Text) cf events t apps,
    Forall is_app_entry apps ->
    match for_events cf events (t, apps) with
    | Ok (_, apps') => Forall is_app_entry apps'
    | Raise e => is_data_error e = true
    end.
Proof.
  intros T cf events. induction events as [|ev events IH];
    intros t apps Happs; [exact Happs|].
  cbn [for_events].
  pose proof (loop_body_shape T cf t apps ev Happs) as Hstep.
  destruct (loop_body cf (t, apps) ev) as [[t' apps']|e]; cbn [res_bind].
  - apply IH. exact Hstep.
  - exact Hstep.
Qed.

Lemma failure_is_stats : forall msg, is_stats (failure msg).
Proof.
  intros msg. exists [("error", VStr msg); ("total_seconds", VInt 0);
                      ("top_apps", VList [])], 0, [].
  split; [reflexivity|]. split; [reflexivity|]. split; [reflexivity|].
  split; [apply Nat.le_0_l|]. split; [constructor|].
  intros err H. simpl in H. inversion H.
  split; [exists msg; reflexivity|split; reflexivity].
Qed.

Lemma empty_stats_is_stats : is_stats empty_stats.
Proof.
  exists [("total_seconds", VInt 0); ("top_apps", VList [])], 0, [].
  split; [reflexivity|]. split; [reflexivity|]. split; [reflexivity|].
  split; [apply Nat.le_0_l|]. split; [constructor|].
  intros err H. discriminate.
Qed.

Lemma Forall_first :
  forall (A : Type) (P : A -> Prop) (n : nat) (l : list A),
    Forall P l -> Forall P (firstn n l).
Proof.
  intros A P n. induction n as [|n IH]; intros l H; [constructor|].
  destruct H as [|x l Hx Hl]; [constructor|].
  simpl. constructor; [exact Hx|apply IH; exact Hl].
Qed.

Lemma aggregate_shape :
  forall (T : Text) cf result,
    match aggregate cf result with
    | Ok v => is_stats v
    | Raise e => is_data_error e = true
    end.
Proof.
  intros T cf result. unfold aggregate.
  destruct (negb (truthy result) || negb (isinstance_list result));
    [apply empty_stats_is_stats|].
  destruct result as [| | | | |l|]; try apply empty_stats_is_stats.
  destruct l as [|first l]; [apply empty_stats_is_stats|].
  pose proof (for_events_shape T cf
                (match first with VList l0 => l0 | _ => [] end)
                0%float [] (Forall_nil _)) as Hloop.
  destruct (for_events cf _ (0%float, [])) as [[t apps]|e]; cbn [res_bind];
    [|exact Hloop].
  cbn [fst snd].
  destruct (float_round t) as [total|e] eqn:Hr; cbn [res_bind];
    [|exact (float_round_raises t e Hr)].
  exists [("total_seconds", VInt total);
          ("top_apps", VList (firstn 10 apps))], total, (firstn 10 apps).
  split; [reflexivity|]. split; [reflexivity|]. split; [reflexivity|].
  split; [rewrite length_firstn; apply Nat.le_min_l|].
  split; [apply Forall_first; exact Hloop|].
  intros err H. discriminate.
Qed.

(** X12.  Whatever the server sends, an answer of the service is a mapping
    with an integer [total_seconds] and a [top_apps] list of at most ten
    entries, each a [name] with a whole number of [seconds]; an answer
    that carries an [error] string has total 0 and no apps. *)
Theorem query_stats_answer_shape :
  forall (Se : ClientSession) (T : Text) (entries : list ConfigEntry)
         (now : datetime) (call : ServiceCall) (w w' : World) (v : value),
    async_handle_query_stats entries now call w = (Ok v, w') ->
    is_stats v.
Proof.
  intros Se T entries now call w w' v H.
  destruct (_find_client_for_device entries (device_id call))
    as [[client|]|e] eqn:Hfind.
  - rewrite (handler_with_client Se T entries now call client w Hfind) in H.
    destruct (async_query client query_lines [timeperiod now call] w)
      as [[result|err] w1].
    + pose proof (aggregate_shape T (category call) result) as Hagg.
      inversion H as [[Hv Hw]]. rewrite Hv in Hagg. exact Hagg.
    + destruct (isinstance_ActivityWatchApiError err);
        inversion H; subst. apply failure_is_stats.
  - rewrite (handler_without_client Se T entries now call w Hfind) in H.
    inversion H; subst. apply failure_is_stats.
  - rewrite (handler_lookup_raises Se T entries now call w e Hfind) in H.
    discriminate.
Qed.

Lemma query_stats_answer_shape_witness :
  is_stats
    (VDict [("total_seconds", VInt 660);
            ("top_apps",
             VList (List.repeat
                      (VDict [("name", VStr "Firefox");
                              ("seconds", VInt 60)]) 10))]) /\
  is_stats (failure "HTTP 500 from /query/: boom").
Proof.
  split.
  - exact (query_stats_answer_shape scripted ascii_text test_entries test_now
             (test_call None)
             [ok_json (VList [VList (List.repeat MOCK_WINDOW_EVENT_2 11)])]
             [] _ eq_refl).
  - exact (query_stats_answer_shape scripted ascii_text test_entries test_now
             (test_call None) [status_text 500 "boom"] [] _ eq_refl).
Defined.

Lemma entry_match :
  forall entry device_id,
    py_eq match dict_lookup CONF_DEVICE_NAME (entry_data entry) with
          | Some v => v
          | None => VNone
          end (VStr device_id) = true
    <-> entry_is_for device_id entry.
Proof.
  intros entry device_id. unfold entry_is_for. rewrite py_eq_str_r.
  destruct (dict_lookup CONF_DEVICE_NAME (entry_data entry)) as [v|].
  - split; congruence.
  - split; discriminate.
Qed.

Lemma find_client_none_or_first :
  forall (entries : list ConfigEntry) (device_id : string),
    ((forall entry, In entry entries -> ~ entry_is_for device_id entry) /\
     _find_client_for_device entries device_id = Ok None)
    \/
    exists before entry after,
      entries = (before ++ entry :: after)%list /\
      (forall other, In other before -> ~ entry_is_for device_id other) /\
      entry_is_for device_id entry /\
      _find_client_for_device entries device_id
      = (coordinator <- get_runtime_data entry ;;
         Ok (Some (client coordinator)))%res.
Proof.
  intros entries device_id.
  induction entries as [|entry entries IH].
  - left. split; [intros entry []|reflexivity].
  - cbn [_find_client_for_device].
    pose proof (entry_match entry device_id) as Hm.
    destruct (py_eq _ (VStr device_id)).
    + right. exists [], entry, entries.
      split; [reflexivity|]. split; [intros other []|].
      split; [apply Hm; reflexivity|reflexivity].
    + assert (Hnot : ~ entry_is_for device_id entry).
      { intros H. apply Hm in H. discriminate. }
      destruct IH as [[Hnone Hfind]
                     | (before & e & after & Heq & Hbefore & He & Hfind)].
      * left. split; [|exact Hfind].
        intros other [<- | Hin]; [exact Hnot|apply Hnone; exact Hin].
      * right. exists (entry :: before), e, after. subst entries.
        split; [reflexivity|]. split; [|split; [exact He|exact Hfind]].
        intros other [<- | Hin]; [exact Hnot|apply Hbefore; exact Hin].
Qed.

Lemma first_entry_unique :
  forall (device_id : string) (before1 before2 : list ConfigEntry)
         entry1 entry2 after1 after2,
    (before1 ++ entry1 :: after1 = before2 ++ entry2 :: after2)%list ->
    (forall other, In other before1 -> ~ entry_is_for device_id other) ->
    (forall other, In other before2 -> ~ entry_is_for device_id other) ->
    entry_is_for device_id entry1 ->
    entry_is_for device_id entry2 ->
    entry1 = entry2.
Proof.
  intros device_id before1.
  induction before1 as [|b1 before1 IH];
    intros [|b2 before2] entry1 entry2 after1 after2 Heq H1 H2 He1 He2;
    simpl in Heq; inversion Heq; subst.
  - reflexivity.
  - exfalso. apply (H2 b2); [left; reflexivity|exact He1].
  - exfalso. apply (H1 entry2); [left; reflexivity|exact He2].
  - apply (IH before2 entry1 entry2 after1 after2); auto.
    + intros other Hin. apply H1. right. exact Hin.
    + intros other Hin. apply H2. right. exact Hin.
Qed.

Lemma find_client_raises :
  forall (entries : list ConfigEntry) (device_id : string) (e : exn),
    _find_client_for_device entries device_id = Raise e ->
    e = AttributeError /\
    exists before entry after,
      entries = (before ++ entry :: after)%list /\
      (forall other, In other before -> ~ entry_is_for device_id other) /\
      entry_is_for device_id entry /\
      runtime_data entry = None.
Proof.
  intros entries device_id e H.
  destruct (find_client_none_or_first entries device_id)
    as [[_ Hfind]
       | (before & entry & after & Heq & Hbefore & He & Hfind)];
    rewrite Hfind in H; [discriminate|].
  unfold get_runtime_data in H.
  destruct (runtime_data entry) as [coordinator|] eqn:Hrun;
    cbn [res_bind] in H; [discriminate|].
  inversion H. split; [reflexivity|].
  exists before, entry, after. repeat split; assumption.
Qed.

(** X14.  Looking up a device goes by the first entry, in the host's
    order, whose configured device name is the requested one: the lookup
    returns that entry's client when the entry holds a coordinator, and
    raises [AttributeError] when it holds none, whatever later entries
    hold.  It returns [None] exactly when no entry has that name. *)
Theorem find_client_is_first_match :
  forall (entries : list ConfigEntry) (device_id : string),
    (_find_client_for_device entries device_id = Ok None
     <-> forall entry, In entry entries -> ~ entry_is_for device_id entry) /\
    (forall c,
        _find_client_for_device entries device_id = Ok (Some c)
        <-> exists before entry after coordinator,
              entries = (before ++ entry :: after)%list /\
              (forall other, In other before ->
                             ~ entry_is_for device_id other) /\
              entry_is_for device_id entry /\
              runtime_data entry = Some coordinator /\
              c = client coordinator) /\
    (forall e,
        _find_client_for_device entries device_id = Raise e
        <-> e = AttributeError /\
            exists before entry after,
              entries = (before ++ entry :: after)%list /\
              (forall other, In other before ->
                             ~ entry_is_for device_id other) /\
              entry_is_for device_id entry /\
              runtime_data entry = None).
Proof.
  intros entries device_id.
  pose proof (find_client_none_or_first entries device_id) as Hcases.
  split; [|split].
  - split.
    + intros Hnone.
      destruct Hcases as [[Hno _]
                         | (before & entry & after & _ & _ & _ & Hfind)];
        [exact Hno|].
      rewrite Hfind in Hnone. unfold get_runtime_data in Hnone.
      destruct (runtime_data entry); discriminate.
    + intros Hno.
      destruct Hcases as [[_ Hfind]
                         | (before & entry & after & Heq & _ & He & _)];
        [exact Hfind|].
      exfalso. apply (Hno entry); [|exact He].
      rewrite Heq. apply in_or_app. right. left. reflexivity.
  - intros c. split.
    + intros Hsome.
      destruct Hcases as [[_ Hfind]
                         | (before & entry & after & Heq & Hb & He & Hfind)];
        rewrite Hfind in Hsome; [discriminate|].
      unfold get_runtime_data in Hsome.
      destruct (runtime_data entry) as [coordinator|] eqn:Hrun;
        cbn [res_bind] in Hsome; [|discriminate].
      inversion Hsome.
      exists before, entry, after, coordinator. repeat split; assumption.
    + intros (before & entry & after & coordinator
              & Heq & Hb & He & Hrun & ->).
      destruct Hcases as [[Hno _]
                         | (before' & entry' & after' & Heq' & Hb' & He'
                            & Hfind)].
      * exfalso. apply (Hno entry); [|exact He].
        rewrite Heq. apply in_or_app. right. left. reflexivity.
      * rewrite Heq in Heq'.
        rewrite (first_entry_unique device_id _ _ _ _ _ _ Heq'
                   Hb Hb' He He') in Hrun.
        rewrite Hfind. unfold get_runtime_data. rewrite Hrun. reflexivity.
  - intros e. split; [apply find_client_raises|].
    intros (-> & before & entry & after & Heq & Hb & He & Hrun).
    destruct Hcases as [[Hno _]
                       | (before' & entry' & after' & Heq' & Hb' & He'
                          & Hfind)].
    + exfalso. apply (Hno entry); [|exact He].
      rewrite Heq. apply in_or_app. right. left. reflexivity.
    + rewrite Heq in Heq'.
      rewrite (first_entry_unique device_id _ _ _ _ _ _ Heq'
                 Hb Hb' He He') in Hrun.
      rewrite Hfind. unfold get_runtime_data. rewrite Hrun. reflexivity.
Qed.

(** X13.  No API error, generic or connection, ever leaves the service.
    What it does raise is one of three things: [AttributeError] from the
    device lookup, before any request is sent, when the first entry
    configured for the device holds no coordinator; an exception of
    another class that the query call itself raised; or one of Python's
    data errors ([AttributeError], [TypeError], [ValueError],
    [OverflowError]) met while reading a result that came back. *)
Theorem query_stats_raises_no_api_error :
  forall (Se : ClientSession) (T : Text) (entries : list ConfigEntry)
         (now : datetime) (call : ServiceCall) (w w' : World) (e : exn),
    async_handle_query_stats entries now call w = (Raise e, w') ->
    isinstance_ActivityWatchApiError e = false /\
    ((e = AttributeError /\ w' = w /\
      exists before entry after,
        entries = (before ++ entry :: after)%list /\
        (forall other, In other before ->
                       ~ entry_is_for (device_id call) other) /\
        entry_is_for (device_id call) entry /\
        runtime_data entry = None)
     \/
     exists client,
       _find_client_for_device entries (device_id call) = Ok (Some client) /\
       (async_query client query_lines [timeperiod now call] w
        = (Raise e, w')
        \/ (is_data_error e = true /\
            exists result,
              async_query client query_lines [timeperiod now call] w
              = (Ok result, w')))).
Proof.
  intros Se T entries now call w w' e H.
  destruct (_find_client_for_device entries (device_id call))
    as [[client|]|e0] eqn:Hfind.
  - rewrite (handler_with_client Se T entries now call client w Hfind) in H.
    destruct (async_query client query_lines [timeperiod now call] w)
      as [[result|err] w1] eqn:Hq.
    + pose proof (aggregate_shape T (category call) result) as Hagg.
      inversion H as [[He Hw]]. rewrite He in Hagg.
      split.
      * destruct e; try discriminate; reflexivity.
      * right. exists client. split; [reflexivity|]. right.
        split; [exact Hagg|]. exists result. subst w1. exact Hq.
    + destruct (isinstance_ActivityWatchApiError err) eqn:Herr;
        inversion H; subst.
      split; [exact Herr|]. right. exists client. split; [reflexivity|].
      left. exact Hq.
  - rewrite (handler_without_client Se T entries now call w Hfind) in H.
    discriminate.
  - rewrite (handler_lookup_raises Se T entries now call w e0 Hfind) in H.
    inversion H; subst e0 w'.
    destruct (find_client_raises entries (device_id call) e Hfind)
      as (He & Hwhere).
    subst e. split; [reflexivity|]. left.
    split; [reflexivity|]. split; [reflexivity|exact Hwhere].
Qed.

Lemma query_stats_raises_no_api_error_witness :
  isinstance_ActivityWatchApiError TypeError = false /\
  fst (@async_handle_query_stats scripted ascii_text test_entries test_now
         (test_call None)
         [ok_json (VList [VList [VDict [("duration", VStr "long")]]])])
  = Raise TypeError /\
  fst (@async_handle_query_stats scripted ascii_text test_entries test_now
         (test_call None) [Failed (OtherError "TimeoutError")])
  = Raise (OtherError "TimeoutError") /\
  @async_handle_query_stats scripted ascii_text
    ({| entry_data := [("device_name", VStr "Test-PC")];
        runtime_data := None |} :: test_entries)
    test_now (test_call None) [ok_json (VList [])]
  = (Raise AttributeError, [ok_json (VList [])]).
Proof.
  destruct (query_stats_raises_no_api_error scripted ascii_text test_entries
              test_now (test_call None)
              [ok_json (VList [VList [VDict [("duration", VStr "long")]]])]
              [] TypeError eq_refl) as (Hno & _).
  split; [exact Hno|]. split; [reflexivity|]. split; reflexivity.
Defined.

Lemma filtered_out_lower :
  forall (T : Text) f g ev,
    f <> EmptyString -> g <> EmptyString ->
    lower f = lower g ->
    filtered_out (Some f) ev = filtered_out (Some g) ev.
Proof.
  intros T f g ev Hf Hg Hl. unfold filtered_out.
  assert (Htf : str_truthy (Some f) = true).
  { simpl. apply negb_true_iff, String.eqb_neq. exact Hf. }
  assert (Htg : str_truthy (Some g) = true).
  { simpl. apply negb_true_iff, String.eqb_neq. exact Hg. }
  rewrite Htf, Htg, Hl. reflexivity.
Qed.

Lemma for_events_lower :
  forall (T : Text) f g events acc,
    f <> EmptyString -> g <> EmptyString ->
    lower f = lower g ->
    for_events (Some f) events acc = for_events (Some g) events acc.
Proof.
  intros T f g events. induction events as [|ev events IH];
    intros acc Hf Hg Hl; [reflexivity|].
  cbn [for_events].
  assert (Hbody : loop_body (Some f) acc ev = loop_body (Some g) acc ev).
  { unfold loop_body. destruct acc as [t apps].
    rewrite (filtered_out_lower T f g ev Hf Hg Hl). reflexivity. }
  rewrite Hbody.
  destruct (loop_body (Some g) acc ev) as [acc'|e]; cbn [res_bind];
    [apply IH; assumption|reflexivity].
Qed.

(** X15.  The category filter is applied by the handler, not sent to the
    server, and only its lowercase form counts: two calls that differ only
    in the filter, by filters with the same lowercase form, get the same
    answer and leave the server in the same state. *)
Theorem query_stats_filter_ignores_case :
  forall (Se : ClientSession) (T : Text) (entries : list ConfigEntry)
         (now : datetime) (call1 call2 : ServiceCall) (f g : string)
         (w : World),
    device_id call1 = device_id call2 ->
    start_time call1 = start_time call2 ->
    end_time call1 = end_time call2 ->
    category call1 = Some f ->
    category call2 = Some g ->
    f <> EmptyString -> g <> EmptyString ->
    lower f = lower g ->
    async_handle_query_stats entries now call1 w
    = async_handle_query_stats entries now call2 w.
Proof.
  intros Se T entries now call1 call2 f g w Hd Hs He Hc1 Hc2 Hf Hg Hl.
  assert (Htp : timeperiod now call1 = timeperiod now call2).
  { unfold timeperiod. rewrite Hs, He. reflexivity. }
  destruct (_find_client_for_device entries (device_id call2))
    as [[client|]|e] eqn:Hfind.
  - rewrite (handler_with_client Se T entries now call2 client w Hfind).
    rewrite <- Hd in Hfind.
    rewrite (handler_with_client Se T entries now call1 client w Hfind).
    rewrite Htp, Hc1, Hc2.
    destruct (async_query client query_lines [timeperiod now call2] w)
      as [[result|err] w1]; [|reflexivity].
    f_equal. unfold aggregate.
    destruct (negb (truthy result) || negb (isinstance_list result));
      [reflexivity|].
    destruct result as [| | | | |l|]; try reflexivity.
    destruct l as [|first l]; [reflexivity|].
    rewrite (for_events_lower T f g _ _ Hf Hg Hl). reflexivity.
  - rewrite (handler_without_client Se T entries now call2 w Hfind).
    rewrite <- Hd in Hfind.
    rewrite (handler_without_client Se T entries now call1 w Hfind).
    rewrite Hd. reflexivity.
  - rewrite (handler_lookup_raises Se T entries now call2 w e Hfind).
    rewrite <- Hd in Hfind.
    rewrite (handler_lookup_raises Se T entries now call1 w e Hfind).
    reflexivity.
Qed.

Lemma query_stats_filter_ignores_case_witness :
  @async_handle_query_stats scripted ascii_text test_entries test_now
    (test_call (Some "WORK"))
    [ok_json (VList [VList [MOCK_WINDOW_EVENT;
                            MOCK_WINDOW_EVENT_NO_CATEGORY]])]
  = @async_handle_query_stats scripted ascii_text test_entries test_now
      (test_call (Some "work"))
      [ok_json (VList [VList [MOCK_WINDOW_EVENT;
                              MOCK_WINDOW_EVENT_NO_CATEGORY]])].
Proof.
  apply (query_stats_filter_ignores_case scripted ascii_text test_entries
           test_now (test_call (Some "WORK")) (test_call (Some "work"))
           "WORK" "work");
    try reflexivity; discriminate.
Defined.

Lemma find_client_is_first_match_witness :
  let other := api.__init__ "10.0.0.7" 5600 None in
  let laptop := {| entry_data := [("device_name", VStr "Laptop")];
                   runtime_data := Some (coordinator.__init__ other
                                           "Laptop") |} in
  let ready := {| entry_data := [("device_name", VStr "Test-PC")];
                  runtime_data := Some window_only |} in
  let second := {| entry_data := [("device_name", VStr "Test-PC")];
                   runtime_data := Some (coordinator.__init__ other
                                           "Test-PC") |} in
  let not_ready := {| entry_data := [("device_name", VStr "Test-PC")];
                      runtime_data := None |} in
  _find_client_for_device [laptop; ready; second] "Test-PC"
  = Ok (Some test_client) /\
  _find_client_for_device [laptop; ready; second] "Phone" = Ok None /\
  _find_client_for_device [laptop; not_ready; ready] "Test-PC"
  = Raise AttributeError.
Proof.
  intros other laptop ready second not_ready. split; [|split].
  - destruct (find_client_is_first_match [laptop; ready; second] "Test-PC")
      as (_ & H & _).
    apply H. exists [laptop], ready, [second], window_only.
    split; [reflexivity|]. split; [|repeat split; reflexivity].
    intros e [<- | []]. discriminate.
  - destruct (find_client_is_first_match [laptop; ready; second] "Phone")
      as (H & _).
    apply H. intros e [<- | [<- | [<- | []]]]; discriminate.
  - destruct (find_client_is_first_match [laptop; not_ready; ready]
                "Test-PC") as (_ & _ & H).
    apply H. split; [reflexivity|].
    exists [laptop], not_ready, [ready].
    split; [reflexivity|]. split; [|split; reflexivity].
    intros e [<- | []]. discriminate.
Defined.

(** ** The sensor and the filter on one event *)

(** X16.  For a readable window event and a non-empty category: when the
    event's category is a list of strings or missing, the category sensor
    is on exactly when the service's filter for that category keeps the
    event; when the category is present but not a list, the two part
    ways: the sensor is off and the filter keeps the event. *)
Theorem sensor_and_filter_on_one_event :
  forall (T : Text) (c : ActivityWatchCoordinator) (d : ActivityWatchData)
         (f : string),
    data c = Some d ->
    window_event d <> VNone ->
    event_ok (window_event d) = true ->
    f <> EmptyString ->
    (isinstance_list (raw_category (window_event d)) = true ->
     forallb is_str (category_list (window_event d)) = true ->
     (binary_sensor.ActivityWatchCategoryBinarySensor.is_on c f
      = Ok (Some true)
      <-> filtered_out (Some f) (window_event d) = Ok false)) /\
    (isinstance_list (raw_category (window_event d)) = false ->
     binary_sensor.ActivityWatchCategoryBinarySensor.is_on c f
     = Ok (Some false) /\
     filtered_out (Some f) (window_event d) = Ok false).
Proof.
  intros T c d f Hd Hev Hok Hf.
  assert (Htf : str_truthy (Some f) = true).
  { simpl. apply negb_true_iff, String.eqb_neq. exact Hf. }
  unfold binary_sensor.ActivityWatchCategoryBinarySensor.is_on,
    filtered_out, raw_category, category_list, event_field.
  rewrite Hd, Htf.
  destruct (window_event d) as [| | | | | |dd]; try discriminate;
    try congruence.
  simpl in Hok. cbn [py_get res_bind].
  set (event_data := match dict_lookup "data" dd with
                     | Some x => x
                     | None => VDict []
                     end).
  assert (Hed : exists ed, event_data = VDict ed).
  { subst event_data.
    destruct (dict_lookup "data" dd) as [[| | | | | |ed]|];
      try discriminate; eexists; reflexivity. }
  destruct Hed as [ed ->]. cbn [py_get res_bind].
  set (cat := match dict_lookup "$category" ed with
              | Some x => x
              | None => VList []
              end).
  destruct cat as [| | | | |l|]; cbn [isinstance_list];
    try (split; [discriminate|intros _; split; reflexivity]).
  split; [|discriminate].
  intros _ Hstr. rewrite (lower_all_strings T l Hstr). cbn [res_bind].
  destruct (str_mem (lower f) (map lower (strings_of l))); simpl;
    split; congruence.
Qed.

Lemma sensor_and_filter_on_one_event_witness :
  let seen := set_data (Some (window_snapshot MOCK_WINDOW_EVENT))
                window_only in
  let odd_event := VDict [("duration", VFloat 1);
                          ("data", VDict [("app", VStr "Code");
                                          ("$category", VStr "Work")])] in
  let odd := set_data (Some (window_snapshot odd_event)) window_only in
  @filtered_out ascii_text (Some "work") MOCK_WINDOW_EVENT = Ok false /\
  @binary_sensor.ActivityWatchCategoryBinarySensor.is_on ascii_text
    odd "Work" = Ok (Some false) /\
  @filtered_out ascii_text (Some "Work") odd_event = Ok false.
Proof.
  intros seen odd_event odd.
  destruct (sensor_and_filter_on_one_event ascii_text seen _ "work" eq_refl
              ltac:(discriminate) eq_refl ltac:(discriminate)) as [Hlist _].
  destruct (sensor_and_filter_on_one_event ascii_text odd _ "Work" eq_refl
              ltac:(discriminate) eq_refl ltac:(discriminate)) as [_ Hodd].
  destruct (Hodd eq_refl) as [Hoff Hkept].
  split; [|split; [exact Hoff|exact Hkept]].
  apply (Hlist eq_refl eq_refl). reflexivity.
Defined.

(** ** The read views beyond the claims *)

Ltac split_binds H :=
  repeat match type of H with
         | context [res_bind ?c _] =>
             let E := fresh "E" in
             destruct c eqn:E; cbn [res_bind] in H; try discriminate
         end.

Lemma native_value_none :
  forall (T : Text) c,
    sensor.ActivityWatchCurrentActivitySensor.native_value c = Ok None
    <-> no_window_event c.
Proof.
  intros T c. unfold sensor.ActivityWatchCurrentActivitySensor.native_value,
    no_window_event.
  destruct (data c) as [d|];
    [|split; [intros _; left; reflexivity|reflexivity]].
  split.
  - intros H. right. exists d. split; [reflexivity|].
    destruct (window_event d) as [| | | | | |dd]; try reflexivity;
      try (simpl in H; discriminate).
    exfalso. split_binds H.
    destruct (truthy a0 && isinstance_list a0); [|discriminate].
    destruct a0 as [| | | | |[|first l]|]; discriminate.
  - intros [H | (d' & Hd & Hev)]; [discriminate|].
    inversion Hd; subst d'. rewrite Hev. reflexivity.
Qed.

Lemma window_attributes_none :
  forall (T : Text) c,
    sensor.ActivityWatchCurrentActivitySensor.extra_state_attributes c
    = Ok None
    <-> no_window_event c.
Proof.
  intros T c.
  unfold sensor.ActivityWatchCurrentActivitySensor.extra_state_attributes,
    no_window_event.
  destruct (data c) as [d|];
    [|split; [intros _; left; reflexivity|reflexivity]].
  split.
  - intros H. right. exists d. split; [reflexivity|].
    destruct (window_event d) as [| | | | | |dd]; try reflexivity;
      try (simpl in H; discriminate).
    exfalso. split_binds H.
  - intros [H | (d' & Hd & Hev)]; [discriminate|].
    inversion Hd; subst d'. rewrite Hev. reflexivity.
Qed.

Lemma category_is_on_none :
  forall (T : Text) c category,
    binary_sensor.ActivityWatchCategoryBinarySensor.is_on c category
    = Ok None
    <-> no_window_event c.
Proof.
  intros T c category.
  unfold binary_sensor.ActivityWatchCategoryBinarySensor.is_on,
    no_window_event.
  destruct (data c) as [d|];
    [|split; [intros _; left; reflexivity|reflexivity]].
  split.
  - intros H. right. exists d. split; [reflexivity|].
    destruct (window_event d) as [| | | | | |dd]; try reflexivity;
      try (simpl in H; discriminate).
    exfalso. split_binds H.
    destruct a0; try discriminate. split_binds H.
  - intros [H | (d' & Hd & Hev)]; [discriminate|].
    inversion Hd; subst d'. rewrite Hev. reflexivity.
Qed.

Lemma afk_attributes_none :
  forall c,
    binary_sensor.ActivityWatchActiveBinarySensor.extra_state_attributes c
    = Ok None
    <-> no_afk_event c.
Proof.
  intros c.
  unfold binary_sensor.ActivityWatchActiveBinarySensor.extra_state_attributes,
    no_afk_event.
  destruct (data c) as [d|];
    [|split; [intros _; left; reflexivity|reflexivity]].
  split.
  - intros H. right. exists d. split; [reflexivity|].
    destruct (afk_event d) as [| | | | | |dd]; try reflexivity;
      try (simpl in H; discriminate).
  - intros [H | (d' & Hd & Hev)]; [discriminate|].
    inversion Hd; subst d'. rewrite Hev. reflexivity.
Qed.

(** X17.  The views of one side are unknown together.  The current
    activity value, its attributes and every category sensor return
    [None] exactly when the snapshot holds no window event; the presence
    sensor and its attributes return [None] exactly when it holds no AFK
    event.  None of them answers [None] on an event that is there. *)
Theorem views_unknown_together :
  forall (T : Text) (c : ActivityWatchCoordinator) (category : string),
    (sensor.ActivityWatchCurrentActivitySensor.native_value c = Ok None
     <-> no_window_event c) /\
    (sensor.ActivityWatchCurrentActivitySensor.extra_state_attributes c
     = Ok None
     <-> no_window_event c) /\
    (binary_sensor.ActivityWatchCategoryBinarySensor.is_on c category
     = Ok None
     <-> no_window_event c) /\
    (binary_sensor.ActivityWatchActiveBinarySensor.is_on c = Ok None
     <-> no_afk_event c) /\
    (binary_sensor.ActivityWatchActiveBinarySensor.extra_state_attributes c
     = Ok None
     <-> no_afk_event c).
Proof.
  intros T c category.
  split; [apply native_value_none|].
  split; [apply window_attributes_none|].
  split; [apply category_is_on_none|].
  split; [apply is_on_active_none|apply afk_attributes_none].
Qed.

(** X18.  On a readable window event whose category entries are strings,
    every listed category, at any depth, turns its own category sensor
    on; so does the current activity value whenever the list is not
    empty. *)
Theorem listed_categories_are_on :
  forall (T : Text) (c : ActivityWatchCoordinator) (d : ActivityWatchData),
    data c = Some d ->
    window_event d <> VNone ->
    event_ok (window_event d) = true ->
    forallb is_str (category_list (window_event d)) = true ->
    (forall entry,
        In (VStr entry) (category_list (window_event d)) ->
        binary_sensor.ActivityWatchCategoryBinarySensor.is_on c entry
        = Ok (Some true)) /\
    (forall v,
        sensor.ActivityWatchCurrentActivitySensor.native_value c
        = Ok (Some v) ->
        category_list (window_event d) <> [] ->
        binary_sensor.ActivityWatchCategoryBinarySensor.is_on c v
        = Ok (Some true)).
Proof.
  intros T c d Hd Hev Hok Hstr.
  assert (Hon : forall entry,
             In (VStr entry) (category_list (window_event d)) ->
             binary_sensor.ActivityWatchCategoryBinarySensor.is_on c entry
             = Ok (Some true)).
  { intros entry Hin.
    rewrite (is_on_category_value T c d entry Hd Hev Hok Hstr).
    f_equal. f_equal. apply str_mem_lowered.
    exists entry. split; [exact Hin|reflexivity]. }
  split; [exact Hon|].
  intros v Hv Hne.
  rewrite (native_value_of_event T c d Hd Hev Hok) in Hv.
  destruct (category_list (window_event d)) as [|first rest] eqn:Hl;
    [congruence|].
  simpl in Hstr. apply andb_true_iff in Hstr. destruct Hstr as [Hfirst _].
  destruct first; try discriminate.
  simpl in Hv. inversion Hv; subst. apply Hon. left. reflexivity.
Qed.

Lemma listed_categories_are_on_witness :
  let seen := set_data (Some (window_snapshot MOCK_WINDOW_EVENT_2))
                window_only in
  @binary_sensor.ActivityWatchCategoryBinarySensor.is_on ascii_text
    seen "Communication" = Ok (Some true) /\
  @binary_sensor.ActivityWatchCategoryBinarySensor.is_on ascii_text
    seen "Work" = Ok (Some true).
Proof.
  intros seen.
  destruct (listed_categories_are_on ascii_text seen _ eq_refl
              ltac:(discriminate) eq_refl eq_refl) as [Hall Hstate].
  split.
  - apply Hall. right. left. reflexivity.
  - apply Hstate; [reflexivity|discriminate].
Defined.

(** X19.  Whenever the current activity attributes are available, so is
    the value, and the two agree: [sub_categories] is the event's whole
    category list (empty when the event has none or it is not a list),
    the value is the text of its first entry, or Uncategorized when it is
    empty, and [app_name], [window_title] and [url] are the event's
    fields, the empty string standing in for a missing one. *)
Theorem attributes_agree_with_value :
  forall (T : Text) (c : ActivityWatchCoordinator) (attrs : value),
    sensor.ActivityWatchCurrentActivitySensor.extra_state_attributes c
    = Ok (Some attrs) ->
    exists d a,
      data c = Some d /\ attrs = VDict a /\
      dict_lookup "sub_categories" a
      = Some (VList (category_list (window_event d))) /\
      sensor.ActivityWatchCurrentActivitySensor.native_value c
      = Ok (Some match category_list (window_event d) with
                 | first :: _ => py_str first
                 | [] => "Uncategorized"
                 end) /\
      dict_lookup "app_name" a
      = Some (event_field (window_event d) "app" (VStr EmptyString)) /\
      dict_lookup "window_title" a
      = Some (event_field (window_event d) "title" (VStr EmptyString)) /\
      dict_lookup "url" a
      = Some (event_field (window_event d) "url" (VStr EmptyString)).
Proof.
  intros T c attrs H.
  pose proof H as H0.
  unfold sensor.ActivityWatchCurrentActivitySensor.extra_state_attributes
    in H.
  destruct (data c) as [d|] eqn:Hd; [|discriminate].
  destruct (window_event d) as [| | | | | |dd] eqn:Hev;
    try discriminate; try (simpl in H; discriminate).
  cbn [py_get res_bind] in H.
  set (event_data := match dict_lookup "data" dd with
                     | Some x => x
                     | None => VDict []
                     end) in *.
  destruct event_data as [| | | | | |ed] eqn:Hed;
    try (simpl in H; discriminate).
  assert (Hok : event_ok (window_event d) = true).
  { rewrite Hev. simpl. subst event_data.
    destruct (dict_lookup "data" dd) as [[| | | | | |ed']|];
      try discriminate; reflexivity. }
  assert (Hpresent : window_event d <> VNone) by (rewrite Hev; discriminate).
  pose proof (native_value_of_event T c d Hd Hpresent Hok) as Hval.
  cbn [py_get res_bind] in H.
  destruct (py_int _) as [duration|e]; cbn [res_bind] in H;
    [|discriminate].
  inversion H; subst attrs. clear H.
  exists d, [("app_name",
              match dict_lookup "app" ed with
              | Some x => x | None => VStr EmptyString end);
             ("window_title",
              match dict_lookup "title" ed with
              | Some x => x | None => VStr EmptyString end);
             ("url",
              match dict_lookup "url" ed with
              | Some x => x | None => VStr EmptyString end);
             ("sub_categories",
              if isinstance_list
                   match dict_lookup "$category" ed with
                   | Some x => x | None => VList [] end
              then match dict_lookup "$category" ed with
                   | Some x => x | None => VList [] end
              else VList []);
             ("duration", VInt duration)].
  split; [reflexivity|]. split; [reflexivity|].
  rewrite Hval. rewrite Hev.
  unfold category_list, event_field. cbn [py_get res_bind].
  fold event_data. rewrite Hed. cbn [py_get res_bind].
  split; [|split; [reflexivity|split; [reflexivity|split; reflexivity]]].
  simpl. destruct (match dict_lookup "$category" ed with
                   | Some x => x | None => VList [] end); reflexivity.
Qed.

Lemma attributes_agree_with_value_witness :
  let seen := set_data (Some (window_snapshot MOCK_WINDOW_EVENT_2))
                window_only in
  exists a,
    @sensor.ActivityWatchCurrentActivitySensor.extra_state_attributes
      ascii_text seen = Ok (Some (VDict a)) /\
    dict_lookup "sub_categories" a
    = Some (VList [VStr "Work"; VStr "Communication"]) /\
    @sensor.ActivityWatchCurrentActivitySensor.native_value ascii_text seen
    = Ok (Some "Work").
Proof.
  intros seen.
  destruct (attributes_agree_with_value ascii_text seen _ eq_refl)
    as (d & a & Hd & Ha & Hsub & Hval & _).
  inversion Hd; subst d. exists a. rewrite <- Ha.
  split; [reflexivity|]. split; [exact Hsub|exact Hval].
Defined.

(** On a readable event the attributes stand or fall with [int(duration)]. *)
Lemma attributes_by_duration :
  forall (T : Text) c d dd,
    data c = Some d ->
    window_event d = VDict dd ->
    event_ok (window_event d) = true ->
    exists rest,
      sensor.ActivityWatchCurrentActivitySensor.extra_state_attributes c
      = (duration <- py_int match dict_lookup "duration" dd with
                            | Some x => x
                            | None => VInt 0
                            end ;;
         Ok (Some (VDict (rest ++ [("duration", VInt duration)]%list))))%res
      /\ dict_lookup "duration" rest = None.
Proof.
  intros T c d dd Hd Hev Hok.
  unfold sensor.ActivityWatchCurrentActivitySensor.extra_state_attributes.
  rewrite Hd. rewrite Hev in Hok |- *. simpl in Hok.
  cbn [py_get res_bind].
  destruct (dict_lookup "data" dd) as [[| | | | | |ed]|];
    try discriminate; cbn [py_get res_bind];
    eexists [_; _; _; _]; split; reflexivity.
Qed.

Lemma lookup_last :
  forall k v rest,
    dict_lookup k rest = None ->
    dict_lookup k (rest ++ [(k, v)])%list = Some v.
Proof.
  intros k v rest. induction rest as [|[k' v'] rest IH]; intros H; simpl.
  - rewrite String.eqb_refl. reflexivity.
  - simpl in H. destruct (String.eqb k k'); [discriminate|apply IH; exact H].
Qed.

(** X20.  The duration attribute at its edges, on a readable window
    event: a missing duration gives 0 and an integer one passes through
    unchanged; a duration that is NaN or infinite, or [None], makes the
    whole attribute mapping raise ([ValueError] or [OverflowError], resp.
    [TypeError]) while the sensor's value is still there. *)
Theorem duration_attribute_edges :
  forall (T : Text) (c : ActivityWatchCoordinator) (d : ActivityWatchData)
         (dd : list (string * value)),
    data c = Some d ->
    window_event d = VDict dd ->
    event_ok (window_event d) = true ->
    (forall z,
        dict_lookup "duration" dd = None /\ z = 0
        \/ dict_lookup "duration" dd = Some (VInt z) ->
        exists a,
          sensor.ActivityWatchCurrentActivitySensor.extra_state_attributes c
          = Ok (Some (VDict a)) /\
          dict_lookup "duration" a = Some (VInt z)) /\
    (forall f,
        dict_lookup "duration" dd = Some (VFloat f) ->
        finite f = false ->
        sensor.ActivityWatchCurrentActivitySensor.extra_state_attributes c
        = Raise (if PrimFloat.is_nan f then ValueError else OverflowError))
    /\
    (dict_lookup "duration" dd = Some VNone ->
     sensor.ActivityWatchCurrentActivitySensor.extra_state_attributes c
     = Raise TypeError) /\
    (exists v,
        sensor.ActivityWatchCurrentActivitySensor.native_value c
        = Ok (Some v)).
Proof.
  intros T c d dd Hd Hev Hok.
  destruct (attributes_by_duration T c d dd Hd Hev Hok) as (rest & Ha & Hr).
  rewrite Ha.
  split; [|split; [|split]].
  - intros z [[Hnone ->] | Hint]; rewrite ?Hnone, ?Hint; simpl;
      eexists; (split; [reflexivity|apply lookup_last; exact Hr]).
  - intros f Hf Hfin. rewrite Hf. simpl.
    unfold float_trunc. unfold finite in Hfin.
    unfold PrimFloat.is_nan. rewrite eqb_spec.
    destruct (Prim2SF f) as [z0|[|]| |s0 m e]; try discriminate;
      reflexivity.
  - intros Hnone. rewrite Hnone. reflexivity.
  - assert (Hpresent : window_event d <> VNone)
      by (rewrite Hev; discriminate).
    rewrite (native_value_of_event T c d Hd Hpresent Hok).
    eexists. reflexivity.
Qed.

Lemma duration_attribute_edges_witness :
  let timeless := set_data (Some (window_snapshot
                    (VDict [("data", VDict [("app", VStr "Code")])])))
                    window_only in
  let endless := set_data (Some (window_snapshot
                   (VDict [("duration", VFloat infinity);
                           ("data", VDict [("app", VStr "Code")])])))
                   window_only in
  (exists a,
      @sensor.ActivityWatchCurrentActivitySensor.extra_state_attributes
        ascii_text timeless = Ok (Some (VDict a)) /\
      dict_lookup "duration" a = Some (VInt 0)) /\
  @sensor.ActivityWatchCurrentActivitySensor.extra_state_attributes
    ascii_text endless = Raise OverflowError /\
  @sensor.ActivityWatchCurrentActivitySensor.native_value ascii_text endless
  = Ok (Some "Uncategorized").
Proof.
  intros timeless endless.
  destruct (duration_attribute_edges ascii_text timeless _ _ eq_refl eq_refl
              eq_refl) as (Hint & _).
  destruct (duration_attribute_edges ascii_text endless _ _ eq_refl eq_refl
              eq_refl) as (_ & Hfloat & _).
  split; [apply Hint; left; split; reflexivity|].
  split; [exact (Hfloat _ eq_refl eq_refl)|reflexivity].
Defined.

(** X21.  The presence sensor on an AFK event of any shape.  Its value
    raises, always [AttributeError], exactly when the event is not a
    mapping or holds something other than a mapping under [data]; its
    attributes need only the event to be a mapping, and then give the
    event's timestamp, or the empty string, as [last_active]. *)
Theorem presence_views_by_event_shape :
  forall (c : ActivityWatchCoordinator) (d : ActivityWatchData),
    data c = Some d ->
    afk_event d <> VNone ->
    (binary_sensor.ActivityWatchActiveBinarySensor.is_on c
     = Raise AttributeError
     <-> event_ok (afk_event d) = false) /\
    (forall e,
        binary_sensor.ActivityWatchActiveBinarySensor.is_on c = Raise e ->
        e = AttributeError) /\
    (forall dd,
        afk_event d = VDict dd ->
        binary_sensor.ActivityWatchActiveBinarySensor.extra_state_attributes c
        = Ok (Some (VDict [("last_active",
                            match dict_lookup "timestamp" dd with
                            | Some ts => ts
                            | None => VStr EmptyString
                            end)]))) /\
    ((forall dd, afk_event d <> VDict dd) ->
     binary_sensor.ActivityWatchActiveBinarySensor.extra_state_attributes c
     = Raise AttributeError).
Proof.
  intros c d Hd Hev.
  unfold binary_sensor.ActivityWatchActiveBinarySensor.is_on,
    binary_sensor.ActivityWatchActiveBinarySensor.extra_state_attributes.
  rewrite Hd.
  destruct (afk_event d) as [| | | | | |dd] eqn:Hafk; try congruence;
    cbn [py_get res_bind event_ok];
    try (split; [split; reflexivity|];
         split; [intros e H; inversion H; reflexivity|];
         split; [intros dd H; discriminate|reflexivity]).
  split; [|split; [|split]].
  - destruct (dict_lookup "data" dd) as [[| | | | | |ed]|];
      cbn [py_get res_bind]; split; intros H;
      try discriminate; reflexivity.
  - intros e.
    destruct (dict_lookup "data" dd) as [[| | | | | |ed]|];
      cbn [py_get res_bind]; intros H; inversion H; reflexivity.
  - intros dd' H. inversion H. reflexivity.
  - intros H. exfalso. apply (H dd). reflexivity.
Qed.

Lemma presence_views_by_event_shape_witness :
  let flat := set_data (Some {| window_event := VNone;
                                afk_event :=
                                  VDict [("timestamp", VStr "2024-01-15");
                                         ("data", VStr "not-afk")] |})
                both_buckets in
  binary_sensor.ActivityWatchActiveBinarySensor.is_on flat
  = Raise AttributeError /\
  binary_sensor.ActivityWatchActiveBinarySensor.extra_state_attributes flat
  = Ok (Some (VDict [("last_active", VStr "2024-01-15")])).
Proof.
  intros flat.
  destruct (presence_views_by_event_shape flat _ eq_refl
              ltac:(discriminate)) as (Hon & _ & Hattr & _).
  split; [apply Hon; reflexivity|exact (Hattr _ eq_refl)].
Defined.

(** ** The options flow *)

Section OptionsFacts.
Context {W : Whitespace}.

Lemma split_pieces_free :
  forall sep s, Forall (fun p => no_char sep p = true) (py_split sep s).
Proof.
  intros sep s. induction s as [|c s IH]; simpl.
  - constructor; [reflexivity|constructor].
  - destruct (Ascii.eqb c sep) eqn:Hc.
    + constructor; [reflexivity|exact IH].
    + destruct (py_split sep s) as [|p rest].
      * constructor; [simpl; rewrite Hc; reflexivity|constructor].
      * inversion IH as [|p' rest' Hp Hrest]; subst.
        constructor; [simpl; rewrite Hc, Hp; reflexivity|exact Hrest].
Qed.

Lemma split_free :
  forall sep a, no_char sep a = true -> py_split sep a = [a].
Proof.
  intros sep a. induction a as [|c a IH]; simpl; intros Hfree.
  - reflexivity.
  - apply andb_prop in Hfree. destruct Hfree as [Hc Ha].
    apply negb_true_iff in Hc. rewrite Hc, (IH Ha). reflexivity.
Qed.

Lemma split_app :
  forall sep a b,
    no_char sep a = true ->
    py_split sep (a ++ String sep b) = a :: py_split sep b.
Proof.
  intros sep a b. induction a as [|c a IH]; simpl; intros Hfree.
  - rewrite Ascii.eqb_refl. reflexivity.
  - apply andb_prop in Hfree. destruct Hfree as [Hc Ha].
    apply negb_true_iff in Hc. rewrite Hc, (IH Ha). reflexivity.
Qed.

Lemma no_char_app :
  forall c a b, no_char c (a ++ b) = no_char c a && no_char c b.
Proof.
  intros c a b. induction a as [|x a IH]; simpl.
  - reflexivity.
  - rewrite IH. apply andb_assoc.
Qed.

Lemma lstrip_free :
  forall c s, no_char c s = true -> no_char c (py_lstrip s) = true.
Proof.
  intros c s. induction s as [|x s IH]; simpl; intros Hfree.
  - reflexivity.
  - destruct (isspace x); [|exact Hfree].
    apply andb_prop in Hfree. apply IH. apply Hfree.
Qed.

Lemma rstrip_free :
  forall c s, no_char c s = true -> no_char c (py_rstrip s) = true.
Proof.
  intros c s. induction s as [|x s IH]; simpl; intros Hfree.
  - reflexivity.
  - apply andb_prop in Hfree. destruct Hfree as [Hx Hs].
    specialize (IH Hs).
    destruct (py_rstrip s) as [|y t].
    + destruct (isspace x); simpl; [reflexivity|rewrite Hx; reflexivity].
    + change (no_char c (String x (String y t)))
        with (negb (Ascii.eqb x c) && no_char c (String y t)).
      rewrite Hx, IH. reflexivity.
Qed.

Lemma rstrip_idempotent :
  forall s, py_rstrip (py_rstrip s) = py_rstrip s.
Proof.
  induction s as [|x s IH]; simpl.
  - reflexivity.
  - destruct (py_rstrip s) as [|y t] eqn:Hr.
    + destruct (isspace x) eqn:Hx; simpl; [reflexivity|].
      rewrite Hx. reflexivity.
    + change (py_rstrip (String x (String y t)))
        with (match py_rstrip (String y t) with
              | EmptyString =>
                  if isspace x then EmptyString else String x EmptyString
              | t' => String x t'
              end).
      rewrite IH. reflexivity.
Qed.

Lemma lstrip_starts_clean :
  forall s, starts_clean (py_lstrip s).
Proof.
  induction s as [|x s IH]; simpl.
  - exact I.
  - destruct (isspace x) eqn:Hx; [exact IH|exact Hx].
Qed.

Lemma rstrip_starts_clean :
  forall s, starts_clean s -> starts_clean (py_rstrip s).
Proof.
  intros [|x s] Hs; simpl.
  - exact I.
  - simpl in Hs. destruct (py_rstrip s); [rewrite Hs|]; exact Hs.
Qed.

Lemma lstrip_fixed :
  forall s, starts_clean s -> py_lstrip s = s.
Proof.
  intros [|x s] Hs; simpl; [reflexivity|].
  simpl in Hs. rewrite Hs. reflexivity.
Qed.

Lemma strip_idempotent :
  forall s, py_strip (py_strip s) = py_strip s.
Proof.
  intros s. unfold py_strip.
  rewrite (lstrip_fixed (py_rstrip (py_lstrip s))).
  - apply rstrip_idempotent.
  - apply rstrip_starts_clean. apply lstrip_starts_clean.
Qed.

Lemma strip_free :
  forall c s, no_char c s = true -> no_char c (py_strip s) = true.
Proof.
  intros c s Hfree. unfold py_strip.
  apply rstrip_free. apply lstrip_free. exact Hfree.
Qed.

(** What the comprehension keeps is clean, whatever the pieces are. *)
Lemma stripped_clean :
  forall pieces,
    Forall (fun p => no_char "," p = true) pieces ->
    Forall clean_category (stripped pieces).
Proof.
  induction pieces as [|p rest IH]; intros Hfree; simpl.
  - constructor.
  - inversion Hfree as [|p' rest' Hp Hrest]; subst.
    destruct (String.eqb (py_strip p) EmptyString) eqn:He; simpl.
    + apply IH. exact Hrest.
    + constructor; [|apply IH; exact Hrest].
      split; [|split].
      * apply String.eqb_neq. exact He.
      * apply strip_free. exact Hp.
      * apply strip_idempotent.
Qed.

(** It keeps the order of the pieces, and nothing else of them. *)
Lemma stripped_spec :
  forall pieces c,
    In c (stripped pieces)
    <-> c <> EmptyString /\ exists p, In p pieces /\ py_strip p = c.
Proof.
  induction pieces as [|p rest IH]; intros c; simpl.
  - split; [intros []|intros (_ & q & [] & _)].
  - destruct (String.eqb (py_strip p) EmptyString) eqn:He; simpl.
    + rewrite IH. apply String.eqb_eq in He. split.
      * intros (Hc & q & Hq & Hs). split; [exact Hc|].
        exists q. split; [right; exact Hq|exact Hs].
      * intros (Hc & q & [Hq | Hq] & Hs).
        -- subst q. congruence.
        -- split; [exact Hc|]. exists q. split; assumption.
    + rewrite IH. apply String.eqb_neq in He. split.
      * intros [Hc | (Hc & q & Hq & Hs)].
        -- subst c. split; [exact He|]. exists p. split; [left|]; reflexivity.
        -- split; [exact Hc|]. exists q. split; [right; exact Hq|exact Hs].
      * intros (Hc & q & [Hq | Hq] & Hs).
        -- subst q. left. exact Hs.
        -- right. split; [exact Hc|]. exists q. split; assumption.
Qed.

Lemma str_items_strs :
  forall l, str_items (map VStr l) = Ok l.
Proof.
  induction l as [|x l IH]; simpl; [reflexivity|].
  rewrite IH. reflexivity.
Qed.

Lemma append_assoc :
  forall a b c : string, ((a ++ b) ++ c = a ++ (b ++ c))%string.
Proof.
  intros a b c. induction a as [|x a IH]; simpl; [reflexivity|].
  rewrite IH. reflexivity.
Qed.

(** Splitting what [join] wrote: each category comes back behind the
    space that followed the comma. *)
Lemma stripped_split_join :
  isspace " "%char = true ->
  forall cats pre,
    cats <> [] ->
    Forall clean_category cats ->
    no_char "," pre = true ->
    (forall x, clean_category x -> py_strip (pre ++ x) = x) ->
    stripped (py_split "," (pre ++ join ", " cats)) = cats.
Proof.
  intros Hspace cats.
  induction cats as [|x rest IH]; intros pre Hne Hclean Hpre Hstrip;
    [congruence|].
  inversion Hclean as [|x' rest' Hx Hrest]; subst.
  destruct Hx as (Hx0 & Hxfree & Hxs).
  assert (Hkeep : String.eqb (py_strip (pre ++ x)) EmptyString = false).
  { rewrite (Hstrip x); [|repeat split; assumption].
    apply String.eqb_neq. exact Hx0. }
  destruct rest as [|y rest].
  - cbn [join]. rewrite split_free
      by (rewrite no_char_app, Hpre, Hxfree; reflexivity).
    cbn [stripped]. rewrite Hkeep. cbn [negb].
    rewrite (Hstrip x); [reflexivity|repeat split; assumption].
  - change (join ", " (x :: y :: rest))
      with (x ++ ", " ++ join ", " (y :: rest))%string.
    rewrite <- append_assoc.
    change (", " ++ join ", " (y :: rest))%string
      with (String "," (" " ++ join ", " (y :: rest)))%string.
    rewrite split_app
      by (rewrite no_char_app, Hpre, Hxfree; reflexivity).
    cbn [stripped]. rewrite Hkeep. cbn [negb].
    rewrite (Hstrip x); [|repeat split; assumption].
    f_equal. apply IH.
    + discriminate.
    + exact Hrest.
    + reflexivity.
    + intros z (Hz0 & Hzfree & Hzs).
      change (" " ++ z)%string with (String " " z).
      unfold py_strip. cbn [py_lstrip]. rewrite Hspace. exact Hzs.
Qed.

Lemma stripped_join :
  isspace " "%char = true ->
  forall cats,
    Forall clean_category cats ->
    stripped (py_split "," (join ", " cats)) = cats.
Proof.
  intros Hspace [|x rest] Hclean; [reflexivity|].
  apply (stripped_split_join Hspace (x :: rest) EmptyString).
  - discriminate.
  - exact Hclean.
  - reflexivity.
  - intros z (_ & _ & Hz). exact Hz.
Qed.

End OptionsFacts.

(** X22.  Submitting the options form with a string of categories (or
    none, which counts as the empty string) and a scan interval creates an
    entry with an empty title that holds the scan interval as given and
    the categories as a list: exactly the non-empty stripped pieces between
    the commas, each one non-empty, without a comma and without whitespace
    at either end. *)
Theorem options_step_saves_clean_categories :
  forall (W : Whitespace) (options ui : list (string * value))
         (s : string) (scan : value),
    dict_lookup CONF_MONITORED_CATEGORIES ui = Some (VStr s)
    \/ dict_lookup CONF_MONITORED_CATEGORIES ui = None /\ s = EmptyString ->
    dict_lookup CONF_SCAN_INTERVAL ui = Some scan ->
    exists cats,
      async_step_init options (Some ui)
      = Ok (async_create_entry EmptyString
              [(CONF_SCAN_INTERVAL, scan);
               (CONF_MONITORED_CATEGORIES, strs cats)]) /\
      Forall clean_category cats /\
      (forall c,
          In c cats
          <-> c <> EmptyString /\
              exists p, In p (py_split "," s) /\ py_strip p = c).
Proof.
  intros W options ui s scan Hcats Hscan.
  exists (stripped (py_split "," s)).
  split; [|split].
  - unfold async_step_init, dict_getitem. cbn [py_get res_bind].
    rewrite Hscan.
    destruct Hcats as [Hc | [Hc ->]]; rewrite Hc; reflexivity.
  - apply stripped_clean. apply split_pieces_free.
  - apply stripped_spec.
Qed.

Lemma options_step_saves_clean_categories_witness :
  let ui := [("scan_interval", VInt 30);
             ("monitored_categories",
              VStr " Work , Gaming,, ,Deep Focus ")] in
  exists cats,
    @async_step_init latin1_space [] (Some ui)
    = Ok (async_create_entry EmptyString
            [("scan_interval", VInt 30);
             ("monitored_categories", strs cats)]) /\
    Forall (@clean_category latin1_space) cats /\
    (In "Deep Focus" cats
     <-> "Deep Focus" <> EmptyString /\
         exists p, In p (py_split "," " Work , Gaming,, ,Deep Focus ") /\
                   @py_strip latin1_space p = "Deep Focus").
Proof.
  intros ui.
  destruct (options_step_saves_clean_categories latin1_space [] ui
              " Work , Gaming,, ,Deep Focus " (VInt 30)
              (or_introl eq_refl) eq_refl) as (cats & Hstep & Hclean & Hin).
  exists cats. split; [exact Hstep|]. split; [exact Hclean|apply Hin].
Defined.

(** X23.  What submitting the options form can raise: [AttributeError]
    when the categories are there but are no string, before the scan
    interval is looked at; [KeyError] when they are a string or absent and
    the scan interval is missing; and nothing else. *)
Theorem options_step_errors :
  forall (W : Whitespace) (options ui : list (string * value)),
    (forall v,
        dict_lookup CONF_MONITORED_CATEGORIES ui = Some v ->
        (forall s, v <> VStr s) ->
        async_step_init options (Some ui) = Raise AttributeError) /\
    ((forall v,
         dict_lookup CONF_MONITORED_CATEGORIES ui = Some v ->
         exists s, v = VStr s) ->
     dict_lookup CONF_SCAN_INTERVAL ui = None ->
     async_step_init options (Some ui) = Raise KeyError) /\
    (forall e,
        async_step_init options (Some ui) = Raise e ->
        e = AttributeError /\
        (exists v, dict_lookup CONF_MONITORED_CATEGORIES ui = Some v /\
                   forall s, v <> VStr s)
        \/ e = KeyError /\ dict_lookup CONF_SCAN_INTERVAL ui = None).
Proof.
  intros W options ui.
  unfold async_step_init, dict_getitem. cbn [py_get res_bind].
  destruct (dict_lookup CONF_MONITORED_CATEGORIES ui) as [v|] eqn:Hc.
  - destruct v as [| | | |s| |];
      cbn [split_of res_bind];
      try (split; [intros v Hv Hns; reflexivity|];
           split; [intros Hstr _;
                   destruct (Hstr _ eq_refl) as (s & Hs); discriminate|];
           intros e He; inversion He; left;
           split; [reflexivity|];
           eexists; split; [reflexivity|intros s; discriminate]).
    split; [intros v Hv Hns; inversion Hv; subst v;
            exfalso; apply (Hns s); reflexivity|].
    destruct (dict_lookup CONF_SCAN_INTERVAL ui) as [scan|];
      cbn [res_bind].
    + split; [intros _ Hn; discriminate|intros e He; discriminate].
    + split; [reflexivity|].
      intros e He. inversion He. right. split; reflexivity.
  - cbn [split_of res_bind].
    split; [intros v Hv; discriminate|].
    destruct (dict_lookup CONF_SCAN_INTERVAL ui) as [scan|];
      cbn [res_bind].
    + split; [intros _ Hn; discriminate|intros e He; discriminate].
    + split; [reflexivity|].
      intros e He. inversion He. right. split; reflexivity.
Qed.

Lemma options_step_errors_witness :
  @async_step_init latin1_space []
    (Some [("monitored_categories", VList [VStr "Work"])])
  = Raise AttributeError /\
  @async_step_init latin1_space []
    (Some [("monitored_categories", VStr "Work")])
  = Raise KeyError.
Proof.
  destruct (options_step_errors latin1_space []
              [("monitored_categories", VList [VStr "Work"])])
    as (Hattr & _).
  destruct (options_step_errors latin1_space []
              [("monitored_categories", VStr "Work")])
    as (_ & Hkey & _).
  split.
  - apply (Hattr _ eq_refl). intros s. discriminate.
  - apply Hkey; [|reflexivity].
    intros v Hv. inversion Hv. eexists. reflexivity.
Defined.

(** X24.  The options form round-trips what the flow saved.  Where the
    space counts as whitespace: if a submission created an entry, the form
    opened on that entry's data shows the saved scan interval and, for the
    categories, a string which, submitted again unchanged with that scan
    interval, creates the same entry. *)
Theorem options_form_round_trip :
  forall (W : Whitespace),
    isspace " "%char = true ->
    forall (options ui : list (string * value)) (title : string)
           (data : list (string * value)),
      async_step_init options (Some ui)
      = Ok (async_create_entry title data) ->
      exists scan shown,
        async_step_init data None
        = Ok (async_show_form "init" (options_schema scan shown) None) /\
        forall options' ui',
          dict_lookup CONF_SCAN_INTERVAL ui' = Some scan ->
          dict_lookup CONF_MONITORED_CATEGORIES ui' = Some (VStr shown) ->
          async_step_init options' (Some ui')
          = Ok (async_create_entry title data).
Proof.
  intros W Hspace options ui title data Hstep.
  unfold async_step_init in Hstep. cbn [py_get res_bind] in Hstep.
  destruct (split_of _ _) as [pieces|e] eqn:Hsplit;
    cbn [res_bind] in Hstep; [|discriminate].
  destruct (dict_getitem ui CONF_SCAN_INTERVAL) as [scan|e];
    cbn [res_bind] in Hstep; [|discriminate].
  inversion Hstep; subst title data. clear Hstep.
  assert (Hclean : Forall clean_category (stripped pieces)).
  { apply stripped_clean.
    destruct (match dict_lookup CONF_MONITORED_CATEGORIES ui with
              | Some x => x
              | None => VStr EmptyString
              end); try discriminate.
    inversion Hsplit. apply split_pieces_free. }
  set (cats := stripped pieces) in *. clearbody cats.
  exists scan, (join ", " cats). split.
  - unfold async_step_init. cbn [py_get res_bind].
    change (dict_lookup CONF_MONITORED_CATEGORIES
              [(CONF_SCAN_INTERVAL, scan);
               (CONF_MONITORED_CATEGORIES, strs cats)])
      with (Some (strs cats)).
    change (dict_lookup CONF_SCAN_INTERVAL
              [(CONF_SCAN_INTERVAL, scan);
               (CONF_MONITORED_CATEGORIES, strs cats)])
      with (Some scan).
    unfold strs. destruct cats as [|c cats]; [reflexivity|].
    cbn [truthy map py_join].
    change (VStr c :: map VStr cats) with (map VStr (c :: cats)).
    rewrite str_items_strs. reflexivity.
  - intros options' ui' Hscan Hshown.
    unfold async_step_init, dict_getitem. cbn [py_get res_bind].
    rewrite Hshown, Hscan. cbn [split_of res_bind].
    rewrite (stripped_join Hspace cats Hclean). reflexivity.
Qed.

Lemma options_form_round_trip_witness :
  let saved := [("scan_interval", VInt 30);
                ("monitored_categories",
                 strs ["Work"; "Gaming"; "Deep Focus"])] in
  @async_step_init latin1_space saved None
  = Ok (async_show_form "init"
          (options_schema (VInt 30) "Work, Gaming, Deep Focus") None) /\
  @async_step_init latin1_space saved
    (Some [("scan_interval", VInt 30);
           ("monitored_categories", VStr "Work, Gaming, Deep Focus")])
  = Ok (async_create_entry EmptyString saved).
Proof.
  intros saved.
  destruct (options_form_round_trip latin1_space eq_refl []
              [("scan_interval", VInt 30);
               ("monitored_categories",
                VStr " Work , Gaming,, ,Deep Focus ")]
              EmptyString saved eq_refl) as (scan & shown & Hform & Hagain).
  assert (Hshown : scan = VInt 30 /\ shown = "Work, Gaming, Deep Focus").
  { vm_compute in Hform. inversion Hform. split; reflexivity. }
  destruct Hshown as [-> ->].
  split; [exact Hform|].
  apply Hagain; reflexivity.
Defined.

Lemma str_items_raises :
  forall l e, str_items l = Raise e -> e = TypeError.
Proof.
  induction l as [|v l IH]; intros e H; simpl in H; [discriminate|].
  destruct v; try (inversion H; reflexivity).
  destruct (str_items l) as [tl|e']; simpl in H; [discriminate|].
  inversion H; subst e'. apply IH. reflexivity.
Qed.

Lemma str_items_rejects :
  forall l v,
    In v l -> (forall s, v <> VStr s) -> str_items l = Raise TypeError.
Proof.
  induction l as [|x l IH]; intros v Hin Hns; [destruct Hin|].
  destruct Hin as [-> | Hin].
  - destruct v; try reflexivity. exfalso. apply (Hns s). reflexivity.
  - simpl. rewrite (IH v Hin Hns).
    destruct x; reflexivity.
Qed.

(** X25.  Opening the options form.  With no categories stored, or an
    empty list, the field shows the empty string; a stored list of strings
    is shown joined by a comma and a space; the scan interval shown is the
    stored one, or 15 when none is stored.  A stored list holding something
    that is not a string makes the step raise [TypeError], and the step
    raises nothing else. *)
Theorem options_form_defaults :
  forall (W : Whitespace) (options : list (string * value)),
    let scan := match dict_lookup CONF_SCAN_INTERVAL options with
                | Some v => v
                | None => VInt DEFAULT_SCAN_INTERVAL
                end in
    (dict_lookup CONF_MONITORED_CATEGORIES options = None
     \/ dict_lookup CONF_MONITORED_CATEGORIES options = Some (VList []) ->
     async_step_init options None
     = Ok (async_show_form "init" (options_schema scan EmptyString) None)) /\
    (forall cats,
        dict_lookup CONF_MONITORED_CATEGORIES options = Some (strs cats) ->
        async_step_init options None
        = Ok (async_show_form "init"
                (options_schema scan (join ", " cats)) None)) /\
    (forall l v,
        dict_lookup CONF_MONITORED_CATEGORIES options = Some (VList l) ->
        In v l ->
        (forall s, v <> VStr s) ->
        async_step_init options None = Raise TypeError) /\
    (forall e, async_step_init options None = Raise e -> e = TypeError).
Proof.
  intros W options scan. subst scan.
  unfold async_step_init. cbn [py_get res_bind].
  split; [|split; [|split]].
  - intros [-> | ->]; reflexivity.
  - intros cats ->. unfold strs.
    destruct cats as [|c cats]; [reflexivity|].
    cbn [truthy map py_join].
    change (VStr c :: map VStr cats) with (map VStr (c :: cats)).
    rewrite str_items_strs. reflexivity.
  - intros l v -> Hin Hns.
    destruct l as [|x l]; [destruct Hin|].
    cbn [truthy py_join].
    rewrite (str_items_rejects (x :: l) v Hin Hns). reflexivity.
  - intros e.
    destruct (match dict_lookup CONF_MONITORED_CATEGORIES options with
              | Some x => x
              | None => VList []
              end) as [|b|z|f|s|l|d]; cbn [truthy py_join res_bind];
      try discriminate.
    + destruct b; cbn [res_bind]; intros He; inversion He; reflexivity.
    + destruct (negb (z =? 0)); cbn [res_bind]; intros He;
        inversion He; reflexivity.
    + destruct (negb (PrimFloat.eqb f 0)); cbn [res_bind]; intros He;
        inversion He; reflexivity.
    + destruct (negb (String.eqb s EmptyString)); cbn [res_bind];
        discriminate.
    + destruct l as [|x l]; cbn [res_bind]; [discriminate|].
      destruct (str_items (x :: l)) as [its|e'] eqn:Hits;
        cbn [res_bind]; [discriminate|].
      intros He. inversion He; subst e'.
      apply (str_items_raises _ _ Hits).
    + destruct d; cbn [res_bind]; discriminate.
Qed.

Lemma options_form_defaults_witness :
  @async_step_init latin1_space [] None
  = Ok (async_show_form "init" (options_schema (VInt 15) EmptyString) None)
  /\
  @async_step_init latin1_space
    [("monitored_categories", VList [VStr "Work"; VInt 7])] None
  = Raise TypeError.
Proof.
  destruct (options_form_defaults latin1_space []) as (Hnone & _).
  destruct (options_form_defaults latin1_space
              [("monitored_categories", VList [VStr "Work"; VInt 7])])
    as (_ & _ & Hbad & _).
  split; [exact (Hnone (or_introl eq_refl))|].
  apply (Hbad _ (VInt 7) eq_refl); [right; left; reflexivity|].
  intros s. discriminate.
Defined.

(** ** The user step of the config flow *)

Section UserStepFacts.
Context {Se : ClientSession} {H : ConfigFlow}.

(** Once the host lets the flow go on, the step is the [try] statement on
    the one request, then the choice between entry and form. *)
Lemma user_step_unfold :
  forall ui w,
    _async_abort_entries_match
      [(CONF_HOST, VStr (conf_host ui)); (CONF_PORT, VInt (conf_port ui))]
    = Ok tt ->
    async_step_user (Some ui) w
    = match send (info_request ui) w with
      | (o, w') =>
          match except_ClientError
                  (api.__init__ (conf_host ui) (conf_port ui)
                     (conf_api_key ui))
                  (read_response (fun st => st =? 200) "/info" o) with
          | Ok _ => (Ok (async_create_entry (conf_device_name ui) ui), w')
          | Raise e =>
              if isinstance_ActivityWatchApiConnectionError e
              then (Ok (async_show_form "user" USER_SCHEMA
                          (Some [("base", "cannot_connect")])), w')
              else if isinstance_Exception e
                   then (Ok (async_show_form "user" USER_SCHEMA
                               (Some [("base", "unknown")])), w')
                   else (Raise e, w')
          end
      end.
Proof.
  intros ui w Hgo.
  unfold async_step_user, bind, lift_res. rewrite Hgo.
  unfold validate, async_validate_connection, async_get_info, _get,
    info_request, try_except, bind, ret, raise.
  destruct (send _ w) as [o w'].
  destruct (except_ClientError _ _) as [v|e]; [reflexivity|].
  destruct (isinstance_ActivityWatchApiConnectionError e); [reflexivity|].
  destruct (isinstance_Exception e); reflexivity.
Qed.

End UserStepFacts.

(** X26.  The outcomes of the user step once the host finds no matching
    entry.  It sends one request, a GET for [/info] at the host and port
    entered.  If the session fails with a client error, or the server
    answers with another status than 200, the form is shown again, with
    [cannot_connect] in the first case and [unknown] in the second; on a
    200 with a JSON body the entry is created, titled with the device name
    and holding the input unchanged, whatever the body says. *)
Theorem user_step_outcomes :
  forall (Se : ClientSession) (H : ConfigFlow) (ui : UserInput)
         (w w' : World) (o : outcome),
    _async_abort_entries_match
      [(CONF_HOST, VStr (conf_host ui)); (CONF_PORT, VInt (conf_port ui))]
    = Ok tt ->
    send (info_request ui) w = (o, w') ->
    snd (async_step_user (Some ui) w) = w' /\
    (forall msg,
        o = Failed (ClientError msg) ->
        fst (async_step_user (Some ui) w)
        = Ok (async_show_form "user" USER_SCHEMA
                (Some [("base", "cannot_connect")]))) /\
    (forall resp body,
        o = Responded resp ->
        status resp <> 200 ->
        text resp = Ok body ->
        fst (async_step_user (Some ui) w)
        = Ok (async_show_form "user" USER_SCHEMA
                (Some [("base", "unknown")]))) /\
    (forall resp info,
        o = Responded resp ->
        status resp = 200 ->
        json resp = Ok info ->
        fst (async_step_user (Some ui) w)
        = Ok (async_create_entry (conf_device_name ui) ui)).
Proof.
  intros Se H ui w w' o Hgo Hsend.
  rewrite (user_step_unfold ui w Hgo), Hsend.
  split; [|split; [|split]].
  - destruct (except_ClientError _ _) as [v|e]; [reflexivity|].
    destruct (isinstance_ActivityWatchApiConnectionError e); [reflexivity|].
    destruct (isinstance_Exception e); reflexivity.
  - intros msg ->. reflexivity.
  - intros resp body -> Hst Hbody.
    cbn [read_response]. apply Z.eqb_neq in Hst. rewrite Hst.
    cbn [negb]. rewrite Hbody. reflexivity.
  - intros resp info -> Hst Hjson.
    cbn [read_response]. rewrite Hst, Hjson. reflexivity.
Qed.

Lemma user_step_outcomes_witness :
  @async_step_user scripted no_entries (Some test_input) []
  = (Ok (async_show_form "user" USER_SCHEMA
           (Some [("base", "cannot_connect")])), []) /\
  fst (@async_step_user scripted no_entries (Some test_input)
         [status_text 500 "Internal Server Error"])
  = Ok (async_show_form "user" USER_SCHEMA (Some [("base", "unknown")])) /\
  fst (@async_step_user scripted no_entries (Some test_input)
         [ok_json (VStr "anything")])
  = Ok (async_create_entry "Test-PC" test_input).
Proof.
  destruct (user_step_outcomes scripted no_entries test_input [] [] _
              eq_refl eq_refl) as (Hw & Hrefused & _).
  destruct (user_step_outcomes scripted no_entries test_input
              [status_text 500 "Internal Server Error"] [] _
              eq_refl eq_refl) as (_ & _ & Hstatus & _).
  destruct (user_step_outcomes scripted no_entries test_input
              [ok_json (VStr "anything")] [] _
              eq_refl eq_refl) as (_ & _ & _ & Hok).
  split; [|split].
  - rewrite (surjective_pairing
               (@async_step_user scripted no_entries (Some test_input) [])).
    rewrite Hw, (Hrefused "Connection refused" eq_refl). reflexivity.
  - apply (Hstatus _ "Internal Server Error" eq_refl);
      [discriminate|reflexivity].
  - apply (Hok _ (VStr "anything") eq_refl); reflexivity.
Defined.

(** X27.  What the user step lets out.  After the host's check, no error
    of the API client and no other [Exception] leaves the step: whatever
    the server does, the step returns a result, or raises something that
    is not an [Exception] (a cancellation, say), which it passes on as it
    came.  An entry is created only when the request was answered. *)
Theorem user_step_contains_errors :
  forall (Se : ClientSession) (H : ConfigFlow) (ui : UserInput) (w : World),
    _async_abort_entries_match
      [(CONF_HOST, VStr (conf_host ui)); (CONF_PORT, VInt (conf_port ui))]
    = Ok tt ->
    (forall e,
        fst (async_step_user (Some ui) w) = Raise e ->
        isinstance_Exception e = false /\
        (fst (send (info_request ui) w) = Failed e
         \/ exists resp,
              fst (send (info_request ui) w) = Responded resp /\
              (json resp = Raise e \/ text resp = Raise e))) /\
    (forall title data,
        fst (async_step_user (Some ui) w)
        = Ok (async_create_entry title data) ->
        exists resp info,
          fst (send (info_request ui) w) = Responded resp /\
          status resp = 200 /\ json resp = Ok info).
Proof.
  intros Se H ui w Hgo.
  rewrite (user_step_unfold ui w Hgo).
  destruct (send (info_request ui) w) as [o w']. cbn [fst].
  destruct o as [resp|e0]; cbn [read_response].
  - destruct (status resp =? 200) eqn:Hst; cbn [negb].
    + destruct (json resp) as [info|e0] eqn:Hjson.
      * cbn [except_ClientError fst].
        split; [intros e He; discriminate|].
        intros title data _. exists resp, info.
        apply Z.eqb_eq in Hst. repeat split; assumption.
      * destruct e0; cbn [except_ClientError
                            isinstance_ActivityWatchApiConnectionError
                            isinstance_Exception fst];
          try (split; intros; discriminate).
        destruct (negb _) eqn:Hexc; cbn [fst].
        -- split; intros; discriminate.
        -- split; [|intros; discriminate].
           intros e He. inversion He; subst e.
           split; [exact Hexc|].
           right. exists resp. split; [reflexivity|left; exact Hjson].
    + destruct (text resp) as [body|e0] eqn:Htext; cbn [res_bind].
      * cbn [except_ClientError
               isinstance_ActivityWatchApiConnectionError
               isinstance_Exception fst].
        split; intros; discriminate.
      * destruct e0; cbn [except_ClientError
                            isinstance_ActivityWatchApiConnectionError
                            isinstance_Exception fst];
          try (split; intros; discriminate).
        destruct (negb _) eqn:Hexc; cbn [fst].
        -- split; intros; discriminate.
        -- split; [|intros; discriminate].
           intros e He. inversion He; subst e.
           split; [exact Hexc|].
           right. exists resp. split; [reflexivity|right; exact Htext].
  - destruct e0; cbn [except_ClientError
                        isinstance_ActivityWatchApiConnectionError
                        isinstance_Exception fst];
      try (split; intros; discriminate).
    destruct (negb _) eqn:Hexc; cbn [fst].
    + split; intros; discriminate.
    + split; [|intros; discriminate].
      intros e He. inversion He; subst e.
      split; [exact Hexc|]. left. reflexivity.
Qed.

Lemma user_step_contains_errors_witness :
  fst (@async_step_user scripted no_entries (Some test_input)
         [Failed (OtherError "CancelledError")])
  = Raise (OtherError "CancelledError") /\
  fst (@async_step_user scripted no_entries (Some test_input)
         [Failed (OtherError "TimeoutError")])
  = Ok (async_show_form "user" USER_SCHEMA (Some [("base", "unknown")])) /\
  (forall title data,
      fst (@async_step_user scripted no_entries (Some test_input) [])
      <> Ok (async_create_entry title data)).
Proof.
  split; [reflexivity|]. split; [reflexivity|].
  intros title data Hentry.
  destruct (user_step_contains_errors scripted no_entries test_input []
              eq_refl) as (_ & Hcreated).
  destruct (Hcreated title data Hentry) as (resp & info & Hresp & _).
  discriminate.
Defined.

(** X28.  When the host finds a matching entry, the user step passes on
    what the host raised and sends no request; called without input, it
    shows the form without errors and sends none either. *)
Theorem user_step_without_request :
  forall (Se : ClientSession) (H : ConfigFlow) (w : World),
    (forall ui e,
        _async_abort_entries_match
          [(CONF_HOST, VStr (conf_host ui)); (CONF_PORT, VInt (conf_port ui))]
        = Raise e ->
        async_step_user (Some ui) w = (Raise e, w)) /\
    async_step_user None w
    = (Ok (async_show_form "user" USER_SCHEMA (Some [])), w).
Proof.
  intros Se H w. split; [|reflexivity].
  intros ui e Hstop.
  unfold async_step_user, bind, lift_res. rewrite Hstop. reflexivity.
Qed.

Lemma user_step_without_request_witness :
  @async_step_user scripted localhost_configured (Some test_input)
    [ok_json (VDict [])]
  = (Raise (OtherError "AbortFlow"), [ok_json (VDict [])]).
Proof.
  destruct (user_step_without_request scripted localhost_configured
              [ok_json (VDict [])]) as (Hstop & _).
  apply (Hstop test_input). reflexivity.
Defined.
